(** * speech-to-text-tools: a shallow embedding of the three batch scripts

    The repository holds three command line scripts:
    - [video_converter.py]  extracts the audio track of video files (ffmpeg);
    - [audio_splitter.py]   cuts audio files into fixed-length segments (ffprobe, ffmpeg);
    - [transcribe.py]       transcribes audio files (Whisper) and merges transcripts.

    The scripts are embedded as functions of a small state-and-exception
    monad over a world made of a file system and a trace of observable
    events.  External programs (ffmpeg, ffprobe, Whisper), the directory
    listing order and the clock are parameters of the development.

    Modelling conventions:
    - a [str] is the [string] of its UTF-8 bytes; [str.lower] acts on the
      ASCII letters, [str.strip] removes the white space of Unicode;
      comparison of strings is by byte, which for UTF-8 is the order of the
      code points, as Python's is;
    - reading a text file translates its line ends, as text mode does;
    - floating point durations are exact rationals ([Q]);
    - [os.makedirs(..., exist_ok=True)] is recorded in the trace and is
      taken to succeed; the directories it adds are not tracked;
    - [except Exception] catches what is an [Exception]: [SystemExit] and
      [KeyboardInterrupt] pass it by;
    - [print] and [tqdm.write] are recorded as structured messages, the
      decorations of the text (emoji, float formatting) are left out;
    - in the sequential embedding the progress thread appears as two events,
      its start and its stop-and-join; the interleaving of the two threads
      is the subject of the module [Heartbeat]. *)

From Stdlib Require Import Ascii String List ZArith QArith Qround Lia Bool.
From stdpp Require Import base option list sorting gmap strings relations.

Close Scope Q_scope.
Local Open Scope Z_scope.
Local Open Scope nat_scope.

(** ** Python builtins on strings *)

Module Py.

Definition lower_char (c : ascii) : ascii :=
  let n := nat_of_ascii c in
  if (65 <=? n) && (n <=? 90) then ascii_of_nat (n + 32) else c.

(** [s.lower()] *)
Fixpoint lower (s : string) : string :=
  match s with
  | EmptyString => EmptyString
  | String c r => String (lower_char c) (lower r)
  end.

(** [s.startswith(p)] *)
Definition startswith (s p : string) : bool := String.prefix p s.

(** [s.endswith(x)] for a single suffix [x] *)
Definition endswith (s x : string) : bool :=
  (String.length x <=? String.length s) &&
  String.eqb (String.substring (String.length s - String.length x) (String.length x) s) x.

(** [s.endswith(t)] for a tuple [t] of suffixes *)
Definition endswith_any (s : string) (t : list string) : bool :=
  existsb (endswith s) t.

(** [needle in hay] *)
Definition contains (needle hay : string) : bool :=
  match String.index 0 needle hay with Some _ => true | None => false end.

(** [str(b)] for a boolean *)
Definition str_bool (b : bool) : string := if b then "True" else "False".

Definition digit (d : nat) : ascii := ascii_of_nat (48 + d).

Fixpoint str_nat_aux (fuel n : nat) (acc : string) : string :=
  match fuel with
  | O => acc
  | S f =>
      let acc' := String (digit (n mod 10)) acc in
      if n <? 10 then acc' else str_nat_aux f (n / 10) acc'
  end.

(** [str(n)] for a natural number *)
Definition str_nat (n : nat) : string := str_nat_aux (S n) n "".

(** [str(z)] for an integer *)
Definition str (z : Z) : string :=
  if (z <? 0)%Z then "-" +:+ str_nat (Z.to_nat (- z)) else str_nat (Z.to_nat z).

Fixpoint zeros (k : nat) : string :=
  match k with O => "" | S k' => String "0" (zeros k') end.

(** [f"{n:0{w}d}"] for a natural number: decimal, left-padded with zeros to
    a width of at least [w] *)
Definition zfill (w n : nat) : string :=
  let s := str_nat n in zeros (w - String.length s) +:+ s.

(** [sep.join(l)] *)
Definition join_str (sep : string) (l : list string) : string := String.concat sep l.

(** *** White space

    A [str] is held as its UTF-8 bytes.  The characters [str.strip] removes
    are those [str.isspace] accepts: U+0009-000D, U+001C-0020, U+0085,
    U+00A0, U+1680, U+2000-200A, U+2028, U+2029, U+202F, U+205F and U+3000,
    of one, two or three bytes. *)

Definition between (lo hi n : nat) : bool := (lo <=? n) && (n <=? hi).

(** a white space character of one byte *)
Definition space1 (a : nat) : bool := between 9 13 a || between 28 32 a.

(** a white space character of two bytes: U+0085, U+00A0 *)
Definition space2 (a b : nat) : bool := (a =? 194) && ((b =? 133) || (b =? 160)).

(** a white space character of three bytes *)
Definition space3 (a b c : nat) : bool :=
  ((a =? 225) && (b =? 154) && (c =? 128))                    (* U+1680 *)
  || ((a =? 226) && (b =? 128)
      && (between 128 138 c || (c =? 168) || (c =? 169) || (c =? 175)))
                                       (* U+2000-200A, U+2028, U+2029, U+202F *)
  || ((a =? 226) && (b =? 129) && (c =? 159))                 (* U+205F *)
  || ((a =? 227) && (b =? 128) && (c =? 128)).                (* U+3000 *)

(** Drop the white space characters at the front of a list of bytes; with
    [backwards] the list is a reversed string, each character has its bytes
    in reverse. *)
Fixpoint drop_spaces (backwards : bool) (l : list nat) : list nat :=
  match l with
  | [] => []
  | a :: r =>
      if space1 a then drop_spaces backwards r
      else
        match r with
        | [] => l
        | b :: r2 =>
            if (if backwards then space2 b a else space2 a b) then drop_spaces backwards r2
            else
              match r2 with
              | [] => l
              | c :: r3 =>
                  if (if backwards then space3 c b a else space3 a b c)
                  then drop_spaces backwards r3
                  else l
              end
        end
  end.

Definition bytes_of (s : string) : list nat := map nat_of_ascii (list_ascii_of_string s).

Definition of_bytes (l : list nat) : string := string_of_list_ascii (map ascii_of_nat l).

(** [s.strip()] *)
Definition strip (s : string) : string :=
  of_bytes (rev (drop_spaces true (rev (drop_spaces false (bytes_of s))))).

(** [len(s)]: the number of code points, that is of the bytes that do not
    continue a character. *)
Definition len (s : string) : nat :=
  length (List.filter (fun b => negb (between 128 191 b)) (bytes_of s)).

(** What reading a text file in the default mode makes of its line ends:
    CR LF and a lone CR both become LF. *)
Fixpoint universal_newlines (s : string) : string :=
  match s with
  | EmptyString => EmptyString
  | String c r =>
      if (nat_of_ascii c =? 13) then
        match r with
        | String c2 r2 =>
            if (nat_of_ascii c2 =? 10)
            then String c2 (universal_newlines r2)
            else String (ascii_of_nat 10) (universal_newlines r)
        | EmptyString => String (ascii_of_nat 10) EmptyString
        end
      else String c (universal_newlines r)
  end.

(** *** Stable sorting: [sorted(l, key=..., reverse=...)]

    Python's [sorted] is stable, and with [reverse=True] elements with
    equal keys still keep their original order. *)
Section Sorted.
Context {A : Type} (key : A -> string).

Fixpoint insert_by (x : A) (l : list A) : list A :=
    match l with
    | [] => [x]
    | y :: r => if String.leb (key x) (key y) then x :: y :: r else y :: insert_by x r
    end.

Definition sort_by (l : list A) : list A := foldr insert_by [] l.

Definition sorted (reverse : bool) (l : list A) : list A :=
    if reverse then rev (sort_by (rev l)) else sort_by l.
End Sorted.

End Py.

(** ** [os.path] (POSIX flavour) *)

Module OsPath.

(** Split at the last occurrence of [c]: the text before it and the text after it. *)
Fixpoint rsplit (c : ascii) (s : string) : option (string * string) :=
  match s with
  | EmptyString => None
  | String a r =>
      match rsplit c r with
      | Some (h, t) => Some (String a h, t)
      | None => if Ascii.eqb a c then Some (EmptyString, r) else None
      end
  end.

Fixpoint all_char (c : ascii) (s : string) : bool :=
  match s with
  | EmptyString => true
  | String a r => Ascii.eqb a c && all_char c r
  end.

Fixpoint rstrip_char (c : ascii) (s : string) : string :=
  match s with
  | EmptyString => EmptyString
  | String a r =>
      match rstrip_char c r with
      | EmptyString => if Ascii.eqb a c then EmptyString else String a EmptyString
      | r' => String a r'
      end
  end.

(** [os.path.basename(p)] *)
Definition basename (p : string) : string :=
  match rsplit "/" p with
  | Some (_, t) => t
  | None => p
  end.

(** [os.path.dirname(p)] *)
Definition dirname (p : string) : string :=
  match rsplit "/" p with
  | Some (h, _) =>
      let head := h +:+ "/" in
      if all_char "/" head then head else rstrip_char "/" head
  | None => ""
  end.

(** [os.path.splitext(p)]: the extension starts at the last dot of the last
    path component, leading dots of that component do not count. *)
Definition splitext (p : string) : string * string :=
  let '(dir, base) :=
    match rsplit "/" p with
    | Some (h, t) => (h +:+ "/", t)
    | None => ("", p)
    end in
  match rsplit "." base with
  | Some (stem, ext) =>
      if all_char "." stem then (p, "") else (dir +:+ stem, "." +:+ ext)
  | None => (p, "")
  end.

(** [os.path.join(a, b)] *)
Definition join (a b : string) : string :=
  if Py.startswith b "/" then b
  else if String.eqb a "" || Py.endswith a "/" then a +:+ b
  else a +:+ "/" +:+ b.

End OsPath.


(** ** The world: file system, trace, exceptions *)

Inductive node :=
  | Dir
  | File (body : string)
  | Unreadable (why : string).   (* a file whose open or read raises [why] *)

Inductive exn :=
  | FileNotFoundError (detail : string)
  | OSError (detail : string)
  | ValueError (detail : string)
  | ZeroDivisionError
  | RuntimeError (detail : string)
  | SystemExit (code : Z)         (* sys.exit(code) *)
  | KeyboardInterrupt.            (* the user's Ctrl-C *)

(** [str(e)] *)
Definition exn_str (e : exn) : string :=
  match e with
  | FileNotFoundError d | OSError d | ValueError d | RuntimeError d => d
  | ZeroDivisionError => "float division by zero"
  | SystemExit c => Py.str c
  | KeyboardInterrupt => ""
  end.

(** The exceptions that are instances of [Exception], and so are caught by
    [except Exception]; [SystemExit] and [KeyboardInterrupt] are not. *)
Definition is_exception (e : exn) : bool :=
  match e with
  | SystemExit _ | KeyboardInterrupt => false
  | _ => true
  end.

(** What the scripts print, one constructor per [print] / [tqdm.write]. *)
Inductive message :=
  (* video_converter.py *)
  | VSkipping (base_name output_path : string)
  | VConverted (base_name output_filename : string)
  | VErrorConverting (base_name detail : string)
  | VFfmpegNotFound
  | VUnsupported (path : string)
  | VFileNotFound (path : string)
  | VPathNotFound (path : string)
  | VNoVideoFiles
  | VHeader (count : nat) (output_format output_dir bitrate : string)
  | VSummaryTotal (n : nat)
  | VSummaryConverted (n : nat)
  | VSummarySkipped (n : Z)
  | VSummaryFailed (n : nat)
  | VSummaryFooter (output_dir : string)
  (* audio_splitter.py *)
  | ASplitting (base_name : string) (num_segments : Z)
  | ASplitDone (base_name : string) (num_segments : Z) (output_dir : string)
  | AInputFolderNotFound (folder : string)
  | AUnsupported (path : string)
  | AFileNotFound (path : string)
  | ANoAudioFiles (folder : string)
  | AFound (n : nat)
  | ASummary (files : nat) (segments : Z) (output_dir : string)
  (* transcribe.py *)
  | TWarnUnsupported (path : string)
  | TTranscriptExists (txt_path : string)
  | TTranscriptExistsFor (filename txt_path : string)
  | TEcho (transcript : string)
  | TErrorReadingExisting (detail : string)
  | TLoadingModel
  | TModelLoaded (name : string)
  | TStarting (filename : string)
  | TFinished (filename : string)
  | TSaved (txt_path : string)
  | TNoTranscripts (folder : string)
  | TFoundTranscripts (n : nat) (direction : string)
  | TErrorReading (filename detail : string)
  | TNoValidTranscripts
  | TUnifiedSaved (path : string)
  | TSortedIn (direction : string)
  | TNoAudio (folder : string)
  | TFoundAudioSorted (n : nat) (direction : string)
  | TFoundAudio (n : nat)
  | TNotFileOrDir (path : string)
  | TNeedModelOrUnify
  | TUnifyIgnored.

Inductive event :=
  | Say (m : message)
  | Makedirs (path : string)
  | Run (cmd : list string)                 (* subprocess.run(cmd) *)
  | LoadModel (name : string)               (* whisper.load_model *)
  | Transcribe (path language : string)     (* model.transcribe *)
  | HeartbeatStart (label : string)         (* progress_thread.start() *)
  | HeartbeatStop                           (* stop_progress.set() and join *)
  | Read (path : string)
  | Write (path body : string).

Record world := World { fs : gmap string node; trace : list event }.

Inductive outcome (A : Type) :=
  | Ret (a : A)
  | Raise (e : exn).
Arguments Ret {A} a.
Arguments Raise {A} e.

(** ** A state and exception monad *)

Definition M (A : Type) : Type := world -> outcome A * world.

Definition ret {A} (a : A) : M A := fun w => (Ret a, w).

Definition bind {A B} (m : M A) (k : A -> M B) : M B :=
  fun w =>
    match m w with
    | (Ret a, w') => k a w'
    | (Raise e, w') => (Raise e, w')
    end.

Definition raise {A} (e : exn) : M A := fun w => (Raise e, w).

(** [try: m  except Exception as e: h e]: what is not an [Exception]
    passes the handler by. *)
Definition try_except {A} (m : M A) (h : exn -> M A) : M A :=
  fun w =>
    match m w with
    | (Ret a, w') => (Ret a, w')
    | (Raise e, w') => if is_exception e then h e w' else (Raise e, w')
    end.

Notation "'let*' x ':=' c1 'in' c2" := (bind c1 (fun x => c2))
  (at level 10, x pattern, c1 at level 100, c2 at level 200).
Notation "c1 ;; c2" := (bind c1 (fun _ => c2))
  (at level 100, c2 at level 200, right associativity).

Definition emit (e : event) : M unit :=
  fun w => (Ret tt, {| fs := fs w; trace := trace w ++ [e] |}).

Definition say (m : message) : M unit := emit (Say m).

Definition when (b : bool) (m : M unit) : M unit := if b then m else ret tt.

Definition truthy (s : option string) : bool :=
  match s with
  | Some x => negb (String.eqb x "")
  | None => false
  end.

Definition nl : string := String (ascii_of_nat 10) "".

(** *** File system primitives *)

Definition exists_in (f : gmap string node) (p : string) : bool :=
  match f !! p with Some _ => true | None => false end.

Definition isfile_in (f : gmap string node) (p : string) : bool :=
  match f !! p with Some (File _) | Some (Unreadable _) => true | _ => false end.

Definition isdir_in (f : gmap string node) (p : string) : bool :=
  match f !! p with Some Dir => true | _ => false end.

(** [os.path.exists], [os.path.isfile], [os.path.isdir] *)
Definition path_exists (p : string) : M bool := fun w => (Ret (exists_in (fs w) p), w).
Definition isfile (p : string) : M bool := fun w => (Ret (isfile_in (fs w) p), w).
Definition isdir (p : string) : M bool := fun w => (Ret (isdir_in (fs w) p), w).

(** [os.makedirs(p, exist_ok=True)].  The folder is taken to be there or
    to be creatable: the call is recorded in the trace, the directories it
    may add are not tracked in the file system and its failure (an empty
    path, a regular file in the way) is not modelled.  Where a property
    gives the world after a single call, or says that it returns, it is
    stated for a folder that is in place, for which the call does nothing. *)
Definition makedirs (p : string) : M unit := emit (Makedirs p).

(** [os.path.getsize(p)]: only whether it raises matters *)
Definition getsize (p : string) : M unit :=
  fun w =>
    if exists_in (fs w) p then (Ret tt, w)
    else (Raise (FileNotFoundError ("No such file or directory: " +:+ p)), w).

(** [with open(p, "r", encoding="utf-8") as f: f.read()]; the line ends are
    translated as text mode does. *)
Definition read_text (p : string) : M string :=
  fun w =>
    match fs w !! p with
    | Some (File body) =>
        (Ret (Py.universal_newlines body), {| fs := fs w; trace := trace w ++ [Read p] |})
    | Some (Unreadable why) => (Raise (OSError why), w)
    | Some Dir => (Raise (OSError ("Is a directory: " +:+ p)), w)
    | None => (Raise (FileNotFoundError ("No such file or directory: " +:+ p)), w)
    end.

(** [with open(p, "w", encoding="utf-8") as f: f.write(body)] (on POSIX,
    where writing leaves line ends as they are) *)
Definition write_text (p body : string) : M unit :=
  fun w =>
    match fs w !! p with
    | Some Dir => (Raise (OSError ("Is a directory: " +:+ p)), w)
    | _ => (Ret tt, {| fs := <[p := File body]> (fs w); trace := trace w ++ [Write p body] |})
    end.

(** ** Time stamps *)

Record datetime := Datetime {
  year : nat; month : nat; day : nat;
  hour : nat; minute : nat; second : nat; microsecond : nat }.


(** [t.strftime("%Y%m%d_%H%M%S")] *)
Definition strftime (t : datetime) : string :=
  Py.zfill 4 (year t) +:+ Py.zfill 2 (month t) +:+ Py.zfill 2 (day t) +:+ "_" +:+
  Py.zfill 2 (hour t) +:+ Py.zfill 2 (minute t) +:+ Py.zfill 2 (second t).

(** ** External collaborators *)

(** Result of [subprocess.run]: the process ran and exited, the program is
    missing ([FileNotFoundError]), or the call failed otherwise. *)
Inductive proc :=
  | Exited (returncode : Z) (stderr : string)
  | NotInstalled
  | Crashed (detail : string).

Record Env := {
  (** [os.listdir(d)], in the order the operating system gives *)
  listdir : string -> list string;
  (** running an ffmpeg command line on a file system *)
  ffmpeg : list string -> gmap string node -> proc * gmap string node;
  (** [float(...)] of what ffprobe prints for a file; raises when ffprobe is
      missing or its output does not parse *)
  ffprobe : string -> gmap string node -> outcome Q;
  (** [model.transcribe(path, language=...)]: the text of each segment *)
  whisper : string -> string -> string -> gmap string node -> outcome (list string);
  (** [datetime.datetime.now()] *)
  now : datetime;
  (** wall time spent transcribing a file, and its rendering with [:.1f] *)
  elapsed_of : string -> Q;
  format_1f : Q -> string }.

(** [os.listdir(d)] where the code calls it without a test before: it
    raises when [d] is not a directory. *)
Definition os_listdir (env : Env) (d : string) : M (list string) :=
  fun w =>
    match fs w !! d with
    | Some Dir => (Ret (listdir env d), w)
    | Some _ => (Raise (OSError ("Not a directory: " +:+ d)), w)
    | None => (Raise (FileNotFoundError ("No such file or directory: " +:+ d)), w)
    end.

(** [subprocess.run(cmd, ...)] of an ffmpeg command line *)
Definition subprocess_run (env : Env) (cmd : list string) : M (Z * string) :=
  fun w =>
    let '(p, f') := ffmpeg env cmd (fs w) in
    let w' := {| fs := f'; trace := trace w ++ [Run cmd] |} in
    match p with
    | Exited rc err => (Ret (rc, err), w')
    | NotInstalled => (Raise (FileNotFoundError "No such file or directory: 'ffmpeg'"), w')
    | Crashed d => (Raise (OSError d), w')
    end.

(** ** video_converter.py *)

Module VideoConverter.

Definition VIDEO_EXTENSIONS : list string :=
  [".mp4"; ".mov"; ".avi"; ".mkv"; ".webm"; ".flv"; ".wmv"; ".m4v"; ".mpg"; ".mpeg"].

Definition get_audio_codec (output_format : string) : string :=
  if String.eqb output_format "m4a" then "aac"
  else if String.eqb output_format "mp3" then "libmp3lame"
  else if String.eqb output_format "opus" then "libopus"
  else if String.eqb output_format "wav" then "pcm_s16le"
  else "aac".

Definition is_video (name : string) : bool :=
  Py.endswith_any (Py.lower name) VIDEO_EXTENSIONS.

(** The deterministic output path of an item. *)
Definition output_path_of (video_path output_dir output_format : string) : string :=
  let base_name := fst (OsPath.splitext (OsPath.basename video_path)) in
  OsPath.join output_dir (base_name +:+ "." +:+ output_format).

Definition ffmpeg_cmd (video_path output_format bitrate output_path : string) : list string :=
  ["ffmpeg"; "-i"; video_path; "-vn"; "-acodec"; get_audio_codec output_format; "-y"]
  ++ (if String.eqb output_format "wav" then [] else ["-b:a"; bitrate])
  ++ [output_path].

Record args := Args {
  path : string;
  file : option string;
  output : option string;
  format : string;
  bitrate : string;
  force : bool }.

Section WithEnv.
Variable env : Env.

Definition convert_video_to_audio
      (video_path output_dir output_format bitrate : string) (force : bool) : M bool :=
    makedirs output_dir ;;
    let base_name := fst (OsPath.splitext (OsPath.basename video_path)) in
    let output_filename := base_name +:+ "." +:+ output_format in
    let output_path := OsPath.join output_dir output_filename in
    let* present := path_exists output_path in
    if present && negb force then
      say (VSkipping base_name output_path) ;;
      ret true
    else
      let cmd := ffmpeg_cmd video_path output_format bitrate output_path in
      try_except
        (let* result := subprocess_run env cmd in
         if (fst result =? 0)%Z then
           getsize output_path ;;
           say (VConverted base_name output_filename) ;;
           ret true
         else
           say (VErrorConverting base_name (snd result)) ;;
           ret false)
        (fun e =>
           match e with
           | FileNotFoundError _ => say VFfmpegNotFound ;; ret false
           | _ => say (VErrorConverting base_name (exn_str e)) ;; ret false
           end).

Definition get_video_files (path : string) (specific_file : option string) : M (list string) :=
    let* f := isfile path in
    if f then
      if is_video path then ret [path]
      else say (VUnsupported path) ;; ret []
    else
      let* d := isdir path in
      if d then
        match specific_file with
        | Some name =>
            if String.eqb name "" then
              ret (map (OsPath.join path)
                     (List.filter is_video (Py.sorted id false (listdir env path))))
            else
              let file_path := OsPath.join path name in
              let* f' := isfile file_path in
              if f' then
                if is_video file_path then ret [file_path]
                else say (VUnsupported name) ;; ret []
              else say (VFileNotFound file_path) ;; ret []
        | None =>
            ret (map (OsPath.join path)
                   (List.filter is_video (Py.sorted id false (listdir env path))))
        end
      else say (VPathNotFound path) ;; ret [].

  (** The [for video_path in video_files] loop of [main] with its three counters. *)
Fixpoint convert_all (video_files : list string) (output_dir : string) (a : args)
      (successful failed skipped : nat) : M (nat * nat * nat) :=
    match video_files with
    | [] => ret (successful, failed, skipped)
    | video_path :: rest =>
        let* result := convert_video_to_audio video_path output_dir (format a) (bitrate a) (force a) in
        if result then
          if negb (force a) && Py.contains "Skipping" (Py.str_bool result)
          then convert_all rest output_dir a successful failed (S skipped)
          else convert_all rest output_dir a (S successful) failed skipped
        else convert_all rest output_dir a successful (S failed) skipped
    end.

Definition main (a : args) : M unit :=
    let* video_files := get_video_files (path a) (file a) in
    match video_files with
    | [] => say VNoVideoFiles
    | _ =>
        let* output_dir :=
          (if truthy (output a) then ret (default "" (output a))
           else
             let* f := isfile (path a) in
             if f then
               let d := OsPath.dirname (path a) in
               ret (if String.eqb d "" then "." else d)
             else ret (path a)) in
        say (VHeader (length video_files) (format a) output_dir (bitrate a)) ;;
        let* counts := convert_all video_files output_dir a 0 0 0 in
        let '(successful, failed, skipped) := counts in
        say (VSummaryTotal (length video_files)) ;;
        say (VSummaryConverted successful) ;;
        when (0 <? skipped)
          (say (VSummarySkipped (Z.of_nat (length video_files) - Z.of_nat successful - Z.of_nat failed))) ;;
        when (0 <? failed) (say (VSummaryFailed failed)) ;;
        say (VSummaryFooter output_dir)
    end.
End WithEnv.

End VideoConverter.

(** ** audio_splitter.py *)

Module AudioSplitter.

Definition AUDIO_SUFFIXES : list string := [".m4a"; ".opus"].

Definition is_audio (name : string) : bool :=
  Py.endswith_any (Py.lower name) AUDIO_SUFFIXES.

Definition ffprobe_cmd (file_path : string) : list string :=
  ["ffprobe"; "-v"; "error"; "-show_entries"; "format=duration";
   "-of"; "default=noprint_wrappers=1:nokey=1"; file_path].

(** [f"{base_name}_part{i+1:03d}.{output_format}"] *)
Definition output_filename (base_name : string) (i : nat) (output_format : string) : string :=
  base_name +:+ "_part" +:+ Py.zfill 3 (i + 1) +:+ "." +:+ output_format.

Definition segment_cmd (file_path output_dir base_name : string) (segment_length : Z)
    (output_format : string) (i : nat) : list string :=
  let start_time := (Z.of_nat i * segment_length)%Z in
  let output_path := OsPath.join output_dir (output_filename base_name i output_format) in
  ["ffmpeg"; "-i"; file_path; "-ss"; Py.str start_time; "-t"; Py.str segment_length;
   "-c"; "copy"; "-y"; output_path].

Record args := Args {
  input_folder : string;
  file : option string;
  output : string;
  segment_length : Z;
  format : string }.

Section WithEnv.
Variable env : Env.

Definition get_duration (file_path : string) : M Q :=
    fun w =>
      let w' := {| fs := fs w; trace := trace w ++ [Run (ffprobe_cmd file_path)] |} in
      (ffprobe env file_path (fs w), w').

  (** The [for i in range(num_segments)] loop. *)
Fixpoint run_segments (file_path output_dir base_name : string) (segment_length : Z)
      (output_format : string) (indices : list nat) : M unit :=
    match indices with
    | [] => ret tt
    | i :: rest =>
        subprocess_run env (segment_cmd file_path output_dir base_name segment_length output_format i) ;;
        run_segments file_path output_dir base_name segment_length output_format rest
    end.

Definition split_audio_file (file_path output_dir : string) (segment_length : Z)
      (output_format : string) : M Z :=
    makedirs output_dir ;;
    let base_name := fst (OsPath.splitext (OsPath.basename file_path)) in
    let* duration := get_duration file_path in
    if (segment_length =? 0)%Z then raise ZeroDivisionError
    else
      let num_segments := Qceiling (duration / inject_Z segment_length) in
      say (ASplitting base_name num_segments) ;;
      run_segments file_path output_dir base_name segment_length output_format
        (seq 0 (Z.to_nat num_segments)) ;;
      say (ASplitDone base_name num_segments output_dir) ;;
      ret num_segments.

  (** The [for file_path in audio_files] loop of [main]. *)
Fixpoint split_all (audio_files : list string) (a : args) (total_segments : Z) : M Z :=
    match audio_files with
    | [] => ret total_segments
    | file_path :: rest =>
        let* segments := split_audio_file file_path (output a) (segment_length a) (format a) in
        split_all rest a (total_segments + segments)%Z
    end.

  (** Discovery part of [main]: [None] stands for the early [return]s. *)
Definition discover (a : args) : M (option (list string)) :=
    if truthy (file a) then
      let name := default "" (file a) in
      let* f := isfile name in
      let file_path := if f then name else OsPath.join (input_folder a) name in
      let* f' := isfile file_path in
      if f' then
        if is_audio file_path then ret (Some [file_path])
        else say (AUnsupported file_path) ;; ret None
      else say (AFileNotFound file_path) ;; ret None
    else
      ret (Some (map (OsPath.join (input_folder a))
                   (List.filter is_audio (listdir env (input_folder a))))).

Definition main (a : args) : M unit :=
    let* d := isdir (input_folder a) in
    if negb d then say (AInputFolderNotFound (input_folder a))
    else
      let* found := discover a in
      match found with
      | None => ret tt
      | Some [] => say (ANoAudioFiles (input_folder a))
      | Some audio_files =>
          say (AFound (length audio_files)) ;;
          makedirs (output a) ;;
          let* total_segments := split_all audio_files a 0%Z in
          say (ASummary (length audio_files) total_segments (output a))
      end.
End WithEnv.

End AudioSplitter.

(** ** transcribe.py *)

Module Transcribe.

Definition AUDIO_SUFFIXES : list string := [".m4a"; ".opus"].

Definition is_audio (name : string) : bool :=
  Py.endswith_any (Py.lower name) AUDIO_SUFFIXES.

(** One entry of the [unified_transcripts] list. *)
Record item := Item {
  filename : string;
  base_name : string;
  transcript : string;
  duration : Q }.

(** Line 127: the candidate scan of [unify_transcripts]. *)
Definition is_candidate (f : string) : bool :=
  Py.endswith (Py.lower f) ".txt" && negb (Py.startswith f "unified_transcript").

Definition sort_key (x : string) : string := fst (OsPath.splitext x).

Definition sort_suffix (sort_order : string) : string :=
  if String.eqb (Py.lower sort_order) "desc" then "_desc" else "_asc".

Definition sort_direction (sort_order : string) : string :=
  if String.eqb (Py.lower sort_order) "desc" then "descending" else "ascending".

(** [f"unified_transcript{sort_suffix}_{timestamp}.txt"] *)
Definition unified_file_name (sort_order : string) (t : datetime) : string :=
  "unified_transcript" +:+ sort_suffix sort_order +:+ "_" +:+ strftime t +:+ ".txt".

Definition rule : string := Py.join_str "" (repeat "=" 60).

(** The text written for the section number [i] of [total]. *)
Definition section_text (duration_info : item -> string) (total i : nat) (it : item) : string :=
  nl +:+ nl +:+ rule +:+ nl +:+
  "PART " +:+ Py.str_nat i +:+ "/" +:+ Py.str_nat total +:+ ": " +:+ filename it +:+ duration_info it +:+ nl +:+
  rule +:+ nl +:+ nl +:+
  transcript it +:+
  nl +:+ nl.

Fixpoint render_from (duration_info : item -> string) (total i : nat) (l : list item) : string :=
  match l with
  | [] => ""
  | it :: rest => section_text duration_info total i it +:+ render_from duration_info total (S i) rest
  end.

(** Everything the [for i, item in enumerate(unified_transcripts, 1)] loop writes. *)
Definition render (duration_info : item -> string) (l : list item) : string :=
  render_from duration_info (length l) 1 l.

Section WithEnv.
Variable env : Env.

(** [whisper.load_model(model_name, device="cpu")] with the two prints
    around it; without a model name the call raises. *)
Definition load_model (model_name : option string) : M unit :=
    say TLoadingModel ;;
    match model_name with
    | Some name => emit (LoadModel name) ;; say (TModelLoaded name)
    | None => raise (RuntimeError "no model name")
    end.

Definition model_transcribe (model_name file_path language : string) : M (list string) :=
    fun w =>
      (whisper env model_name file_path language (fs w),
       {| fs := fs w; trace := trace w ++ [Transcribe file_path language] |}).

Definition echo (print_to_screen : bool) (transcript : string) : M unit :=
    when print_to_screen (say (TEcho transcript)).

Definition transcribe_single_file (file_path model_name language : string)
      (print_to_screen : bool) : M string :=
    let* f := isfile file_path in
    if negb f then raise (FileNotFoundError ("File not found: " +:+ file_path))
    else
      when (negb (is_audio file_path)) (say (TWarnUnsupported file_path)) ;;
      let filename := OsPath.basename file_path in
      let base_name := fst (OsPath.splitext filename) in
      let output_dir := OsPath.dirname file_path in
      let txt_path := OsPath.join output_dir (base_name +:+ ".txt") in
      let* present := path_exists txt_path in
      if present then
        say (TTranscriptExists txt_path) ;;
        when print_to_screen
          (try_except
             (let* transcript := read_text txt_path in say (TEcho transcript))
             (fun e => say (TErrorReadingExisting (exn_str e)))) ;;
        ret txt_path
      else
        load_model (Some model_name) ;;
        say (TStarting filename) ;;
        emit (HeartbeatStart filename) ;;
        try_except
          (let* result := model_transcribe model_name file_path language in
           emit HeartbeatStop ;;
           say (TFinished filename) ;;
           let transcript := Py.join_str nl (map Py.strip result) in
           write_text txt_path transcript ;;
           say (TSaved txt_path) ;;
           echo print_to_screen transcript ;;
           ret txt_path)
          (fun e => emit HeartbeatStop ;; raise e).

  (** Lines 156-159: the first sibling audio file that exists, else ["Unknown"]. *)
Fixpoint find_original (folder : string) (possible_audio_files : list string) : M string :=
    match possible_audio_files with
    | [] => ret "Unknown"
    | audio_file :: rest =>
        let* present := path_exists (OsPath.join folder audio_file) in
        if present then ret audio_file else find_original folder rest
    end.

  (** Lines 141-169: the reading loop of [unify_transcripts]. *)
Fixpoint read_all (folder : string) (txt_files : list string) (unified_transcripts : list item)
      : M (list item) :=
    match txt_files with
    | [] => ret unified_transcripts
    | filename :: rest =>
        let file_path := OsPath.join folder filename in
        let* unified_transcripts' :=
          try_except
            (let* transcript := read_text file_path in
             let base_name := fst (OsPath.splitext filename) in
             let* original_file :=
               find_original folder [base_name +:+ ".m4a"; base_name +:+ ".opus"] in
             ret (unified_transcripts ++ [Item original_file base_name transcript 0%Q]))
            (fun e =>
               say (TErrorReading filename (exn_str e)) ;;
               ret unified_transcripts) in
        read_all folder rest unified_transcripts'
    end.

Definition unify_transcripts (folder sort_order : string) : M unit :=
    let* names := os_listdir env folder in
    let txt_files := List.filter is_candidate names in
    match txt_files with
    | [] => say (TNoTranscripts folder)
    | _ =>
        let reverse_sort := String.eqb (Py.lower sort_order) "desc" in
        let txt_files := Py.sorted sort_key reverse_sort txt_files in
        say (TFoundTranscripts (length txt_files) (sort_direction sort_order)) ;;
        let* unified_transcripts := read_all folder txt_files [] in
        match unified_transcripts with
        | [] => say TNoValidTranscripts
        | _ =>
            let unified_file_path := OsPath.join folder (unified_file_name sort_order (now env)) in
            write_text unified_file_path (render (fun _ => "") unified_transcripts) ;;
            say (TUnifiedSaved unified_file_path) ;;
            say (TSortedIn (sort_direction sort_order))
        end
    end.

Definition duration_info (it : item) : string :=
    if Qlt_le_dec 0 (duration it)
    then " (Transcribed in " +:+ format_1f env (duration it) +:+ " seconds)"
    else "".

  (** Lines 226-311: the [for filename in audio_files] loop of [transcribe_folder]. *)
Fixpoint transcribe_all (folder model_name language : string) (print_to_screen : bool)
      (unify : option string) (audio_files : list string) (unified_transcripts : list item)
      : M (list item) :=
    match audio_files with
    | [] => ret unified_transcripts
    | filename :: rest =>
        let file_path := OsPath.join folder filename in
        let base_name := fst (OsPath.splitext filename) in
        let txt_path := OsPath.join folder (base_name +:+ ".txt") in
        let* transcript_exists := path_exists txt_path in
        let* unified_transcripts' :=
          (if transcript_exists then
             say (TTranscriptExistsFor filename txt_path) ;;
             if truthy unify then
               try_except
                 (let* transcript := read_text txt_path in
                  ret (unified_transcripts ++ [Item filename base_name transcript 0%Q]))
                 (fun e =>
                    say (TErrorReadingExisting (exn_str e)) ;;
                    ret unified_transcripts)
             else ret unified_transcripts
           else
             say (TStarting filename) ;;
             emit (HeartbeatStart filename) ;;
             try_except
               (let* result := model_transcribe model_name file_path language in
                emit HeartbeatStop ;;
                say (TFinished filename) ;;
                let transcript := Py.join_str nl (map Py.strip result) in
                write_text txt_path transcript ;;
                say (TSaved txt_path) ;;
                echo print_to_screen transcript ;;
                ret (if truthy unify
                     then unified_transcripts ++ [Item filename base_name transcript (elapsed_of env file_path)]
                     else unified_transcripts))
               (fun e => emit HeartbeatStop ;; raise e)) in
        transcribe_all folder model_name language print_to_screen unify rest unified_transcripts'
    end.

Definition transcribe_folder (folder : string) (model_name : option string) (language : string)
      (print_to_screen : bool) (unify : option string) : M unit :=
    if truthy unify && negb (truthy model_name) then
      unify_transcripts folder (default "" unify)
    else
      load_model model_name ;;
      let* d := isdir folder in
      if negb d then raise (FileNotFoundError ("Folder not found: " +:+ folder))
      else
        let audio_files := List.filter is_audio (listdir env folder) in
        match audio_files with
        | [] => say (TNoAudio folder)
        | _ =>
            let u := default "" unify in
            let audio_files :=
              if truthy unify
              then Py.sorted sort_key (String.eqb (Py.lower u) "desc") audio_files
              else audio_files in
            (if truthy unify
             then say (TFoundAudioSorted (length audio_files) (sort_direction u))
             else say (TFoundAudio (length audio_files))) ;;
            let* unified_transcripts :=
              transcribe_all folder (default "" model_name) language print_to_screen unify audio_files [] in
            match unified_transcripts with
            | [] => ret tt
            | _ =>
                when (truthy unify)
                  (let unified_file_path := OsPath.join folder (unified_file_name u (now env)) in
                   write_text unified_file_path (render duration_info unified_transcripts) ;;
                   say (TUnifiedSaved unified_file_path) ;;
                   say (TSortedIn (sort_direction u)))
            end
        end.

Record args := Args {
    path : string;
    model : option string;
    lang : string;
    print : bool;
    unify : option string }.

  (** The [if __name__ == "__main__"] block, after argument parsing. *)
Definition main (a : args) : M unit :=
    let* is_file := isfile (path a) in
    let* is_dir := isdir (path a) in
    if negb is_file && negb is_dir then
      say (TNotFileOrDir (path a)) ;; raise (SystemExit 1)
    else
      let* model :=
        (if negb (truthy (model a)) && negb (truthy (unify a)) then
           if is_file then ret (Some "medium")
           else say TNeedModelOrUnify ;; raise (SystemExit 1)
         else ret (model a)) in
      if is_file then
        when (truthy (unify a)) (say TUnifyIgnored) ;;
        let model := if truthy model then default "" model else "medium" in
        transcribe_single_file (path a) model (lang a) (print a) ;;
        ret tt
      else
        transcribe_folder (path a) model (lang a) (print a) (unify a).
End WithEnv.

End Transcribe.

(** ** The progress heartbeat: two threads around one operation

    The calling thread (lines 75-122 of [transcribe_single_file], and the
    same statements at lines 257-311 of [transcribe_folder]) and the thread
    running [show_animated_progress] (lines 332-347) are modelled by their
    program points; a step of the system is a step of either thread.  The
    two share the stop event and the terminal.  An exception that is not an
    [Exception] (Ctrl-C at any point of the [try] statement, [SystemExit]
    out of Whisper or of the write) leaves the caller without passing
    through the handler. *)

Module Heartbeat.

(** What reaches the terminal. *)
Inductive out :=
  | Frame (i : nat)         (* a spinner frame, line 340 *)
  | Blank (columns : nat)   (* carriage return, [columns] spaces, carriage return: line 346 *)
  | Line (m : message)      (* a line printed by the calling thread *)
  | Traceback (e : exn).    (* the report of an exception that left the function *)

Definition cr : string := String (ascii_of_nat 13) "".

Definition spinner : list string := ["⠋"; "⠙"; "⠹"; "⠸"; "⠼"; "⠴"; "⠦"; "⠧"; "⠇"; "⠏"].

(** The text of a frame (line 340); [elapsed] is the formatted time. *)
Definition frame_text (i : nat) (filename elapsed : string) : string :=
  cr +:+ nth i spinner "" +:+ " Transcribing " +:+ filename +:+ "... (" +:+ elapsed
     +:+ "s elapsed)".

(** The text that blanks the line (line 346, where [columns] is 80). *)
Definition blank_text (columns : nat) : string :=
  cr +:+ Py.join_str "" (repeat " " columns) +:+ cr.

(** The columns a text takes after its leading carriage return, one per
    character. *)
Definition columns_of (text : string) : nat :=
  Py.len text - Py.len cr.


(** Program points of [show_animated_progress]; [i] is the spinner index. *)
Inductive hpc :=
  | HNotStarted
  | HTest (i : nat)      (* while not stop_event.is_set() *)
  | HWrite (i : nat)     (* sys.stdout.write(frame); flush *)
  | HSleep (i : nat)     (* time.sleep(0.1); i = (i + 1) % len(spinner) *)
  | HClear               (* sys.stdout.write(blank line); flush *)
  | HDone.               (* the thread has terminated *)

(** Program points of the calling thread. *)
Inductive mpc :=
  | MStart               (* progress_thread.start() *)
  | MCall                (* model.transcribe(...) *)
  | MSet                 (* stop_progress.set(), line 93 *)
  | MJoin                (* progress_thread.join(), line 94 *)
  | MReport              (* print Finished, line 98 *)
  | MWrite               (* write the .txt file, lines 105-106 *)
  | MSaved               (* print Saved, line 107 *)
  | MEcho                (* the optional echo, lines 110-113 *)
  | MReturn              (* return txt_path *)
  | MExcSet (e : exn)    (* except: stop_progress.set(), line 118 *)
  | MExcAlive (e : exn)  (* if progress_thread.is_alive(), line 119 *)
  | MExcJoin (e : exn)   (* progress_thread.join(), line 120 *)
  | MReraise (e : exn)   (* raise e, line 122 *)
  | MRaised (e : exn).   (* the exception has reached the caller *)

(** The caller is inside the [try] statement (lines 84-122), where Ctrl-C
    may reach it. *)
Definition in_try (m : mpc) : bool :=
  match m with
  | MStart | MReturn | MRaised _ => false
  | _ => true
  end.

Record state := State {
  main : mpc;
  beat : hpc;
  stop : bool;              (* the stop_progress event *)
  terminal : list out }.

Definition spinner_len : nat := 10.

(** The width line 346 blanks. *)
Definition blank_columns : nat := 80.

Inductive step (filename txt_path transcript : string) (print_to_screen : bool) :
    state -> state -> Prop :=
  (* the calling thread *)
  | step_start b t :
      step filename txt_path transcript print_to_screen
        (State MStart HNotStarted b t) (State MCall (HTest 0) b t)
  | step_call_ok h b t :
      step filename txt_path transcript print_to_screen
        (State MCall h b t) (State MSet h b t)
  | step_call_raise e h b t :
      is_exception e = true ->
      step filename txt_path transcript print_to_screen
        (State MCall h b t) (State (MExcSet e) h b t)
  | step_call_escape e h b t :
      is_exception e = false ->
      step filename txt_path transcript print_to_screen
        (State MCall h b t) (State (MRaised e) h b (t ++ [Traceback e]))
  | step_set h b t :
      step filename txt_path transcript print_to_screen
        (State MSet h b t) (State MJoin h true t)
  | step_join b t :
      step filename txt_path transcript print_to_screen
        (State MJoin HDone b t) (State MReport HDone b t)
  | step_report h b t :
      step filename txt_path transcript print_to_screen
        (State MReport h b t) (State MWrite h b (t ++ [Line (TFinished filename)]))
  | step_write_ok h b t :
      step filename txt_path transcript print_to_screen
        (State MWrite h b t) (State MSaved h b t)
  | step_write_raise e h b t :
      is_exception e = true ->
      step filename txt_path transcript print_to_screen
        (State MWrite h b t) (State (MExcSet e) h b t)
  | step_write_escape e h b t :
      is_exception e = false ->
      step filename txt_path transcript print_to_screen
        (State MWrite h b t) (State (MRaised e) h b (t ++ [Traceback e]))
  | step_saved h b t :
      step filename txt_path transcript print_to_screen
        (State MSaved h b t) (State MEcho h b (t ++ [Line (TSaved txt_path)]))
  | step_echo h b t :
      step filename txt_path transcript print_to_screen
        (State MEcho h b t)
        (State MReturn h b (if print_to_screen then t ++ [Line (TEcho transcript)] else t))
  | step_exc_set e h b t :
      step filename txt_path transcript print_to_screen
        (State (MExcSet e) h b t) (State (MExcAlive e) h true t)
  | step_exc_alive e h b t :
      h <> HDone ->
      step filename txt_path transcript print_to_screen
        (State (MExcAlive e) h b t) (State (MExcJoin e) h b t)
  | step_exc_dead e b t :
      step filename txt_path transcript print_to_screen
        (State (MExcAlive e) HDone b t) (State (MReraise e) HDone b t)
  | step_exc_join e b t :
      step filename txt_path transcript print_to_screen
        (State (MExcJoin e) HDone b t) (State (MReraise e) HDone b t)
  | step_reraise e h b t :
      step filename txt_path transcript print_to_screen
        (State (MReraise e) h b t) (State (MRaised e) h b (t ++ [Traceback e]))
  | step_interrupt m h b t :
      in_try m = true ->
      step filename txt_path transcript print_to_screen
        (State m h b t)
        (State (MRaised KeyboardInterrupt) h b (t ++ [Traceback KeyboardInterrupt]))
  (* the heartbeat thread *)
  | step_test_go m i t :
      step filename txt_path transcript print_to_screen
        (State m (HTest i) false t) (State m (HWrite i) false t)
  | step_test_stop m i t :
      step filename txt_path transcript print_to_screen
        (State m (HTest i) true t) (State m HClear true t)
  | step_frame m i b t :
      step filename txt_path transcript print_to_screen
        (State m (HWrite i) b t) (State m (HSleep i) b (t ++ [Frame i]))
  | step_sleep m i b t :
      step filename txt_path transcript print_to_screen
        (State m (HSleep i) b t) (State m (HTest ((i + 1) mod spinner_len)) b t)
  | step_clear m b t :
      step filename txt_path transcript print_to_screen
        (State m HClear b t) (State m HDone b (t ++ [Blank blank_columns])).

(** The state when the caller is about to start the thread: the event is
    fresh, the terminal holds whatever was printed before. *)
Definition init (before : list message) : state :=
  State MStart HNotStarted false (map Line before).




Definition is_frame (o : out) : bool :=
  match o with Frame _ => true | _ => false end.


(** Steps the heartbeat still has to take before it has terminated, once
    the stop event is set. *)
Definition beat_left (h : hpc) : nat :=
  match h with
  | HNotStarted => 0
  | HWrite _ => 4
  | HSleep _ => 3
  | HTest _ => 2
  | HClear => 1
  | HDone => 0
  end.






End Heartbeat.

(** ** Observations on the environment and on traces *)


(** ffmpeg is installed: [subprocess.run] returns, whatever the exit code. *)
Definition ffmpeg_returns (env : Env) : Prop :=
  forall cmd f, exists rc err f', ffmpeg env cmd f = (Exited rc err, f').

(** The last word of an ffmpeg command line: the file it is to write. *)
Definition output_operand (cmd : list string) : string := List.last cmd "".

(** ffmpeg does its work: it exits with status 0, its output file is on
    disk afterwards and no file that was there has gone. *)
Definition ffmpeg_writes_output (env : Env) : Prop :=
  forall cmd f, exists err f',
    ffmpeg env cmd f = (Exited 0 err, f')
    /\ isfile_in f' (output_operand cmd) = true
    /\ (forall p, isfile_in f p = true -> isfile_in f' p = true).

Definition is_ffmpeg (cmd : list string) : bool :=
  match cmd with
  | prog :: _ => String.eqb prog "ffmpeg"
  | [] => false
  end.

(** The ffmpeg command lines that were run, in order. *)
Fixpoint ffmpeg_runs (t : list event) : list (list string) :=
  match t with
  | [] => []
  | Run cmd :: r => if is_ffmpeg cmd then cmd :: ffmpeg_runs r else ffmpeg_runs r
  | _ :: r => ffmpeg_runs r
  end.

(** The files given to Whisper, in order. *)
Fixpoint transcribed (t : list event) : list string :=
  match t with
  | [] => []
  | Transcribe p _ :: r => p :: transcribed r
  | _ :: r => transcribed r
  end.

(** Invocations of the external operation: ffmpeg runs and Whisper calls. *)
Definition external_calls (t : list event) : nat :=
  length (ffmpeg_runs t) + length (transcribed t).

(** What was printed, in order. *)
Fixpoint said (t : list event) : list message :=
  match t with
  | [] => []
  | Say m :: r => m :: said r
  | _ :: r => said r
  end.

(** The files that were read, in order. *)
Fixpoint reads (t : list event) : list string :=
  match t with
  | [] => []
  | Read p :: r => p :: reads r
  | _ :: r => reads r
  end.

(** The files that were written, with their text, in order. *)
Fixpoint writes (t : list event) : list (string * string) :=
  match t with
  | [] => []
  | Write p b :: r => (p, b) :: writes r
  | _ :: r => writes r
  end.

(** The base names of the items the conversion loop of [video_converter.py]
    took up, in order: an item is either skipped or given to ffmpeg. *)
Fixpoint attempted (t : list event) : list string :=
  match t with
  | [] => []
  | Say (VSkipping base _) :: r => base :: attempted r
  | Run cmd :: r =>
      if is_ffmpeg cmd then
        match cmd with
        | _ :: _ :: p :: _ => fst (OsPath.splitext (OsPath.basename p)) :: attempted r
        | _ => attempted r
        end
      else attempted r
  | _ :: r => attempted r
  end.

(** Ascending order of strings, and of values compared by a string key. *)
Definition str_le (x y : string) : Prop := String.leb x y = true.

Definition key_le {A : Type} (key : A -> string) (x y : A) : Prop := str_le (key x) (key y).

(** *** What the reading loop of [unify_transcripts] amounts to *)

(** The label of a transcript: the first sibling audio file on disk. *)
Fixpoint original_of (f : gmap string node) (folder : string) (possible : list string) : string :=
  match possible with
  | [] => "Unknown"
  | audio_file :: rest =>
      if exists_in f (OsPath.join folder audio_file) then audio_file
      else original_of f folder rest
  end.

(** The entry a candidate contributes: none when reading it raises. *)
Definition entry_of (f : gmap string node) (folder filename : string) : option Transcribe.item :=
  match f !! OsPath.join folder filename with
  | Some (File body) =>
      let base_name := fst (OsPath.splitext filename) in
      Some (Transcribe.Item
              (original_of f folder [base_name +:+ ".m4a"; base_name +:+ ".opus"])
              base_name (Py.universal_newlines body) 0%Q)
  | _ => None
  end.

(** Reading the candidate succeeds. *)
Definition readable_in (f : gmap string node) (folder filename : string) : bool :=
  match f !! OsPath.join folder filename with
  | Some (File _) => true
  | _ => false
  end.

(** The candidates of an aggregation run, in the order they are read. *)
Definition candidates (env : Env) (folder sort_order : string) : list string :=
  Py.sorted Transcribe.sort_key (String.eqb (Py.lower sort_order) "desc")
    (List.filter Transcribe.is_candidate (listdir env folder)).

(** *** Reading a decimal numeral back: [int(s)] for a string of digits *)

Definition digit_value (c : ascii) : nat := nat_of_ascii c - 48.

Fixpoint decimal_value_from (acc : nat) (s : string) : nat :=
  match s with
  | EmptyString => acc
  | String c r => decimal_value_from (acc * 10 + digit_value c) r
  end.

Definition decimal_value (s : string) : nat := decimal_value_from 0 s.


(** ** Fixtures: concrete environments used by the examples *)

Module Fixtures.

Definition t0 : datetime := Datetime 2025 1 2 3 4 5 0.

(** The last word of an ffmpeg command line is its output path. *)
Definition output_of (cmd : list string) : string := List.last cmd "".

(** An environment in which every tool works: ffmpeg writes its output,
    the probed duration is 1450 seconds, Whisper hears two segments. *)
Definition env_ok (names : list string) : Env := {|
  listdir := fun _ => names;
  ffmpeg := fun cmd f => (Exited 0 "", <[output_of cmd := File "audio"]> f);
  ffprobe := fun _ _ => Ret (1450 # 1)%Q;
  whisper := fun _ _ _ _ => Ret [" hello "; "world"];
  now := t0;
  elapsed_of := fun _ => (2 # 1)%Q;
  format_1f := fun _ => "2.0" |}.

(** An environment in which the external operation fails on the file
    whose path is [bad]: ffmpeg crashes, Whisper raises. *)
Definition env_bad (names : list string) (bad : string) : Env := {|
  listdir := fun _ => names;
  ffmpeg := fun cmd f =>
    if bool_decide (bad ∈ cmd) then (Crashed "boom", f)
    else (Exited 0 "", <[output_of cmd := File "audio"]> f);
  ffprobe := fun _ _ => Ret (1450 # 1)%Q;
  whisper := fun _ p _ _ => if String.eqb p bad then Raise (RuntimeError "boom") else Ret ["ok"];
  now := t0;
  elapsed_of := fun _ => (2 # 1)%Q;
  format_1f := fun _ => "2.0" |}.

Definition w_of (l : list (string * node)) : world := World (list_to_map l) [].

End Fixtures.

(** ** Further observations *)

(** Whether a heartbeat thread is running after a trace, given whether one
    was running before it. *)
Fixpoint heartbeat_running (before : bool) (t : list event) : bool :=
  match t with
  | [] => before
  | HeartbeatStart _ :: r => heartbeat_running true r
  | HeartbeatStop :: r => heartbeat_running false r
  | _ :: r => heartbeat_running before r
  end.

(** The directories the scripts asked to create, in order. *)
Fixpoint made_dirs (t : list event) : list string :=
  match t with
  | [] => []
  | Makedirs p :: r => p :: made_dirs r
  | _ :: r => made_dirs r
  end.

(** The models that were loaded, in order. *)
Fixpoint models_loaded (t : list event) : list string :=
  match t with
  | [] => []
  | LoadModel m :: r => m :: models_loaded r
  | _ :: r => models_loaded r
  end.

(** The spinner index of the heartbeat thread, where it has one. *)
Definition spinner_index (h : Heartbeat.hpc) : option nat :=
  match h with
  | Heartbeat.HTest i | Heartbeat.HWrite i | Heartbeat.HSleep i => Some i
  | _ => None
  end.

(** The frames on a terminal, in order. *)
Fixpoint frames_of (t : list Heartbeat.out) : list nat :=
  match t with
  | [] => []
  | Heartbeat.Frame i :: r => i :: frames_of r
  | _ :: r => frames_of r
  end.

(** The first [n] frames of the animation: the spinner, round and round. *)
Definition spin (n : nat) : list nat :=
  map (fun k => k mod Heartbeat.spinner_len) (seq 0 n).

(** The heartbeat thread is at a consistent point of its animation. *)
Definition animation_ok (s : Heartbeat.state) : Prop :=
  exists n,
    frames_of (Heartbeat.terminal s) = spin n /\
    match Heartbeat.beat s with
    | Heartbeat.HTest i | Heartbeat.HWrite i => i = n mod Heartbeat.spinner_len
    | Heartbeat.HSleep i => exists m, n = S m /\ i = m mod Heartbeat.spinner_len
    | Heartbeat.HNotStarted => n = 0
    | _ => True
    end.

Module Fixtures2.

(** ffmpeg exits with status 0 and writes nothing. *)
Definition env_silent (names : list string) : Env := {|
  listdir := fun _ => names;
  ffmpeg := fun cmd f => (Exited 0 "", f);
  ffprobe := fun _ _ => Ret (1450 # 1)%Q;
  whisper := fun _ _ _ _ => Ret [" hello "; "world"];
  now := Fixtures.t0;
  elapsed_of := fun _ => (2 # 1)%Q;
  format_1f := fun _ => "2.0" |}.

(** ffprobe fails on every file, ffmpeg is not installed. *)
Definition env_no_tools (names : list string) : Env := {|
  listdir := fun _ => names;
  ffmpeg := fun cmd f => (NotInstalled, f);
  ffprobe := fun _ _ => Raise (ValueError "could not convert string to float: ''");
  whisper := fun _ _ _ _ => Raise (RuntimeError "no engine");
  now := Fixtures.t0;
  elapsed_of := fun _ => (2 # 1)%Q;
  format_1f := fun _ => "2.0" |}.

End Fixtures2.

(** * Properties *)

(** ** Examples of the primitives *)

Example splitext_ex1 : OsPath.splitext "rec.part1.m4a" = ("rec.part1", ".m4a").
Proof. reflexivity. Qed.
Example splitext_ex2 : OsPath.splitext "dir.d/.hidden" = ("dir.d/.hidden", "").
Proof. reflexivity. Qed.
Example basename_ex : OsPath.basename "/a/b/c.mp4" = "c.mp4".
Proof. reflexivity. Qed.
Example dirname_ex :
  OsPath.dirname "/a/b/c.mp4" = "/a/b" /\ OsPath.dirname "c.mp4" = "" /\ OsPath.dirname "/c" = "/".
Proof. repeat split; reflexivity. Qed.
Example join_ex :
  OsPath.join "out" "a.m4a" = "out/a.m4a" /\ OsPath.join "out/" "a.m4a" = "out/a.m4a"
  /\ OsPath.join "out" "/a" = "/a".
Proof. repeat split; reflexivity. Qed.
Example zfill_ex :
  Py.zfill 3 7 = "007" /\ Py.zfill 3 1234 = "1234" /\ Py.str 1200 = "1200"
  /\ Py.str (-5) = "-5" /\ Py.str 0 = "0".
Proof. repeat split; reflexivity. Qed.
Example sorted_ex :
  Py.sorted Transcribe.sort_key false ["b.txt"; "a.TXT"; "c.txt"; "a.txt"]
    = ["a.TXT"; "a.txt"; "b.txt"; "c.txt"]
  /\ Py.sorted Transcribe.sort_key true ["b.txt"; "a.TXT"; "c.txt"; "a.txt"]
    = ["c.txt"; "b.txt"; "a.TXT"; "a.txt"].
Proof. split; reflexivity. Qed.
Example endswith_ex :
  Py.endswith (Py.lower "A.M4A") ".m4a" = true /\ Py.endswith "m4a" ".m4a" = false
  /\ Py.contains "Skipping" (Py.str_bool true) = false.
Proof. repeat split; reflexivity. Qed.
(** [strip] removes the white space of Unicode (here a no-break space, an
    ideographic space and a next-line character) and keeps other
    characters of several bytes. *)
Example strip_ex :
  let nbsp := Py.of_bytes [194; 160] in
  let ideographic_space := Py.of_bytes [227; 128; 128] in
  let next_line := Py.of_bytes [194; 133] in
  Py.strip (" " +:+ nbsp +:+ "café olé" +:+ ideographic_space +:+ next_line +:+ nl)
  = "café olé".
Proof. reflexivity. Qed.

Example universal_newlines_ex :
  Py.universal_newlines ("a" +:+ String (ascii_of_nat 13) nl +:+ "b" +:+ String (ascii_of_nat 13) "c")
  = "a" +:+ nl +:+ "b" +:+ nl +:+ "c".
Proof. reflexivity. Qed.

(** A frame for [a.m4a] after 2.5 seconds takes 38 columns. *)
Example frame_ex :
  Heartbeat.columns_of (Heartbeat.frame_text 3 "a.m4a" "2.5") = 38
  /\ Py.len (Heartbeat.blank_text 80) = 82.
Proof. split; reflexivity. Qed.

Example strftime_ex : strftime Fixtures.t0 = "20250102_030405".
Proof. reflexivity. Qed.

(** ** Traces *)

Lemma ffmpeg_runs_app (t1 t2 : list event) :
  ffmpeg_runs (t1 ++ t2) = ffmpeg_runs t1 ++ ffmpeg_runs t2.
Proof.
  induction t1 as [|e t1 IH]; simpl; [reflexivity|].
  destruct e; try exact IH.
  destruct (is_ffmpeg cmd); simpl; congruence.
Qed.

Lemma transcribed_app (t1 t2 : list event) :
  transcribed (t1 ++ t2) = transcribed t1 ++ transcribed t2.
Proof.
  induction t1 as [|e t1 IH]; simpl; [reflexivity|].
  destruct e; simpl; congruence.
Qed.

Lemma said_app (t1 t2 : list event) : said (t1 ++ t2) = said t1 ++ said t2.
Proof.
  induction t1 as [|e t1 IH]; simpl; [reflexivity|].
  destruct e; simpl; congruence.
Qed.

Lemma reads_app (t1 t2 : list event) : reads (t1 ++ t2) = reads t1 ++ reads t2.
Proof.
  induction t1 as [|e t1 IH]; simpl; [reflexivity|].
  destruct e; simpl; congruence.
Qed.

Lemma writes_app (t1 t2 : list event) : writes (t1 ++ t2) = writes t1 ++ writes t2.
Proof.
  induction t1 as [|e t1 IH]; simpl; [reflexivity|].
  destruct e; simpl; congruence.
Qed.

Lemma external_calls_app (t1 t2 : list event) :
  external_calls (t1 ++ t2) = external_calls t1 + external_calls t2.
Proof.
  unfold external_calls. rewrite ffmpeg_runs_app, transcribed_app, !length_app. lia.
Qed.

(** ** Decimal rendering *)

Lemma models_loaded_app (t1 t2 : list event) :
  models_loaded (t1 ++ t2) = models_loaded t1 ++ models_loaded t2.
Proof.
  induction t1 as [|e t1 IH]; simpl; [reflexivity|].
  destruct e; simpl; congruence.
Qed.

Lemma heartbeat_running_app (r : bool) (t1 t2 : list event) :
  heartbeat_running r (t1 ++ t2) = heartbeat_running (heartbeat_running r t1) t2.
Proof.
  revert r. induction t1 as [|e t1 IH]; intros r; simpl; [reflexivity|].
  destruct e; simpl; apply IH.
Qed.

Lemma exists_in_false (f : gmap string node) (p : string) :
  exists_in f p = false -> f !! p = None.
Proof. unfold exists_in. by destruct (f !! p). Qed.

Lemma made_dirs_app (t1 t2 : list event) : made_dirs (t1 ++ t2) = made_dirs t1 ++ made_dirs t2.
Proof.
  induction t1 as [|e t1 IH]; simpl; [reflexivity|].
  destruct e; simpl; congruence.
Qed.

Lemma string_length_app (s1 s2 : string) :
  String.length (s1 +:+ s2) = String.length s1 + String.length s2.
Proof. induction s1 as [|c s1 IH]; [reflexivity | simpl; congruence]. Qed.

Lemma zeros_length (k : nat) : String.length (Py.zeros k) = k.
Proof. induction k; simpl; congruence. Qed.

Lemma str_nat_aux_length_le (fuel : nat) :
  forall n k acc, 1 <= k -> n < 10 ^ k ->
    String.length (Py.str_nat_aux fuel n acc) <= String.length acc + k.
Proof.
  induction fuel as [|fuel IH]; intros n k acc Hk Hn; simpl; [lia|].
  destruct (Nat.ltb_spec n 10) as [Hlt|Hge]; simpl; [lia|].
  destruct k as [|[|k]]; [lia| simpl in Hn; lia |].
  specialize (IH (n / 10) (S k) (String (Py.digit (n mod 10)) acc)).
  simpl String.length in IH.
  assert (n / 10 < 10 ^ S k).
  { apply Nat.Div0.div_lt_upper_bound. rewrite Nat.pow_succ_r' in Hn. lia. }
  specialize (IH ltac:(lia) ltac:(assumption)). lia.
Qed.

Lemma zfill_length_ge (w n : nat) : w <= String.length (Py.zfill w n).
Proof. unfold Py.zfill. rewrite string_length_app, zeros_length. lia. Qed.

Lemma zfill_length_exact (w n : nat) :
  1 <= w -> n < 10 ^ w -> String.length (Py.zfill w n) = w.
Proof.
  intros Hw Hn. unfold Py.zfill. rewrite string_length_app, zeros_length.
  assert (H : String.length (Py.str_nat n) <= 0 + w)
    by (apply (str_nat_aux_length_le (S n) n w ""); assumption).
  lia.
Qed.

(** ** Numerals and concatenation *)

Lemma digit_value_digit (d : nat) : d < 10 -> digit_value (Py.digit d) = d.
Proof.
  intros Hd. unfold digit_value, Py.digit.
  rewrite nat_ascii_embedding by lia. lia.
Qed.

Lemma decimal_value_from_app (s1 s2 : string) :
  forall acc, decimal_value_from acc (s1 +:+ s2) = decimal_value_from (decimal_value_from acc s1) s2.
Proof. induction s1 as [|c s1 IH]; intros acc; [reflexivity | apply IH]. Qed.

Lemma decimal_value_str_nat_aux (fuel : nat) :
  forall n acc, n < fuel ->
    decimal_value_from 0 (Py.str_nat_aux fuel n acc) = decimal_value_from n acc.
Proof.
  induction fuel as [|fuel IH]; intros n acc Hn; [lia|].
  cbn [Py.str_nat_aux].
  destruct (Nat.ltb_spec n 10) as [Hlt|Hge].
  - cbn [decimal_value_from]. rewrite Nat.mod_small by lia.
    rewrite digit_value_digit by lia. reflexivity.
  - rewrite IH.
    + cbn [decimal_value_from].
      rewrite digit_value_digit by (apply Nat.mod_upper_bound; lia).
      f_equal. pose proof (Nat.div_mod_eq n 10). lia.
    + assert (n / 10 < n) by (apply Nat.div_lt; lia). lia.
Qed.

Lemma decimal_value_zeros (k : nat) (s : string) :
  decimal_value (Py.zeros k +:+ s) = decimal_value s.
Proof. induction k as [|k IH]; [reflexivity | exact IH]. Qed.

(** Reading back what [zfill] printed gives the number. *)
Lemma decimal_value_zfill (w n : nat) : decimal_value (Py.zfill w n) = n.
Proof.
  unfold Py.zfill. rewrite decimal_value_zeros.
  unfold decimal_value, Py.str_nat. rewrite decimal_value_str_nat_aux by lia. reflexivity.
Qed.

Lemma zfill_inj (w n m : nat) : Py.zfill w n = Py.zfill w m -> n = m.
Proof.
  intros H. apply (f_equal decimal_value) in H. by rewrite !decimal_value_zfill in H.
Qed.

Lemma string_app_inj (a a' b b' : string) :
  String.length a = String.length a' -> a +:+ b = a' +:+ b' -> a = a' /\ b = b'.
Proof.
  revert a'. induction a as [|c a IH]; intros [|c' a'] Hlen H; simpl in *; try discriminate.
  - done.
  - injection H as -> H. destruct (IH a' ltac:(lia) H) as [-> ->]. done.
Qed.

Lemma string_app_inj_r (a b b' : string) : a +:+ b = a +:+ b' -> b = b'.
Proof. intros H. by apply string_app_inj in H as [_ ?]. Qed.

Lemma string_app_inj_l (a a' b : string) : a +:+ b = a' +:+ b -> a = a'.
Proof.
  intros H.
  assert (Hlen : String.length a = String.length a').
  { apply (f_equal String.length) in H. rewrite !string_length_app in H. lia. }
  by apply string_app_inj in H as [? _].
Qed.

(** ** Segmentation (audio_splitter.py) *)

Lemma ffmpeg_runs_segments file_path output_dir base L fmt (l : list nat) :
  ffmpeg_runs (map (fun i => Run (AudioSplitter.segment_cmd file_path output_dir base L fmt i)) l)
  = map (AudioSplitter.segment_cmd file_path output_dir base L fmt) l.
Proof. induction l as [|i l IH]; simpl; [reflexivity|]. by rewrite IH. Qed.

Lemma Qceiling_div_nonneg (D : Q) (L : Z) :
  (0 < L)%Z -> (0 <= D)%Q -> (0 <= Qceiling (D / inject_Z L))%Z.
Proof.
  intros HL HD.
  change 0%Z with (Qceiling 0). apply Qceiling_resp_le.
  apply Qle_shift_div_l; [| by rewrite Qmult_0_l].
  change 0%Q with (inject_Z 0). rewrite <- Zlt_Qlt. exact HL.
Qed.

(** *** Paths of the parts *)

Lemma rsplit_some (c : ascii) (s h t : string) :
  OsPath.rsplit c s = Some (h, t) -> s = h +:+ String c t /\ OsPath.rsplit c t = None.
Proof.
  revert h t. induction s as [|a s IH]; intros h t H; [discriminate|].
  cbn [OsPath.rsplit] in H.
  destruct (OsPath.rsplit c s) as [[h1 t1]|] eqn:E.
  - injection H as <- <-. destruct (IH h1 t1 eq_refl) as [-> Ht]. done.
  - destruct (Ascii.eqb_spec a c) as [->|_]; [|discriminate].
    injection H as <- <-. done.
Qed.

Lemma rsplit_none_app (c : ascii) (a b : string) :
  OsPath.rsplit c (a +:+ b) = None -> OsPath.rsplit c a = None.
Proof.
  induction a as [|x a IH]; intros H; [reflexivity|].
  change (String x a +:+ b) with (String x (a +:+ b)) in H.
  cbn [OsPath.rsplit] in *.
  destruct (OsPath.rsplit c (a +:+ b)) as [[h1 t1]|] eqn:E; [discriminate|].
  rewrite IH by reflexivity. destruct (Ascii.eqb x c); [discriminate | reflexivity].
Qed.

Lemma rsplit_none_head (c : ascii) (s : string) :
  OsPath.rsplit c s = None -> Py.startswith s (String c "") = false.
Proof.
  destruct s as [|a s]; intros H; [reflexivity|].
  cbn [OsPath.rsplit] in H. unfold Py.startswith. simpl.
  destruct (OsPath.rsplit c s) as [[h1 t1]|]; [discriminate|].
  destruct (Ascii.eqb_spec a c) as [->|Hne]; [discriminate|].
  destruct (ascii_dec c a) as [->|_]; [done | reflexivity].
Qed.

(** The last component of a path holds no slash. *)
Lemma basename_no_slash (p : string) : OsPath.rsplit "/" (OsPath.basename p) = None.
Proof.
  unfold OsPath.basename. destruct (OsPath.rsplit "/" p) as [[h t]|] eqn:E; [|exact E].
  by apply rsplit_some in E as [_ ?].
Qed.

(** Nor does its stem. *)
Lemma stem_no_slash (p : string) :
  OsPath.rsplit "/" p = None -> OsPath.rsplit "/" (fst (OsPath.splitext p)) = None.
Proof.
  intros H. unfold OsPath.splitext. rewrite H.
  destruct (OsPath.rsplit "." p) as [[stem ext]|] eqn:E; [|exact H].
  destruct (OsPath.all_char "." stem); [exact H|].
  cbn [fst]. apply rsplit_some in E as [E _]. rewrite E in H.
  change ("" +:+ stem) with stem. by apply rsplit_none_app in H.
Qed.

Lemma startswith_app_nonempty (a b x : string) :
  a <> "" -> Py.startswith a x = false -> String.length x = 1 ->
  Py.startswith (a +:+ b) x = false.
Proof.
  intros Ha H Hx. destruct a as [|c a]; [done|].
  destruct x as [|d [|? ?]]; try discriminate.
  unfold Py.startswith in *. simpl in *.
  destruct (ascii_dec d c); [|reflexivity]. destruct a; discriminate.
Qed.

(** The name of a part does not start with a slash, so that joining it to
    the output folder keeps the folder. *)
Lemma part_name_relative (p fmt : string) (i : nat) :
  Py.startswith
    (AudioSplitter.output_filename (fst (OsPath.splitext (OsPath.basename p))) i fmt) "/" = false.
Proof.
  unfold AudioSplitter.output_filename.
  pose proof (rsplit_none_head _ _ (stem_no_slash _ (basename_no_slash p))) as H.
  destruct (fst (OsPath.splitext (OsPath.basename p))) as [|c b] eqn:E; [reflexivity|].
  apply startswith_app_nonempty; [done | exact H | reflexivity].
Qed.

Lemma join_relative_inj (dir a b : string) :
  Py.startswith a "/" = false -> Py.startswith b "/" = false ->
  OsPath.join dir a = OsPath.join dir b -> a = b.
Proof.
  unfold OsPath.join. intros -> ->.
  destruct (String.eqb dir "" || Py.endswith dir "/"); intros H.
  - by apply string_app_inj_r in H.
  - apply string_app_inj_r in H. by apply string_app_inj_r in H.
Qed.

Lemma part_paths_distinct (p output_dir fmt : string) (i j : nat) :
  let base := fst (OsPath.splitext (OsPath.basename p)) in
  OsPath.join output_dir (AudioSplitter.output_filename base i fmt)
  = OsPath.join output_dir (AudioSplitter.output_filename base j fmt) ->
  i = j.
Proof.
  intros base H. apply join_relative_inj in H; try apply part_name_relative.
  unfold AudioSplitter.output_filename in H.
  apply string_app_inj_r in H. apply string_app_inj_r in H.
  apply string_app_inj_l in H. apply zfill_inj in H. lia.
Qed.

Lemma part_paths_nodup (p output_dir fmt : string) (l : list nat) :
  NoDup l ->
  NoDup (map (fun i => OsPath.join output_dir
                         (AudioSplitter.output_filename
                            (fst (OsPath.splitext (OsPath.basename p))) i fmt)) l).
Proof.
  intros Hl. apply NoDup_fmap_2_strong; [|exact Hl].
  intros i j _ _ H. by apply part_paths_distinct in H.
Qed.

Section SegmentArtifacts.
Variable env : Env.
Hypothesis Hff : ffmpeg_writes_output env.

(** Every command of the loop leaves its part on disk, and later commands
    do not take it away. *)
Lemma run_segments_artifacts file_path output_dir base L fmt (l : list nat) :
  forall w, exists f',
    AudioSplitter.run_segments env file_path output_dir base L fmt l w
    = (Ret tt, World f' (trace w ++
         map (fun i => Run (AudioSplitter.segment_cmd file_path output_dir base L fmt i)) l))
    /\ (forall p, isfile_in (fs w) p = true -> isfile_in f' p = true)
    /\ (forall i, i ∈ l ->
          isfile_in f' (OsPath.join output_dir (AudioSplitter.output_filename base i fmt)) = true).
Proof.
  induction l as [|i l IH]; intros w.
  - exists (fs w). cbn [AudioSplitter.run_segments map]. unfold ret. rewrite app_nil_r.
    split; [by destruct w|]. split; [done|]. intros i Hi. by apply elem_of_nil in Hi.
  - cbn [AudioSplitter.run_segments map]. unfold bind at 1. unfold subprocess_run.
    destruct (Hff (AudioSplitter.segment_cmd file_path output_dir base L fmt i) (fs w))
      as (err & f1 & -> & Hout & Hkeep).
    destruct (IH (World f1 (trace w ++
                [Run (AudioSplitter.segment_cmd file_path output_dir base L fmt i)])))
      as (f' & -> & Hkeep' & Hparts).
    cbn [fs trace] in *.
    exists f'. split; [by rewrite <- app_assoc|]. split; [auto|].
    intros j Hj. apply elem_of_cons in Hj as [->|Hj]; [|by apply Hparts].
    apply Hkeep'. exact Hout.
Qed.
End SegmentArtifacts.

(** C4. For a file of duration [D] and a positive segment length [L], with
    the output folder in place (as [main] leaves it) and an ffmpeg that
    does its work, splitting returns [n = ceil(D/L)] after
    running exactly [n] ffmpeg commands; the command of segment [i] (counted
    from 0) starts at offset [i*L], asks for length [L] and writes the part
    [{base}_part{i+1:03d}.{format}] of the output folder; afterwards each of
    the [n] parts is a file on disk, and the [n] paths are pairwise
    different; the number in a name is at least three characters wide, and
    exactly three below 1000. *)
Theorem split_audio_file_artifacts
    (env : Env) (file_path output_dir : string) (L : Z) (fmt : string) (D : Q) (w : world) :
  (0 < L)%Z -> (0 <= D)%Q ->
  isdir_in (fs w) output_dir = true ->
  ffprobe env file_path (fs w) = Ret D ->
  ffmpeg_writes_output env ->
  let base := fst (OsPath.splitext (OsPath.basename file_path)) in
  let part := fun i : nat =>
    OsPath.join output_dir (base +:+ "_part" +:+ Py.zfill 3 (i + 1) +:+ "." +:+ fmt) in
  exists (n : nat) (w' : world),
    Z.of_nat n = Qceiling (D / inject_Z L) /\
    AudioSplitter.split_audio_file env file_path output_dir L fmt w = (Ret (Z.of_nat n), w') /\
    ffmpeg_runs (trace w') = ffmpeg_runs (trace w) ++
      map (fun i =>
             ["ffmpeg"; "-i"; file_path; "-ss"; Py.str (Z.of_nat i * L); "-t"; Py.str L;
              "-c"; "copy"; "-y"; part i])
          (seq 0 n) /\
    (forall i, i < n -> isfile_in (fs w') (part i) = true) /\
    NoDup (map part (seq 0 n)) /\
    (forall i, i < n ->
       3 <= String.length (Py.zfill 3 (i + 1)) /\
       (i + 1 < 1000 -> String.length (Py.zfill 3 (i + 1)) = 3)).
Proof.
  intros HL HD _ Hprobe Hff base part.
  pose proof (Qceiling_div_nonneg D L HL HD) as Hn.
  exists (Z.to_nat (Qceiling (D / inject_Z L))).
  rewrite Z2Nat.id by exact Hn.
  unfold AudioSplitter.split_audio_file.
  unfold bind at 1. simpl.
  unfold bind at 1. unfold AudioSplitter.get_duration. simpl. rewrite Hprobe.
  destruct (Z.eqb_spec L 0) as [->|_]; [lia|].
  unfold bind at 1. simpl.
  unfold bind at 1.
  match goal with |- context [AudioSplitter.run_segments env ?a ?b ?c ?d ?e ?l ?w0] =>
    destruct (run_segments_artifacts env Hff a b c d e l w0) as (f' & -> & _ & Hparts) end.
  simpl. eexists. split; [reflexivity|]. split; [reflexivity|]. split; [|split; [|split]].
  - cbn [trace fs]. rewrite !ffmpeg_runs_app, ffmpeg_runs_segments. simpl.
    rewrite !app_nil_r. reflexivity.
  - intros i Hi. cbn [fs]. apply Hparts. apply elem_of_seq. lia.
  - apply (part_paths_nodup file_path output_dir fmt). apply NoDup_seq.
  - intros i _. split; [apply zfill_length_ge|].
    intros Hi. apply zfill_length_exact; [lia|]. simpl. lia.
Qed.

(** A 1450 second file cut every 600 seconds: three parts, at 0, 600 and
    1200, all three on disk afterwards. *)
Lemma split_audio_file_artifacts_witness :
  exists w',
    AudioSplitter.split_audio_file (Fixtures.env_ok []) "in/rec.m4a" "out" 600 "m4a"
      (Fixtures.w_of [("out", Dir)])
      = (Ret 3%Z, w') /\
    ffmpeg_runs (trace w') =
      [ ["ffmpeg"; "-i"; "in/rec.m4a"; "-ss"; "0"; "-t"; "600"; "-c"; "copy"; "-y"; "out/rec_part001.m4a"];
        ["ffmpeg"; "-i"; "in/rec.m4a"; "-ss"; "600"; "-t"; "600"; "-c"; "copy"; "-y"; "out/rec_part002.m4a"];
        ["ffmpeg"; "-i"; "in/rec.m4a"; "-ss"; "1200"; "-t"; "600"; "-c"; "copy"; "-y"; "out/rec_part003.m4a"] ] /\
    map (isfile_in (fs w')) ["out/rec_part001.m4a"; "out/rec_part002.m4a"; "out/rec_part003.m4a"]
      = [true; true; true].
Proof.
  destruct (split_audio_file_artifacts (Fixtures.env_ok []) "in/rec.m4a" "out" 600 "m4a"
              (1450 # 1)%Q (Fixtures.w_of [("out", Dir)]))
    as (n & w' & Hn & Hrun & Hcmds & Hfiles & _).
  - reflexivity.
  - discriminate.
  - reflexivity.
  - reflexivity.
  - intros cmd f. exists "", (<[Fixtures.output_of cmd := File "audio"]> f).
    split; [reflexivity|]. split.
    + unfold isfile_in, output_operand, Fixtures.output_of. by rewrite lookup_insert_eq.
    + intros p. unfold isfile_in.
      destruct (decide (Fixtures.output_of cmd = p)) as [->|Hne];
        [by rewrite lookup_insert_eq | by rewrite lookup_insert_ne].
  - assert (E : Qceiling ((1450 # 1) / inject_Z 600) = 3%Z) by reflexivity.
    rewrite E in Hn. assert (n = 3) as -> by lia.
    exists w'. split; [exact Hrun|]. split; [rewrite Hcmds; reflexivity|].
    exact (f_equal2 cons (Hfiles 0 ltac:(lia))
             (f_equal2 cons (Hfiles 1 ltac:(lia))
                (f_equal2 cons (Hfiles 2 ltac:(lia)) eq_refl))).
Defined.

(** ** Order of strings and stable sorting *)

Lemma ascii_compare_refl (a : ascii) : Ascii.compare a a = Eq.
Proof. unfold Ascii.compare. apply N.compare_refl. Qed.

Lemma ascii_compare_lt_trans (a b c : ascii) :
  Ascii.compare a b = Lt -> Ascii.compare b c = Lt -> Ascii.compare a c = Lt.
Proof. unfold Ascii.compare. rewrite !N.compare_lt_iff. lia. Qed.

Lemma string_compare_le_trans (a : string) :
  forall b c, String.compare a b <> Gt -> String.compare b c <> Gt -> String.compare a c <> Gt.
Proof.
  induction a as [|x a IH]; intros [|y b] [|z c]; simpl; try congruence.
  destruct (Ascii.compare x y) eqn:E1; destruct (Ascii.compare y z) eqn:E2; try congruence.
  - apply Ascii.compare_eq_iff in E1, E2. subst. rewrite ascii_compare_refl. apply IH.
  - apply Ascii.compare_eq_iff in E1. subst. rewrite E2. congruence.
  - apply Ascii.compare_eq_iff in E2. subst. rewrite E1. congruence.
  - rewrite (ascii_compare_lt_trans _ _ _ E1 E2). congruence.
Qed.

Lemma leb_compare (a b : string) : String.leb a b = true <-> String.compare a b <> Gt.
Proof. unfold String.leb. destruct (String.compare a b); split; congruence. Qed.

Lemma str_le_trans (a b c : string) : str_le a b -> str_le b c -> str_le a c.
Proof. unfold str_le. rewrite !leb_compare. apply string_compare_le_trans. Qed.

Lemma str_le_total (a b : string) : str_le a b \/ str_le b a.
Proof. apply String.leb_total. Qed.

Lemma str_le_refl (a : string) : str_le a a.
Proof. destruct (str_le_total a a); assumption. Qed.

Section Sorting.
Context {A : Type} (key : A -> string).

Lemma insert_by_perm (x : A) (l : list A) : Py.insert_by key x l ≡ₚ x :: l.
  Proof.
    induction l as [|y l IH]; simpl; [done|].
    destruct (String.leb (key x) (key y)); [done|].
    rewrite IH. apply Permutation_swap.
  Qed.

Lemma sort_by_perm (l : list A) : Py.sort_by key l ≡ₚ l.
  Proof.
    induction l as [|x l IH]; simpl; [done|].
    rewrite insert_by_perm. by rewrite IH.
  Qed.

Lemma insert_by_sorted (x : A) (l : list A) :
    StronglySorted (key_le key) l -> StronglySorted (key_le key) (Py.insert_by key x l).
  Proof.
    induction 1 as [|y l Hl IH Hy]; simpl.
    - repeat constructor.
    - destruct (String.leb (key x) (key y)) eqn:E.
      + constructor; [by constructor|].
        constructor; [exact E|].
        eapply Forall_impl; [exact Hy|]. intros z Hz.
        eapply str_le_trans; [exact E | exact Hz].
      + constructor; [exact IH|].
        rewrite insert_by_perm. constructor; [|exact Hy].
        destruct (str_le_total (key x) (key y)) as [H|H]; [|exact H].
        unfold str_le in H. congruence.
  Qed.

Lemma sort_by_sorted (l : list A) : StronglySorted (key_le key) (Py.sort_by key l).
  Proof.
    induction l as [|x l IH]; simpl; [constructor|]. by apply insert_by_sorted.
  Qed.

Lemma strongly_sorted_rev (R : relation A) (l : list A) :
    StronglySorted R l -> StronglySorted (flip R) (rev l).
  Proof.
    induction 1 as [|x l Hl IH Hx]; simpl; [constructor|].
    apply StronglySorted_app_2; [|exact IH|repeat constructor].
    intros y z Hy Hz. apply list_elem_of_singleton in Hz. subst z.
    unfold flip. rewrite Forall_forall in Hx. apply Hx.
    apply list_elem_of_In, in_rev, list_elem_of_In. exact Hy.
  Qed.

Lemma strongly_sorted_filter (R : relation A) (p : A -> bool) (l : list A) :
    StronglySorted R l -> StronglySorted R (List.filter p l).
  Proof.
    induction 1 as [|x l Hl IH Hx]; simpl; [constructor|].
    destruct (p x); [|exact IH].
    constructor; [exact IH|].
    rewrite Forall_forall in *. intros y Hy. apply Hx.
    apply list_elem_of_In in Hy. apply filter_In in Hy as [Hy _]. by apply list_elem_of_In.
  Qed.

  (** [sorted(l, key=key)] is ascending in the key and [sorted(l, key=key,
      reverse=True)] descending; both only reorder the list. *)
Lemma sorted_perm (reverse : bool) (l : list A) : Py.sorted key reverse l ≡ₚ l.
  Proof.
    unfold Py.sorted. destruct reverse; [|apply sort_by_perm].
    rewrite <- Permutation_rev, sort_by_perm. by rewrite <- Permutation_rev.
  Qed.

Lemma sorted_ascending (l : list A) : StronglySorted (key_le key) (Py.sorted key false l).
  Proof. apply sort_by_sorted. Qed.

Lemma sorted_descending (l : list A) :
    StronglySorted (flip (key_le key)) (Py.sorted key true l).
  Proof. unfold Py.sorted. apply strongly_sorted_rev, sort_by_sorted. Qed.
End Sorting.

Lemma filter_perm {A : Type} (p : A -> bool) (l1 l2 : list A) :
  l1 ≡ₚ l2 -> List.filter p l1 ≡ₚ List.filter p l2.
Proof.
  induction 1 as [|x l1 l2 H IH|x y l|l1 l2 l3 H1 IH1 H2 IH2]; simpl.
  - done.
  - destruct (p x); [by constructor | done].
  - destruct (p x), (p y); try done. apply Permutation_swap.
  - by etrans.
Qed.

(** ** Skipping work already done *)

(** Running the splitter twice: the second run finds every part of the
    first run on disk and still runs ffmpeg for each of them. *)
Lemma splitter_reruns_existing_parts :
  let env := Fixtures.env_ok ["rec.m4a"] in
  let a := AudioSplitter.Args "in" None "out" 600 "m4a" in
  let w0 := Fixtures.w_of [("in", Dir); ("in/rec.m4a", File "audio")] in
  let w1 := snd (AudioSplitter.main env a w0) in
  let w2 := snd (AudioSplitter.main env a (World (fs w1) [])) in
  map (exists_in (fs w1)) ["out/rec_part001.m4a"; "out/rec_part002.m4a"; "out/rec_part003.m4a"]
    = [true; true; true]
  /\ map (fun cmd => Fixtures.output_of cmd) (ffmpeg_runs (trace w2))
    = ["out/rec_part001.m4a"; "out/rec_part002.m4a"; "out/rec_part003.m4a"]
  /\ external_calls (trace w2) = 3.
Proof. vm_compute. repeat split; reflexivity. Qed.

Lemma convert_skips_existing (env : Env) (video_path output_dir fmt bitrate : string) (w : world) :
  exists_in (fs w) (VideoConverter.output_path_of video_path output_dir fmt) = true ->
  VideoConverter.convert_video_to_audio env video_path output_dir fmt bitrate false w
  = (Ret true,
     World (fs w)
       (trace w ++ [Makedirs output_dir;
                    Say (VSkipping (fst (OsPath.splitext (OsPath.basename video_path)))
                           (VideoConverter.output_path_of video_path output_dir fmt))])).
Proof.
  intros Hex. unfold VideoConverter.convert_video_to_audio, VideoConverter.output_path_of in *.
  unfold bind at 1. simpl. unfold bind at 1. unfold path_exists. simpl.
  rewrite Hex. simpl. unfold bind, say, emit, ret. simpl.
  by rewrite <- app_assoc.
Qed.

Lemma convert_all_skips_existing (env : Env) (a : VideoConverter.args) (output_dir : string)
    (video_files : list string) :
  VideoConverter.force a = false ->
  forall (s f k : nat) (w : world),
    (forall v, v ∈ video_files ->
       exists_in (fs w) (VideoConverter.output_path_of v output_dir (VideoConverter.format a)) = true) ->
    exists counts,
      VideoConverter.convert_all env video_files output_dir a s f k w
      = (Ret counts,
         World (fs w)
           (trace w ++
            flat_map (fun v =>
              [Makedirs output_dir;
               Say (VSkipping (fst (OsPath.splitext (OsPath.basename v)))
                      (VideoConverter.output_path_of v output_dir (VideoConverter.format a)))])
              video_files)).
Proof.
  intros Hforce. induction video_files as [|v l IH]; intros s f k w Hex.
  - eexists. simpl. unfold ret. rewrite app_nil_r. by destruct w.
  - simpl. unfold bind at 1. rewrite Hforce.
    rewrite convert_skips_existing by (apply Hex; left).
    simpl.
    edestruct (IH (S s) f k) as (counts & ->).
    2:{ exists counts. simpl. by rewrite <- app_assoc. }
    simpl. intros v' Hv'. apply Hex. by right.
Qed.

Lemma skip_events_quiet (output_dir fmt : string) (l : list string) :
  external_calls
    (flat_map (fun v =>
       [Makedirs output_dir;
        Say (VSkipping (fst (OsPath.splitext (OsPath.basename v)))
               (VideoConverter.output_path_of v output_dir fmt))]) l) = 0.
Proof. induction l as [|v l IH]; [reflexivity | exact IH]. Qed.

Lemma skip_events_said (output_dir fmt : string) (l : list string) (v : string) :
  v ∈ l ->
  VSkipping (fst (OsPath.splitext (OsPath.basename v)))
    (VideoConverter.output_path_of v output_dir fmt)
  ∈ said (flat_map (fun v =>
       [Makedirs output_dir;
        Say (VSkipping (fst (OsPath.splitext (OsPath.basename v)))
               (VideoConverter.output_path_of v output_dir fmt))]) l).
Proof.
  induction l as [|x l IH]; intros Hv; [by apply elem_of_nil in Hv|].
  simpl. apply elem_of_cons in Hv as [->|Hv]; [left | right; auto].
Qed.

(** One turn of the conversion loop on an item whose output is on disk. *)
Lemma convert_all_skip_step (env : Env) (a : VideoConverter.args) (output_dir v : string)
    (rest : list string) (s f k : nat) (w : world) :
  VideoConverter.force a = false ->
  exists_in (fs w) (VideoConverter.output_path_of v output_dir (VideoConverter.format a)) = true ->
  VideoConverter.convert_all env (v :: rest) output_dir a s f k w
  = VideoConverter.convert_all env rest output_dir a (S s) f k
      (World (fs w)
         (trace w ++ [Makedirs output_dir;
                      Say (VSkipping (fst (OsPath.splitext (OsPath.basename v)))
                             (VideoConverter.output_path_of v output_dir (VideoConverter.format a)))])).
Proof.
  intros Hforce Hex. cbn [VideoConverter.convert_all]. unfold bind at 1. rewrite Hforce.
  rewrite convert_skips_existing by exact Hex. reflexivity.
Qed.

(** One turn of the transcription loop on an item whose transcript is on
    disk: the text is at most read, for the aggregate. *)
Lemma transcribe_all_skip_step (env : Env) (folder model_name language : string)
    (print_to_screen : bool) (unify : option string) (n : string) (rest : list string)
    (acc : list Transcribe.item) (w : world) :
  let txt := OsPath.join folder (fst (OsPath.splitext n) +:+ ".txt") in
  exists_in (fs w) txt = true ->
  exists acc1 t1,
    Transcribe.transcribe_all env folder model_name language print_to_screen unify (n :: rest) acc w
    = Transcribe.transcribe_all env folder model_name language print_to_screen unify rest acc1
        (World (fs w) (trace w ++ t1))
    /\ external_calls t1 = 0 /\ models_loaded t1 = [] /\ writes t1 = []
    /\ heartbeat_running false t1 = false
    /\ said t1 = TTranscriptExistsFor n txt :: List.tail (said t1)
    /\ (truthy unify = false -> acc1 = acc /\ t1 = [Say (TTranscriptExistsFor n txt)]).
Proof.
  intros txt Hex. cbn [Transcribe.transcribe_all]. cbv zeta. fold txt.
  unfold bind at 1, path_exists. cbn [fs trace]. rewrite Hex.
  unfold bind at 1.
  match goal with |- context [let (_, _) := ?X w in _] =>
    assert (Hstep : exists acc1 t1,
      X w = (Ret acc1, World (fs w) (trace w ++ t1))
      /\ external_calls t1 = 0 /\ models_loaded t1 = [] /\ writes t1 = []
      /\ heartbeat_running false t1 = false
      /\ said t1 = TTranscriptExistsFor n txt :: List.tail (said t1)
      /\ (truthy unify = false -> acc1 = acc /\ t1 = [Say (TTranscriptExistsFor n txt)]))
  end.
  { unfold bind at 1, say at 1, emit. cbn [fs trace].
    destruct (truthy unify).
    - unfold try_except, bind at 1, read_text. cbn [fs trace].
      destruct (fs w !! txt) as [[|body|why]|] eqn:E; cbn [is_exception];
        unfold bind, say, emit, ret; cbn [fs trace]; rewrite <- ?app_assoc;
        (eexists _, _; split; [reflexivity|]); repeat split; done.
    - unfold ret. eexists _, _. split; [reflexivity|]. repeat split; done. }
  destruct Hstep as (acc1 & t1 & -> & H). exists acc1, t1. split; [reflexivity | exact H].
Qed.

(** A single file whose transcript is on disk. *)
Lemma transcribe_single_file_skips (env : Env) (file_path model_name language : string)
    (print_to_screen : bool) (w : world) :
  let txt_path :=
    OsPath.join (OsPath.dirname file_path)
      (fst (OsPath.splitext (OsPath.basename file_path)) +:+ ".txt") in
  isfile_in (fs w) file_path = true ->
  exists_in (fs w) txt_path = true ->
  exists tr,
    Transcribe.transcribe_single_file env file_path model_name language print_to_screen w
      = (Ret txt_path, World (fs w) (trace w ++ tr))
    /\ external_calls tr = 0 /\ models_loaded tr = [] /\ writes tr = []
    /\ heartbeat_running false tr = false
    /\ TTranscriptExists txt_path ∈ said tr.
Proof.
  intros txt_path Hfile Htxt.
  unfold Transcribe.transcribe_single_file.
  unfold bind at 1, isfile. cbn [fs trace]. rewrite Hfile. cbn [negb].
  unfold bind at 1.
  assert (Hwarn : exists t0,
            when (negb (Transcribe.is_audio file_path)) (say (TWarnUnsupported file_path)) w
            = (Ret tt, World (fs w) (trace w ++ t0))
            /\ external_calls t0 = 0 /\ models_loaded t0 = [] /\ writes t0 = []
            /\ heartbeat_running false t0 = false).
  { destruct (Transcribe.is_audio file_path); unfold when, say, emit, ret; cbn [negb fs trace].
    - exists []. rewrite app_nil_r. by destruct w.
    - eexists [_]. done. }
  destruct Hwarn as (t0 & -> & Hc0 & Hm0 & Hw0 & Hb0). cbv zeta. fold txt_path.
  unfold bind at 1, path_exists. cbn [fs trace]. rewrite Htxt.
  assert (Hrest : forall w0 : world, exists t1,
            (say (TTranscriptExists txt_path) ;;
             when print_to_screen
               (try_except
                  (let* transcript := read_text txt_path in say (TEcho transcript))
                  (fun e => say (TErrorReadingExisting (exn_str e)))) ;;
             ret txt_path) w0
            = (Ret txt_path, World (fs w0) (trace w0 ++ Say (TTranscriptExists txt_path) :: t1))
            /\ external_calls t1 = 0 /\ models_loaded t1 = [] /\ writes t1 = []
            /\ heartbeat_running false t1 = false).
  { intros w0. unfold bind at 1, say at 1, emit. cbn [fs trace].
    destruct print_to_screen; unfold when.
    - unfold bind at 1, try_except, bind at 1, read_text. cbn [fs trace].
      destruct (fs w0 !! txt_path) as [[|body|why]|]; cbn [is_exception];
        unfold bind, say, emit, ret; cbn [fs trace]; rewrite <- ?app_assoc;
        (eexists; split; [reflexivity|]); done.
    - unfold bind, ret. cbn [fs trace]. exists []. done. }
  destruct (Hrest (World (fs w) (trace w ++ t0))) as (t1 & -> & Hc1 & Hm1 & Hw1 & Hb1).
  cbn [fs trace]. rewrite <- app_assoc.
  eexists. split; [reflexivity|].
  rewrite external_calls_app, models_loaded_app, writes_app, heartbeat_running_app, said_app.
  rewrite Hc0, Hm0, Hw0, Hb0. cbn [external_calls]. 
  split; [exact Hc1|]. split; [exact Hm1|]. split; [exact Hw1|]. split; [exact Hb1|].
  apply elem_of_app. right. left.
Qed.

(** The transcription loop when every transcript is on disk. *)
Lemma transcribe_all_rerun (env : Env) (folder model_name language : string)
    (print_to_screen : bool) (unify : option string) (audio_files : list string) :
  forall (acc : list Transcribe.item) (w : world),
    (forall n, n ∈ audio_files ->
       exists_in (fs w) (OsPath.join folder (fst (OsPath.splitext n) +:+ ".txt")) = true) ->
    exists acc' t',
      Transcribe.transcribe_all env folder model_name language print_to_screen unify audio_files acc w
      = (Ret acc', World (fs w) (trace w ++ t'))
      /\ external_calls t' = 0 /\ models_loaded t' = [] /\ writes t' = []
      /\ heartbeat_running false t' = false
      /\ (forall n, n ∈ audio_files ->
            TTranscriptExistsFor n (OsPath.join folder (fst (OsPath.splitext n) +:+ ".txt"))
              ∈ said t')
      /\ (truthy unify = false -> acc' = acc).
Proof.
  induction audio_files as [|n l IH]; intros acc w Hex.
  - exists acc, []. cbn [Transcribe.transcribe_all]. unfold ret. rewrite app_nil_r. destruct w.
    repeat split; try done. intros n Hn. by apply elem_of_nil in Hn.
  - destruct (transcribe_all_skip_step env folder model_name language print_to_screen unify
                n l acc w (Hex n ltac:(left)))
      as (acc1 & t1 & -> & Hc1 & Hm1 & Hw1 & Hb1 & Hs1 & Hacc1).
    destruct (IH acc1 (World (fs w) (trace w ++ t1)))
      as (acc' & t' & -> & Hc & Hm & Hw & Hb & Hs & Hacc).
    { cbn [fs]. intros n' Hn'. apply Hex. by right. }
    cbn [fs trace]. exists acc', (t1 ++ t'). rewrite <- app_assoc. split; [reflexivity|].
    rewrite external_calls_app, models_loaded_app, writes_app, heartbeat_running_app.
    rewrite Hc1, Hm1, Hw1, Hb1, Hc, Hm, Hw, Hb.
    repeat split; try done.
    + intros n' Hn'. rewrite said_app. apply elem_of_app.
      apply elem_of_cons in Hn' as [->|Hn']; [left | right; by apply Hs].
      rewrite Hs1. left.
    + intros Hu. rewrite (Hacc Hu). by apply Hacc1.
Qed.

(** A folder run with a model in which every transcript is on disk. *)
Lemma transcribe_folder_rerun (env : Env) (folder : string) (model_name : option string)
    (language : string) (print_to_screen : bool) (unify : option string) (w : world) :
  truthy model_name = true ->
  isdir_in (fs w) folder = true ->
  (forall n, n ∈ List.filter Transcribe.is_audio (listdir env folder) ->
     exists_in (fs w) (OsPath.join folder (fst (OsPath.splitext n) +:+ ".txt")) = true) ->
  exists r w',
    Transcribe.transcribe_folder env folder model_name language print_to_screen unify w = (r, w')
    /\ external_calls (trace w') = external_calls (trace w)
    /\ models_loaded (trace w') = models_loaded (trace w) ++ [default "" model_name]
    /\ (forall n, n ∈ List.filter Transcribe.is_audio (listdir env folder) ->
          TTranscriptExistsFor n (OsPath.join folder (fst (OsPath.splitext n) +:+ ".txt"))
            ∈ said (trace w'))
    /\ (truthy unify = false -> r = Ret tt /\ fs w' = fs w).
Proof.
  intros Hm Hdir Hex.
  unfold Transcribe.transcribe_folder. rewrite Hm. cbn [negb]. rewrite andb_false_r.
  destruct model_name as [m|]; [|discriminate]. cbn [default]. unfold id.
  unfold bind at 1, Transcribe.load_model.
  unfold bind at 1, say at 1, emit. cbn [fs trace].
  unfold bind at 1, emit. cbn [fs trace]. unfold say at 1, emit. cbn [fs trace].
  unfold bind at 1, isdir. cbn [fs trace]. rewrite Hdir. cbn [negb].
  destruct (List.filter Transcribe.is_audio (listdir env folder)) as [|n0 ns] eqn:Hscan.
  { unfold say, emit. cbn [fs trace]. rewrite <- !app_assoc.
    eexists _, _. split; [reflexivity|]. cbn [fs trace].
    rewrite external_calls_app, models_loaded_app. cbn.
    split; [lia|]. split; [reflexivity|]. split; [|done].
    intros n Hn. by apply elem_of_nil in Hn. }
  cbv zeta.
  unfold bind at 1.
  match goal with |- context [let (_, _) := ?X ?w0 in _] =>
    assert (Hsay : exists m0, X w0 = (Ret tt, World (fs w0) (trace w0 ++ [Say m0])))
  end.
  { destruct (truthy unify); unfold say, emit; cbn [fs trace]; eauto. }
  destruct Hsay as (m0 & ->). cbn [fs trace].
  unfold bind at 1.
  match goal with |- context [Transcribe.transcribe_all env ?a ?b ?c ?d ?e ?l ?acc ?w0] =>
    destruct (transcribe_all_rerun env a b c d e l acc w0)
      as (items & tr & -> & Hq & Hml & Hwr & _ & Hsaid & Hacc)
  end.
  { cbn [fs trace]. intros n Hn. apply Hex.
    destruct (truthy unify); [|exact Hn].
    eapply elem_of_Permutation_proper; [|exact Hn]. symmetry. apply sorted_perm. }
  assert (Hall : forall n, n ∈ n0 :: ns ->
            TTranscriptExistsFor n (OsPath.join folder (fst (OsPath.splitext n) +:+ ".txt"))
              ∈ said tr).
  { intros n Hn. apply Hsaid. destruct (truthy unify); [|exact Hn].
    eapply elem_of_Permutation_proper; [apply sorted_perm | exact Hn]. }
  cbn [fs trace].
  match goal with |- context [World (fs w) (?t ++ tr)] => set (pre := t) in * end.
  assert (Hpre_c : external_calls pre = external_calls (trace w)).
  { unfold pre. rewrite !external_calls_app. cbn. lia. }
  assert (Hpre_m : models_loaded pre = models_loaded (trace w) ++ [m]).
  { unfold pre. rewrite !models_loaded_app. cbn. by rewrite !app_nil_r. }
  clearbody pre.
  assert (Hfacts : forall t2,
            external_calls t2 = 0 -> models_loaded t2 = [] ->
            external_calls (pre ++ tr ++ t2) = external_calls (trace w)
            /\ models_loaded (pre ++ tr ++ t2) = models_loaded (trace w) ++ [m]
            /\ (forall n, n ∈ n0 :: ns ->
                  TTranscriptExistsFor n (OsPath.join folder (fst (OsPath.splitext n) +:+ ".txt"))
                    ∈ said (pre ++ tr ++ t2))).
  { intros t2 Hc2 Hm2.
    rewrite !external_calls_app, !models_loaded_app, Hpre_c, Hpre_m, Hq, Hml, Hc2, Hm2.
    split; [lia|]. split; [by rewrite !app_nil_r|].
    intros n Hn. rewrite !said_app. apply elem_of_app. right. apply elem_of_app. left.
    by apply Hall. }
  destruct items as [|it its].
  - unfold ret. eexists _, _. split; [reflexivity|]. cbn [fs trace].
    destruct (Hfacts [] eq_refl eq_refl) as (H1 & H2 & H3). rewrite app_nil_r in H1, H2, H3.
    split; [exact H1|]. split; [exact H2|]. split; [exact H3|]. done.
  - destruct (truthy unify) eqn:Hu; unfold when.
    + unfold bind at 1, write_text. cbn [fs trace].
      match goal with |- context [fs w !! ?p] => destruct (fs w !! p) as [[|body|why]|] end;
        unfold bind, say, emit, ret; cbn [fs trace]; rewrite <- ?app_assoc;
        (eexists _, _; split; [reflexivity|]); cbn [fs trace];
        try (destruct (Hfacts [] eq_refl eq_refl) as (H1 & H2 & H3);
             rewrite app_nil_r in H1, H2, H3;
             split; [exact H1|]; split; [exact H2|]; split; [exact H3|]; done);
        match goal with |- context [pre ++ tr ++ ?t2] =>
          destruct (Hfacts t2 eq_refl eq_refl) as (H1 & H2 & H3) end;
        (split; [exact H1|]); (split; [exact H2|]); (split; [exact H3|]); done.
    + unfold ret. eexists _, _. split; [reflexivity|]. cbn [fs trace].
      destruct (Hfacts [] eq_refl eq_refl) as (H1 & H2 & H3). rewrite app_nil_r in H1, H2, H3.
      split; [exact H1|]. split; [exact H2|]. split; [exact H3|]. done.
Qed.

(** C1, as amended.  An item whose output is already on disk is not given
    to the external program again.

    video_converter, with [force] off and the output folder in place: the
    conversion of such an item prints that it is skipped and returns [True]
    without running ffmpeg and without touching the file system; the loop
    goes on to the next item (the item is added to the first counter, the
    one of the conversions); when the output of every item exists, the
    whole loop runs nothing.

    transcribe.py: for a single file whose transcript exists no model is
    loaded, Whisper is not called and nothing is written; in the loop over
    a folder such an item is announced as already transcribed, and its
    transcript is at most read; a folder run in which every transcript
    exists loads the model once, calls Whisper for no item, and without
    [--unify] leaves the file system as it was. *)
Theorem existing_output_is_skipped :
  (forall (env : Env) (video_path output_dir fmt bitrate : string) (w : world),
     isdir_in (fs w) output_dir = true ->
     exists_in (fs w) (VideoConverter.output_path_of video_path output_dir fmt) = true ->
     VideoConverter.convert_video_to_audio env video_path output_dir fmt bitrate false w
     = (Ret true,
        World (fs w)
          (trace w ++ [Makedirs output_dir;
                       Say (VSkipping (fst (OsPath.splitext (OsPath.basename video_path)))
                              (VideoConverter.output_path_of video_path output_dir fmt))])))
  /\
  (forall (env : Env) (a : VideoConverter.args) (output_dir v : string) (rest : list string)
          (s f k : nat) (w : world),
     VideoConverter.force a = false ->
     isdir_in (fs w) output_dir = true ->
     exists_in (fs w) (VideoConverter.output_path_of v output_dir (VideoConverter.format a)) = true ->
     VideoConverter.convert_all env (v :: rest) output_dir a s f k w
     = VideoConverter.convert_all env rest output_dir a (S s) f k
         (World (fs w)
            (trace w ++ [Makedirs output_dir;
                         Say (VSkipping (fst (OsPath.splitext (OsPath.basename v)))
                                (VideoConverter.output_path_of v output_dir
                                   (VideoConverter.format a)))])))
  /\
  (forall (env : Env) (a : VideoConverter.args) (output_dir : string) (video_files : list string)
          (w : world),
     VideoConverter.force a = false ->
     isdir_in (fs w) output_dir = true ->
     (forall v, v ∈ video_files ->
        exists_in (fs w) (VideoConverter.output_path_of v output_dir (VideoConverter.format a))
        = true) ->
     exists counts w',
       VideoConverter.convert_all env video_files output_dir a 0 0 0 w = (Ret counts, w') /\
       fs w' = fs w /\
       external_calls (trace w') = external_calls (trace w) /\
       forall v, v ∈ video_files ->
         VSkipping (fst (OsPath.splitext (OsPath.basename v)))
           (VideoConverter.output_path_of v output_dir (VideoConverter.format a))
         ∈ said (trace w'))
  /\
  (forall (env : Env) (file_path model_name language : string) (print_to_screen : bool)
          (w : world),
     isfile_in (fs w) file_path = true ->
     exists_in (fs w)
       (OsPath.join (OsPath.dirname file_path)
          (fst (OsPath.splitext (OsPath.basename file_path)) +:+ ".txt")) = true ->
     exists tr,
       Transcribe.transcribe_single_file env file_path model_name language print_to_screen w
       = (Ret (OsPath.join (OsPath.dirname file_path)
                 (fst (OsPath.splitext (OsPath.basename file_path)) +:+ ".txt")),
          World (fs w) (trace w ++ tr))
       /\ external_calls tr = 0 /\ models_loaded tr = [] /\ writes tr = []
       /\ heartbeat_running false tr = false
       /\ TTranscriptExists
            (OsPath.join (OsPath.dirname file_path)
               (fst (OsPath.splitext (OsPath.basename file_path)) +:+ ".txt")) ∈ said tr)
  /\
  (forall (env : Env) (folder model_name language : string) (print_to_screen : bool)
          (unify : option string) (n : string) (rest : list string)
          (acc : list Transcribe.item) (w : world),
     exists_in (fs w) (OsPath.join folder (fst (OsPath.splitext n) +:+ ".txt")) = true ->
     exists acc1 t1,
       Transcribe.transcribe_all env folder model_name language print_to_screen unify
         (n :: rest) acc w
       = Transcribe.transcribe_all env folder model_name language print_to_screen unify
           rest acc1 (World (fs w) (trace w ++ t1))
       /\ external_calls t1 = 0 /\ models_loaded t1 = [] /\ writes t1 = []
       /\ heartbeat_running false t1 = false
       /\ said t1
          = TTranscriptExistsFor n (OsPath.join folder (fst (OsPath.splitext n) +:+ ".txt"))
            :: List.tail (said t1)
       /\ (truthy unify = false ->
           acc1 = acc /\
           t1 = [Say (TTranscriptExistsFor n
                        (OsPath.join folder (fst (OsPath.splitext n) +:+ ".txt")))]))
  /\
  (forall (env : Env) (folder : string) (model_name : option string) (language : string)
          (print_to_screen : bool) (unify : option string) (w : world),
     truthy model_name = true ->
     isdir_in (fs w) folder = true ->
     (forall n, n ∈ List.filter Transcribe.is_audio (listdir env folder) ->
        exists_in (fs w) (OsPath.join folder (fst (OsPath.splitext n) +:+ ".txt")) = true) ->
     exists r w',
       Transcribe.transcribe_folder env folder model_name language print_to_screen unify w
       = (r, w')
       /\ external_calls (trace w') = external_calls (trace w)
       /\ models_loaded (trace w') = models_loaded (trace w) ++ [default "" model_name]
       /\ (forall n, n ∈ List.filter Transcribe.is_audio (listdir env folder) ->
             TTranscriptExistsFor n (OsPath.join folder (fst (OsPath.splitext n) +:+ ".txt"))
               ∈ said (trace w'))
       /\ (truthy unify = false -> r = Ret tt /\ fs w' = fs w)).
Proof.
  split; [|split; [|split; [|split; [|split]]]].
  - intros env video_path output_dir fmt bitrate w _ Hex. by apply convert_skips_existing.
  - intros env a output_dir v rest s f k w Hforce _ Hex. by apply convert_all_skip_step.
  - intros env a output_dir video_files w Hforce _ Hex.
    destruct (convert_all_skips_existing env a output_dir video_files Hforce 0 0 0 w Hex)
      as (counts & ->).
    eexists _, _. split; [reflexivity|]. cbn [fs trace]. split; [reflexivity|].
    split.
    + rewrite external_calls_app, skip_events_quiet. lia.
    + intros v Hv. rewrite said_app. apply elem_of_app. right. by apply skip_events_said.
  - intros env file_path model_name language print_to_screen w Hfile Htxt.
    by apply transcribe_single_file_skips.
  - intros env folder model_name language print_to_screen unify n rest acc w Hex.
    by apply transcribe_all_skip_step.
  - intros env folder model_name language print_to_screen unify w Hm Hdir Hex.
    by apply transcribe_folder_rerun.
Qed.

(** A folder whose one video has its audio, and whose one audio file has
    its transcript: converting again runs nothing, transcribing again loads
    the model and calls Whisper for nothing. *)
Lemma existing_output_is_skipped_witness :
  let env := Fixtures.env_ok ["a.mp4"; "a.m4a"; "a.txt"] in
  let a := VideoConverter.Args "in" None None "m4a" "192k" false in
  let w := Fixtures.w_of [("in", Dir); ("in/a.mp4", File "video"); ("in/a.m4a", File "audio");
                          ("in/a.txt", File "hello")] in
  (exists counts w',
     VideoConverter.convert_all env ["in/a.mp4"] "in" a 0 0 0 w = (Ret counts, w') /\
     fs w' = fs w /\
     external_calls (trace w') = external_calls (trace w) /\
     forall v, v ∈ ["in/a.mp4"] ->
       VSkipping (fst (OsPath.splitext (OsPath.basename v)))
         (VideoConverter.output_path_of v "in" (VideoConverter.format a)) ∈ said (trace w'))
  /\
  (exists r w',
     Transcribe.transcribe_folder env "in" (Some "medium") "he" false None w = (r, w')
     /\ external_calls (trace w') = external_calls (trace w)
     /\ models_loaded (trace w') = models_loaded (trace w) ++ ["medium"]
     /\ (forall n, n ∈ List.filter Transcribe.is_audio (listdir env "in") ->
           TTranscriptExistsFor n (OsPath.join "in" (fst (OsPath.splitext n) +:+ ".txt"))
             ∈ said (trace w'))
     /\ (truthy None = false -> r = Ret tt /\ fs w' = fs w)).
Proof.
  intros env a w.
  destruct existing_output_is_skipped as (_ & _ & Hbatch & _ & _ & Hfolder).
  split.
  - apply (Hbatch env a "in" ["in/a.mp4"] w).
    + reflexivity.
    + reflexivity.
    + intros v Hv. apply list_elem_of_singleton in Hv. subst v. reflexivity.
  - apply (Hfolder env "in" (Some "medium") "he" false None w).
    + reflexivity.
    + reflexivity.
    + intros n Hn. change (n ∈ ["a.m4a"]) in Hn.
      apply list_elem_of_singleton in Hn. subst n. reflexivity.
Defined.

Lemma convert_never_raises (env : Env) (v output_dir fmt bitrate : string) (force : bool) (w : world) :
  exists b w',
    VideoConverter.convert_video_to_audio env v output_dir fmt bitrate force w = (Ret b, w').
Proof.
  unfold VideoConverter.convert_video_to_audio.
  unfold bind at 1. simpl. unfold bind at 1. unfold path_exists. simpl.
  destruct (exists_in (fs w) _ && negb force).
  - unfold bind, say, emit, ret. simpl. eauto.
  - unfold try_except, bind at 1, subprocess_run. simpl.
    destruct (ffmpeg env _ (fs w)) as [[rc err| |d] f']; simpl.
    + destruct (rc =? 0)%Z.
      * unfold bind at 1, getsize. simpl.
        destruct (exists_in f' _); unfold bind, say, emit, ret; simpl; eauto.
      * unfold bind, say, emit, ret; simpl; eauto.
    + unfold bind, say, emit, ret; simpl; eauto.
    + unfold bind, say, emit, ret; simpl; eauto.
Qed.

Lemma contains_skipping_true : Py.contains "Skipping" (Py.str_bool true) = false.
Proof. reflexivity. Qed.

Lemma convert_all_total (env : Env) (a : VideoConverter.args) (output_dir : string)
    (video_files : list string) :
  forall (s f k : nat) (w : world),
    exists s' f' w',
      VideoConverter.convert_all env video_files output_dir a s f k w = (Ret (s', f', k), w') /\
      s' + f' = s + f + length video_files /\ s <= s' /\ f <= f'.
Proof.
  induction video_files as [|v l IH]; intros s f k w.
  - exists s, f, w. simpl. split; [reflexivity|lia].
  - simpl. unfold bind at 1.
    destruct (convert_never_raises env v output_dir (VideoConverter.format a)
                (VideoConverter.bitrate a) (VideoConverter.force a) w) as (b & w1 & ->).
    destruct b.
    + rewrite contains_skipping_true, andb_false_r.
      destruct (IH (S s) f k w1) as (s' & f' & w' & -> & Hsum & Hs & Hf).
      exists s', f', w'. split; [reflexivity|lia].
    + destruct (IH s (S f) k w1) as (s' & f' & w' & -> & Hsum & Hs & Hf).
      exists s', f', w'. split; [reflexivity|lia].
Qed.





(** ** Order of discovery and of processing *)

Lemma attempted_app (t1 t2 : list event) : attempted (t1 ++ t2) = attempted t1 ++ attempted t2.
Proof.
  induction t1 as [|e t1 IH]; simpl; [reflexivity|].
  destruct e as [m| |cmd| | | | | |]; try exact IH.
  - destruct m; simpl; congruence.
  - destruct (is_ffmpeg cmd); [|exact IH].
    destruct cmd as [|? [|? [|? ?]]]; simpl; congruence.
Qed.

(** One turn of the conversion loop never raises and takes up exactly its item. *)
Lemma convert_attempts (env : Env) (v output_dir fmt bitrate : string) (force : bool) (w : world) :
  exists b f1 t1,
    VideoConverter.convert_video_to_audio env v output_dir fmt bitrate force w
      = (Ret b, World f1 (trace w ++ t1)) /\
    attempted t1 = [fst (OsPath.splitext (OsPath.basename v))].
Proof.
  unfold VideoConverter.convert_video_to_audio.
  unfold bind at 1. simpl. unfold bind at 1. unfold path_exists. simpl.
  destruct (exists_in (fs w) _ && negb force).
  - unfold bind, say, emit, ret. simpl. eexists _, _, _. rewrite <- app_assoc.
    split; reflexivity.
  - unfold try_except, bind at 1, subprocess_run. simpl.
    destruct (ffmpeg env _ (fs w)) as [[rc err| |d] f']; simpl.
    + destruct (rc =? 0)%Z.
      * unfold bind at 1, getsize. simpl.
        destruct (exists_in f' _); unfold bind, say, emit, ret; simpl;
          eexists _, _, _; rewrite <- !app_assoc; split; reflexivity.
      * unfold bind, say, emit, ret; simpl.
        eexists _, _, _; rewrite <- !app_assoc; split; reflexivity.
    + unfold bind, say, emit, ret; simpl.
      eexists _, _, _; rewrite <- !app_assoc; split; reflexivity.
    + unfold bind, say, emit, ret; simpl.
      eexists _, _, _; rewrite <- !app_assoc; split; reflexivity.
Qed.

Lemma convert_all_in_order (env : Env) (a : VideoConverter.args) (output_dir : string)
    (video_files : list string) :
  forall (s f k : nat) (w : world),
    exists counts w',
      VideoConverter.convert_all env video_files output_dir a s f k w = (Ret counts, w') /\
      attempted (trace w') =
        attempted (trace w) ++ map (fun v => fst (OsPath.splitext (OsPath.basename v))) video_files.
Proof.
  induction video_files as [|v l IH]; intros s f k w.
  - eexists _, w. simpl. split; [reflexivity|]. by rewrite app_nil_r.
  - simpl. unfold bind at 1.
    destruct (convert_attempts env v output_dir (VideoConverter.format a)
                (VideoConverter.bitrate a) (VideoConverter.force a) w)
      as (b & f1 & t1 & -> & Ht1).
    assert (Hgen : forall s0 f0 k0, exists counts w',
      VideoConverter.convert_all env l output_dir a s0 f0 k0 (World f1 (trace w ++ t1))
        = (Ret counts, w') /\
      attempted (trace w') =
        attempted (trace w) ++
        fst (OsPath.splitext (OsPath.basename v))
          :: map (fun v => fst (OsPath.splitext (OsPath.basename v))) l).
    { intros s0 f0 k0.
      destruct (IH s0 f0 k0 (World f1 (trace w ++ t1))) as (counts & w' & Hrun & Hatt).
      exists counts, w'. split; [exact Hrun|].
      rewrite Hatt. cbn [trace]. rewrite attempted_app, Ht1, <- app_assoc. reflexivity. }
    destruct b; [destruct (negb (VideoConverter.force a) && _)|]; apply Hgen.
Qed.

(** The splitter takes the files of a folder in the order of the
    directory listing: with [b.m4a] listed before [a.m4a], it cuts [b] first. *)
Lemma splitter_follows_listing_order :
  let env := Fixtures.env_ok ["b.m4a"; "a.m4a"] in
  let a := AudioSplitter.Args "in" None "out" 600 "m4a" in
  let w := Fixtures.w_of [("in", Dir); ("in/a.m4a", File "audio"); ("in/b.m4a", File "audio")] in
  fst (AudioSplitter.discover env a w) = Ret (Some ["in/b.m4a"; "in/a.m4a"])
  /\ map Fixtures.output_of (ffmpeg_runs (trace (snd (AudioSplitter.main env a w))))
     = ["out/b_part001.m4a"; "out/b_part002.m4a"; "out/b_part003.m4a";
        "out/a_part001.m4a"; "out/a_part002.m4a"; "out/a_part003.m4a"]
  /\ transcribed (trace (snd (Transcribe.transcribe_folder env "in" (Some "medium") "he" false None w)))
     = ["in/b.m4a"; "in/a.m4a"].
Proof. vm_compute. repeat split; reflexivity. Qed.

(** C3, as amended.  For a directory, [get_video_files] returns the video
    files of the listing sorted ascending by file name, and the conversion
    loop takes the items up in exactly that order.  The splitter has no
    sorting step: it keeps the order of the directory listing. *)
Theorem video_discovery_sorted_and_processed_in_order
    (env : Env) (dir : string) (w : world)
    (a : VideoConverter.args) (output_dir : string) (s f k : nat) (w0 : world)
    (sa : AudioSplitter.args) :
  isfile_in (fs w) dir = false ->
  isdir_in (fs w) dir = true ->
  AudioSplitter.file sa = None ->
  (exists names,
     VideoConverter.get_video_files env dir None w = (Ret (map (OsPath.join dir) names), w) /\
     StronglySorted str_le names /\
     names ≡ₚ List.filter VideoConverter.is_video (listdir env dir) /\
     exists counts w',
       VideoConverter.convert_all env (map (OsPath.join dir) names) output_dir a s f k w0
         = (Ret counts, w') /\
       attempted (trace w') =
         attempted (trace w0) ++
         map (fun n => fst (OsPath.splitext (OsPath.basename (OsPath.join dir n)))) names)
  /\
  AudioSplitter.discover env sa w
    = (Ret (Some (map (OsPath.join (AudioSplitter.input_folder sa))
                    (List.filter AudioSplitter.is_audio
                       (listdir env (AudioSplitter.input_folder sa))))), w).
Proof.
  intros Hfile Hdir Hsa. split.
  - exists (List.filter VideoConverter.is_video (Py.sorted id false (listdir env dir))).
    split.
    { unfold VideoConverter.get_video_files, bind, isfile, isdir, ret. simpl.
      rewrite Hfile, Hdir. reflexivity. }
    split.
    { apply strongly_sorted_filter. apply (sorted_ascending id). }
    split.
    { apply filter_perm. apply (sorted_perm id). }
    destruct (convert_all_in_order env a output_dir
                (map (OsPath.join dir)
                   (List.filter VideoConverter.is_video (Py.sorted id false (listdir env dir))))
                s f k w0) as (counts & w' & Hrun & Hatt).
    exists counts, w'. split; [exact Hrun|].
    rewrite Hatt, map_map. reflexivity.
  - unfold AudioSplitter.discover. rewrite Hsa. reflexivity.
Qed.

Lemma video_discovery_sorted_and_processed_in_order_witness :
  let env := Fixtures.env_ok ["b.mp4"; "notes.txt"; "a.MP4"; "c.mov"] in
  let w := Fixtures.w_of [("in", Dir)] in
  let a := VideoConverter.Args "in" None None "m4a" "192k" false in
  VideoConverter.get_video_files env "in" None w = (Ret ["in/a.MP4"; "in/b.mp4"; "in/c.mov"], w)
  /\ exists counts w',
       VideoConverter.convert_all env ["in/a.MP4"; "in/b.mp4"; "in/c.mov"] "in" a 0 0 0 w
         = (Ret counts, w') /\
       attempted (trace w') = ["a"; "b"; "c"].
Proof.
  intros env w a.
  destruct (video_discovery_sorted_and_processed_in_order env "in" w a "in" 0 0 0 w
              (AudioSplitter.Args "in" None "out" 600 "m4a"))
    as [(names & Hget & _ & _ & counts & w' & Hrun & Hatt) _].
  - reflexivity.
  - reflexivity.
  - reflexivity.
  - assert (Hnames : map (OsPath.join "in") names = ["in/a.MP4"; "in/b.mp4"; "in/c.mov"]).
    { assert (E : VideoConverter.get_video_files env "in" None w
                  = (Ret ["in/a.MP4"; "in/b.mp4"; "in/c.mov"], w)) by reflexivity.
      rewrite E in Hget. congruence. }
    split; [reflexivity|].
    exists counts, w'. rewrite Hnames in Hrun. split; [exact Hrun|].
    rewrite Hatt. rewrite <- (map_map (OsPath.join "in")
      (fun p => fst (OsPath.splitext (OsPath.basename p)))). rewrite Hnames. reflexivity.
Defined.

(** ** An explicit item with an extension outside the allow-list *)

(** Single-file transcription of a [.wav] file: a warning is printed and
    the file is transcribed all the same; nothing fails. *)
Lemma transcribe_single_file_accepts_unsupported :
  let env := Fixtures.env_ok [] in
  let w := Fixtures.w_of [("in", Dir); ("in/talk.wav", File "audio")] in
  let r := Transcribe.transcribe_single_file env "in/talk.wav" "medium" "he" false w in
  Transcribe.is_audio "in/talk.wav" = false
  /\ fst r = Ret "in/talk.txt"
  /\ transcribed (trace (snd r)) = ["in/talk.wav"]
  /\ TWarnUnsupported "in/talk.wav" ∈ said (trace (snd r))
  /\ fst (Transcribe.main env (Transcribe.Args "in/talk.wav" None "he" false None) w) = Ret tt.
Proof.
  vm_compute. repeat split; try reflexivity. left.
Qed.

(** C5, as amended.  In the splitter and in the converter an explicit item
    whose extension is not in the allow-list is reported as unsupported and
    the run ends there, normally, without any external invocation: in the
    splitter for [--file]; in the converter for a path that is such a file,
    and for [--file] inside a folder.  Single-file transcription only
    warns: when no transcript exists yet the file is given to Whisper. *)
Theorem unsupported_explicit_item :
  (* splitter: --file names an existing file that is not .m4a/.opus *)
  (forall (env : Env) (sa : AudioSplitter.args) (name : string) (w : world),
     AudioSplitter.file sa = Some name -> name <> "" ->
     isdir_in (fs w) (AudioSplitter.input_folder sa) = true ->
     let resolved :=
       if isfile_in (fs w) name then name
       else OsPath.join (AudioSplitter.input_folder sa) name in
     isfile_in (fs w) resolved = true ->
     AudioSplitter.is_audio resolved = false ->
     AudioSplitter.main env sa w
     = (Ret tt, World (fs w) (trace w ++ [Say (AUnsupported resolved)])))
  /\
  (* converter: the path is an existing file that is not a video *)
  (forall (env : Env) (va : VideoConverter.args) (w : world),
     isfile_in (fs w) (VideoConverter.path va) = true ->
     VideoConverter.is_video (VideoConverter.path va) = false ->
     VideoConverter.main env va w
     = (Ret tt, World (fs w)
                  (trace w ++ [Say (VUnsupported (VideoConverter.path va)); Say VNoVideoFiles])))
  /\
  (* converter: --file names an existing file of the folder that is not a video *)
  (forall (env : Env) (va : VideoConverter.args) (name : string) (w : world),
     isdir_in (fs w) (VideoConverter.path va) = true ->
     VideoConverter.file va = Some name -> name <> "" ->
     isfile_in (fs w) (OsPath.join (VideoConverter.path va) name) = true ->
     VideoConverter.is_video (OsPath.join (VideoConverter.path va) name) = false ->
     VideoConverter.main env va w
     = (Ret tt, World (fs w) (trace w ++ [Say (VUnsupported name); Say VNoVideoFiles])))
  /\
  (* transcription: an existing file that is not .m4a/.opus, not yet transcribed *)
  (forall (env : Env) (file_path model_name language : string) (print_to_screen : bool)
          (w : world),
     isfile_in (fs w) file_path = true ->
     Transcribe.is_audio file_path = false ->
     exists_in (fs w)
       (OsPath.join (OsPath.dirname file_path)
          (fst (OsPath.splitext (OsPath.basename file_path)) +:+ ".txt")) = false ->
     exists o w' t',
       Transcribe.transcribe_single_file env file_path model_name language print_to_screen w
       = (o, w')
       /\ trace w' = trace w ++ Say (TWarnUnsupported file_path) :: t'
       /\ models_loaded t' = [model_name]
       /\ transcribed t' = [file_path]).
Proof.
  split; [|split; [|split]].
  - intros env sa name w Hfile Hname Hdir resolved Hres Haudio.
    unfold AudioSplitter.main. unfold bind at 1, isdir. simpl. rewrite Hdir. simpl.
    unfold bind at 1. unfold AudioSplitter.discover. rewrite Hfile. simpl.
    destruct (String.eqb_spec name ""); [done|]. simpl.
    unfold bind at 1, isfile. simpl. fold resolved.
    unfold bind at 1. simpl. rewrite Hres, Haudio.
    unfold bind, say, emit, ret. simpl. reflexivity.
  - intros env va w Hvfile Hvideo.
    unfold VideoConverter.main. unfold bind at 1.
    unfold VideoConverter.get_video_files. unfold bind at 1, isfile. simpl.
    rewrite Hvfile, Hvideo. unfold bind, say, emit, ret. simpl.
    rewrite <- app_assoc. reflexivity.
  - intros env va name w Hdir Hfile Hname Hres Hvideo.
    assert (Hnofile : isfile_in (fs w) (VideoConverter.path va) = false).
    { unfold isdir_in in Hdir. unfold isfile_in.
      by destruct (fs w !! VideoConverter.path va) as [[| |]|]. }
    unfold VideoConverter.main. unfold bind at 1.
    unfold VideoConverter.get_video_files. unfold bind at 1, isfile. cbn [fs trace].
    rewrite Hnofile. unfold bind at 1, isdir. cbn [fs trace]. rewrite Hdir, Hfile.
    destruct (String.eqb_spec name ""); [done|].
    unfold bind at 1. cbn [fs trace]. rewrite Hres, Hvideo.
    unfold bind, say, emit, ret. cbn [fs trace].
    rewrite <- app_assoc. reflexivity.
  - intros env file_path model_name language print_to_screen w Htfile Htaudio Htxt.
    unfold Transcribe.transcribe_single_file.
    unfold bind at 1, isfile. simpl. rewrite Htfile, Htaudio. simpl.
    unfold bind at 1. simpl. unfold bind at 1, path_exists. simpl. rewrite Htxt.
    unfold bind at 1, Transcribe.load_model. simpl.
    unfold bind at 1. simpl. unfold bind at 1. simpl. unfold bind at 1. simpl.
    unfold bind at 1. simpl. unfold bind at 1. simpl.
    unfold try_except, bind at 1, Transcribe.model_transcribe. simpl.
    destruct (whisper env model_name file_path language (fs w)) as [segs|e]; simpl.
    + unfold bind at 1. simpl. unfold bind at 1. simpl. unfold bind at 1.
      unfold write_text. simpl.
      destruct (fs w !! _) as [[| |]|]; simpl;
        unfold bind, say, emit, ret, raise, Transcribe.echo, when;
        destruct print_to_screen; simpl;
        rewrite <- ?app_assoc; simpl; eexists _, _, _;
        (split; [reflexivity|]); simpl; (split; [reflexivity|]); split; reflexivity.
    + destruct (is_exception e); unfold bind, emit, raise; simpl;
        rewrite <- ?app_assoc; simpl; eexists _, _, _;
        (split; [reflexivity|]); simpl; (split; [reflexivity|]); split; reflexivity.
Qed.

Lemma unsupported_explicit_item_witness :
  let env := Fixtures.env_ok ["notes.pdf"; "talk.wav"] in
  let w := Fixtures.w_of [("in", Dir); ("in/notes.pdf", File "text"); ("in/talk.wav", File "audio")] in
  AudioSplitter.main env (AudioSplitter.Args "in" (Some "notes.pdf") "out" 600 "m4a") w
    = (Ret tt, World (fs w) (trace w ++ [Say (AUnsupported "in/notes.pdf")]))
  /\
  VideoConverter.main env (VideoConverter.Args "in/notes.pdf" None None "m4a" "192k" false) w
    = (Ret tt, World (fs w) (trace w ++ [Say (VUnsupported "in/notes.pdf"); Say VNoVideoFiles]))
  /\
  VideoConverter.main env (VideoConverter.Args "in" (Some "notes.pdf") None "m4a" "192k" false) w
    = (Ret tt, World (fs w) (trace w ++ [Say (VUnsupported "notes.pdf"); Say VNoVideoFiles]))
  /\
  exists o w' t',
    Transcribe.transcribe_single_file env "in/talk.wav" "medium" "he" false w = (o, w')
    /\ trace w' = trace w ++ Say (TWarnUnsupported "in/talk.wav") :: t'
    /\ models_loaded t' = ["medium"]
    /\ transcribed t' = ["in/talk.wav"].
Proof.
  intros env w.
  destruct unsupported_explicit_item as (Hsplit & Hpath & Hfile & Hsingle).
  split; [|split; [|split]].
  - apply (Hsplit env (AudioSplitter.Args "in" (Some "notes.pdf") "out" 600 "m4a") "notes.pdf" w);
      [reflexivity | discriminate | reflexivity | reflexivity | reflexivity].
  - apply (Hpath env (VideoConverter.Args "in/notes.pdf" None None "m4a" "192k" false) w);
      reflexivity.
  - apply (Hfile env (VideoConverter.Args "in" (Some "notes.pdf") None "m4a" "192k" false)
             "notes.pdf" w);
      [reflexivity | reflexivity | discriminate | reflexivity | reflexivity].
  - apply (Hsingle env "in/talk.wav" "medium" "he" false w); reflexivity.
Defined.

(** ** The aggregator ([unify_transcripts]) *)

Lemma find_original_pure (env : Env) (folder : string) (possible : list string) (w : world) :
  Transcribe.find_original folder possible w = (Ret (original_of (fs w) folder possible), w).
Proof.
  induction possible as [|p l IH]; simpl; [reflexivity|].
  unfold bind, path_exists. simpl.
  destruct (exists_in (fs w) (OsPath.join folder p)); [reflexivity | exact IH].
Qed.

(** One turn of the reading loop. *)
Lemma read_one (env : Env) (folder filename : string) (acc : list Transcribe.item) (w : world) :
  exists t1,
    try_except
      (let* transcript := read_text (OsPath.join folder filename) in
       let base_name := fst (OsPath.splitext filename) in
       let* original_file :=
         Transcribe.find_original folder [base_name +:+ ".m4a"; base_name +:+ ".opus"] in
       ret (acc ++ [Transcribe.Item original_file base_name transcript 0%Q]))
      (fun e => say (TErrorReading filename (exn_str e)) ;; ret acc) w
    = (Ret (acc ++ option_list (entry_of (fs w) folder filename)), World (fs w) (trace w ++ t1))
    /\ writes t1 = [] /\ external_calls t1 = 0
    /\ reads t1 = match entry_of (fs w) folder filename with
                  | Some _ => [OsPath.join folder filename]
                  | None => []
                  end
    /\ (entry_of (fs w) folder filename = None ->
        exists detail, said t1 = [TErrorReading filename detail])
    /\ (is_Some (entry_of (fs w) folder filename) -> said t1 = []).
Proof.
  unfold try_except, bind at 1, read_text, entry_of.
  destruct (fs w !! OsPath.join folder filename) as [[|body|why]|] eqn:E; simpl.
  - unfold bind, say, emit, ret. simpl. rewrite app_nil_r.
    eexists. split; [reflexivity|]. repeat split; try reflexivity.
    + intros _. eexists. reflexivity.
    + intros [? ?]. discriminate.
  - unfold bind, path_exists, ret. cbn [fs trace].
    destruct (exists_in (fs w) (OsPath.join folder (_ +:+ ".m4a"))); cbn [fs trace];
      [|destruct (exists_in (fs w) (OsPath.join folder (_ +:+ ".opus")))];
      (eexists; split; [reflexivity|]; repeat split; try reflexivity;
       intros ?; discriminate).
  - unfold bind, say, emit, ret. simpl. rewrite app_nil_r.
    eexists. split; [reflexivity|]. repeat split; try reflexivity.
    + intros _. eexists. reflexivity.
    + intros [? ?]. discriminate.
  - unfold bind, say, emit, ret. simpl. rewrite app_nil_r.
    eexists. split; [reflexivity|]. repeat split; try reflexivity.
    + intros _. eexists. reflexivity.
    + intros [? ?]. discriminate.
Qed.

Lemma read_all_spec (env : Env) (folder : string) (l : list string) :
  forall (acc : list Transcribe.item) (w : world),
    exists t',
      Transcribe.read_all folder l acc w
      = (Ret (acc ++ omap (entry_of (fs w) folder) l), World (fs w) (trace w ++ t'))
      /\ writes t' = [] /\ external_calls t' = 0
      /\ (forall p, p ∈ reads t' ->
            exists f, f ∈ l /\ is_Some (entry_of (fs w) folder f) /\ p = OsPath.join folder f)
      /\ (forall f, f ∈ l -> entry_of (fs w) folder f = None ->
            exists detail, TErrorReading f detail ∈ said t')
      /\ (forall m, m ∈ said t' -> exists f detail,
            m = TErrorReading f detail /\ f ∈ l /\ entry_of (fs w) folder f = None).
Proof.
  induction l as [|f l IH]; intros acc w.
  - exists []. simpl. unfold ret. rewrite !app_nil_r. destruct w.
    split; [reflexivity|]. repeat split; try reflexivity.
    + intros p Hp. by apply elem_of_nil in Hp.
    + intros f Hf. by apply elem_of_nil in Hf.
    + intros m Hm. by apply elem_of_nil in Hm.
  - cbn [Transcribe.read_all]. unfold bind at 1.
    pose proof (read_one env folder f acc w) as H1. cbv zeta in H1.
    destruct H1 as (t1 & -> & Hw1 & Hx1 & Hr1 & He1 & Hs1).
    destruct (IH (acc ++ option_list (entry_of (fs w) folder f)) (World (fs w) (trace w ++ t1)))
      as (t' & -> & Hw' & Hx' & Hr' & He' & Hs').
    cbn [fs trace] in *.
    exists (t1 ++ t'). rewrite <- !app_assoc. split.
    { f_equal. f_equal. simpl. destruct (entry_of (fs w) folder f); reflexivity. }
    split; [by rewrite writes_app, Hw1, Hw'|].
    split; [rewrite external_calls_app; lia|].
    split; [|split].
    + intros p Hp. rewrite reads_app, Hr1 in Hp. apply elem_of_app in Hp as [Hp|Hp].
      * destruct (entry_of (fs w) folder f) eqn:E; [|by apply elem_of_nil in Hp].
        apply list_elem_of_singleton in Hp. subst p.
        exists f. split; [left|]. rewrite E. split; [eauto | reflexivity].
      * destruct (Hr' p Hp) as (g & Hg & Hsome & ->). exists g. split; [by right | done].
    + intros g Hg Hnone. rewrite said_app.
      apply elem_of_cons in Hg as [->|Hg].
      * destruct (He1 Hnone) as (d & Hd). exists d. apply elem_of_app. left. rewrite Hd. left.
      * destruct (He' g Hg Hnone) as (d & Hd). exists d. apply elem_of_app. by right.
    + intros m Hm. rewrite said_app in Hm. apply elem_of_app in Hm as [Hm|Hm].
      * destruct (entry_of (fs w) folder f) eqn:E.
        { rewrite Hs1 in Hm by eauto. by apply elem_of_nil in Hm. }
        destruct (He1 eq_refl) as (d & Hd). rewrite Hd in Hm.
        apply list_elem_of_singleton in Hm. subst m.
        exists f, d. split; [reflexivity|]. split; [left | exact E].
      * destruct (Hs' m Hm) as (g & d & -> & Hg & Hnone).
        exists g, d. split; [reflexivity|]. split; [by right | exact Hnone].
Qed.

Lemma sorted_nil {A : Type} (key : A -> string) (reverse : bool) : Py.sorted key reverse [] = [].
Proof. by destruct reverse. Qed.

(** What an aggregation run does, in terms of the candidates and of the
    entries they contribute. *)
Lemma unify_transcripts_spec (env : Env) (folder sort_order : string) (w : world) :
  let cands := candidates env folder sort_order in
  let items := omap (entry_of (fs w) folder) cands in
  let target := OsPath.join folder (Transcribe.unified_file_name sort_order (now env)) in
  exists t',
    trace (snd (Transcribe.unify_transcripts env folder sort_order w)) = trace w ++ t' /\
    external_calls t' = 0 /\
    (forall p, p ∈ reads t' ->
       exists f, f ∈ cands /\ is_Some (entry_of (fs w) folder f) /\ p = OsPath.join folder f) /\
    (isdir_in (fs w) folder = true ->
       (forall f, f ∈ cands -> entry_of (fs w) folder f = None ->
          exists detail, TErrorReading f detail ∈ said t') /\
       (items = [] ->
          Transcribe.unify_transcripts env folder sort_order w
            = (Ret tt, World (fs w) (trace w ++ t')) /\ writes t' = []) /\
       (items <> [] -> isdir_in (fs w) target = false ->
          Transcribe.unify_transcripts env folder sort_order w
            = (Ret tt, World (<[target := File (Transcribe.render (fun _ => "") items)]> (fs w))
                         (trace w ++ t'))
          /\ writes t' = [(target, Transcribe.render (fun _ => "") items)])) /\
    (isdir_in (fs w) folder = false ->
       exists e, Transcribe.unify_transcripts env folder sort_order w = (Raise e, w)
                 /\ is_exception e = true) /\
    (forall p b, (p, b) ∈ writes t' -> p = target).
Proof.
  intros cands items target.
  remember (Transcribe.unify_transcripts env folder sort_order w) as r eqn:Hr.
  unfold Transcribe.unify_transcripts in Hr.
  unfold bind at 1, os_listdir in Hr.
  destruct (isdir_in (fs w) folder) eqn:Hfolder.
  2:{ exists []. rewrite app_nil_r.
      assert (Hraise : exists e, r = (Raise e, w) /\ is_exception e = true).
      { unfold isdir_in in Hfolder.
        destruct (fs w !! folder) as [[|body|why]|]; try discriminate; subst r; eauto. }
      destruct Hraise as (e & -> & He). cbn [snd].
      split; [reflexivity|]. split; [reflexivity|].
      split; [intros p Hp; by apply elem_of_nil in Hp|].
      split; [discriminate|]. split; [eauto|].
      intros p b Hp. by apply elem_of_nil in Hp. }
  assert (Hdir : fs w !! folder = Some Dir).
  { unfold isdir_in in Hfolder. by destruct (fs w !! folder) as [[| |]|]. }
  rewrite Hdir in Hr. cbv zeta in Hr.
  destruct (List.filter Transcribe.is_candidate (listdir env folder)) as [|c0 cs] eqn:Hscan.
  - assert (Hc : cands = []).
    { unfold cands, candidates. rewrite Hscan. apply sorted_nil. }
    unfold say, emit in Hr. subst r.
    exists [Say (TNoTranscripts folder)]. cbn [fst snd fs trace].
    split; [reflexivity|]. split; [reflexivity|].
    split; [intros p Hp; by apply elem_of_nil in Hp|].
    split.
    { intros _.
      split; [intros f Hf; rewrite Hc in Hf; by apply elem_of_nil in Hf|].
      split; [intros _; split; reflexivity|].
      intros Hne; exfalso; apply Hne; unfold items; by rewrite Hc. }
    split; [discriminate|].
    intros p b Hp. by apply elem_of_nil in Hp.
  - assert (Hc : Py.sorted Transcribe.sort_key (String.eqb (Py.lower sort_order) "desc") (c0 :: cs)
                 = cands).
    { unfold cands, candidates. by rewrite Hscan. }
    rewrite Hc in Hr. unfold bind at 1, say at 1, emit in Hr. cbn [fs trace] in Hr.
    unfold bind at 1 in Hr.
    destruct (read_all_spec env folder cands []
                (World (fs w)
                   (trace w ++ [Say (TFoundTranscripts (length cands)
                                       (Transcribe.sort_direction sort_order))])))
      as (t1 & Hrun & Hw1 & Hx1 & Hr1 & He1 & _).
    rewrite Hrun in Hr. clear Hrun.
    cbn [fs trace app] in *. fold items in Hr.
    assert (Hreads : forall t2, reads t2 = [] -> forall p,
              p ∈ reads ([Say (TFoundTranscripts (length cands)
                                 (Transcribe.sort_direction sort_order))] ++ t1 ++ t2) ->
              exists f, f ∈ cands /\ is_Some (entry_of (fs w) folder f)
                        /\ p = OsPath.join folder f).
    { intros t2 Ht2 p Hp. rewrite !reads_app, Ht2, app_nil_r in Hp. simpl in Hp. auto. }
    assert (Hsaid : forall t2 f, f ∈ cands -> entry_of (fs w) folder f = None ->
              exists detail, TErrorReading f detail ∈
                said ([Say (TFoundTranscripts (length cands)
                              (Transcribe.sort_direction sort_order))] ++ t1 ++ t2)).
    { intros t2 f Hf Hnone. destruct (He1 f Hf Hnone) as (d & Hd). exists d.
      rewrite !said_app. simpl. right. apply elem_of_app. by left. }
    assert (Hcalls : forall t2, external_calls t2 = 0 ->
              external_calls ([Say (TFoundTranscripts (length cands)
                                      (Transcribe.sort_direction sort_order))] ++ t1 ++ t2) = 0).
    { intros t2 Ht2. rewrite !external_calls_app, Hx1, Ht2. reflexivity. }
    assert (Hwrites : forall t2,
              writes ([Say (TFoundTranscripts (length cands)
                              (Transcribe.sort_direction sort_order))] ++ t1 ++ t2) = writes t2).
    { intros t2. rewrite !writes_app, Hw1. reflexivity. }
    destruct items as [|it its] eqn:Hitems.
    + unfold say, emit in Hr. cbn [fs trace] in Hr. subst r. cbn [fst snd fs trace].
      exists ([Say (TFoundTranscripts (length cands) (Transcribe.sort_direction sort_order))]
              ++ t1 ++ [Say TNoValidTranscripts]).
      rewrite <- !app_assoc.
      split; [reflexivity|].
      split; [by apply Hcalls|].
      split; [by apply Hreads|].
      split.
      { intros _. split; [by apply Hsaid|].
        split; [intros _; split; [reflexivity|]; by rewrite Hwrites | done]. }
      split; [discriminate|].
      intros p b Hp. rewrite Hwrites in Hp. by apply elem_of_nil in Hp.
    + fold target in Hr.
      unfold bind at 1, write_text in Hr. cbn [fs trace] in Hr.
      destruct (fs w !! target) as [nd|] eqn:Htarget; [destruct nd as [|body|why]|].
      * subst r. cbn [fst snd fs trace].
        exists ([Say (TFoundTranscripts (length cands) (Transcribe.sort_direction sort_order))]
                ++ t1 ++ []).
        rewrite app_nil_r, <- !app_assoc.
        split; [reflexivity|].
        split; [rewrite <- (app_nil_r t1); by apply Hcalls|].
        split; [rewrite <- (app_nil_r t1); by apply Hreads|].
        split.
        { intros _. split; [rewrite <- (app_nil_r t1); by apply Hsaid|].
          split; [discriminate|].
          intros _ Hd; unfold isdir_in in Hd; rewrite Htarget in Hd; discriminate. }
        split; [discriminate|].
        intros p b Hp. rewrite <- (app_nil_r t1), Hwrites in Hp. by apply elem_of_nil in Hp.
      * unfold bind, say, emit in Hr. cbn [fs trace] in Hr. subst r. cbn [fst snd fs trace].
        eexists ([Say (TFoundTranscripts (length cands) (Transcribe.sort_direction sort_order))]
                 ++ t1 ++ [_; _; _]).
        rewrite <- !app_assoc.
        split; [reflexivity|].
        split; [by apply Hcalls|].
        split; [by apply Hreads|].
        split.
        { intros _. split; [by apply Hsaid|]. split; [discriminate|].
          intros _ _; split; [reflexivity|]; by rewrite Hwrites. }
        split; [discriminate|].
        intros p b Hp. rewrite Hwrites in Hp. simpl in Hp.
        apply list_elem_of_singleton in Hp. congruence.
      * unfold bind, say, emit in Hr. cbn [fs trace] in Hr. subst r. cbn [fst snd fs trace].
        eexists ([Say (TFoundTranscripts (length cands) (Transcribe.sort_direction sort_order))]
                 ++ t1 ++ [_; _; _]).
        rewrite <- !app_assoc.
        split; [reflexivity|].
        split; [by apply Hcalls|].
        split; [by apply Hreads|].
        split.
        { intros _. split; [by apply Hsaid|]. split; [discriminate|].
          intros _ _; split; [reflexivity|]; by rewrite Hwrites. }
        split; [discriminate|].
        intros p b Hp. rewrite Hwrites in Hp. simpl in Hp.
        apply list_elem_of_singleton in Hp. congruence.
      * unfold bind, say, emit in Hr. cbn [fs trace] in Hr. subst r. cbn [fst snd fs trace].
        eexists ([Say (TFoundTranscripts (length cands) (Transcribe.sort_direction sort_order))]
                 ++ t1 ++ [_; _; _]).
        rewrite <- !app_assoc.
        split; [reflexivity|].
        split; [by apply Hcalls|].
        split; [by apply Hreads|].
        split.
        { intros _. split; [by apply Hsaid|]. split; [discriminate|].
          intros _ _; split; [reflexivity|]; by rewrite Hwrites. }
        split; [discriminate|].
        intros p b Hp. rewrite Hwrites in Hp. simpl in Hp.
        apply list_elem_of_singleton in Hp. congruence.
Qed.

Lemma candidates_perm (env : Env) (folder sort_order : string) :
  candidates env folder sort_order ≡ₚ List.filter Transcribe.is_candidate (listdir env folder).
Proof. apply sorted_perm. Qed.

Lemma candidates_elem (env : Env) (folder sort_order f : string) :
  f ∈ candidates env folder sort_order ->
  f ∈ listdir env folder /\ Transcribe.is_candidate f = true.
Proof.
  intros Hf. rewrite candidates_perm in Hf.
  apply list_elem_of_In, filter_In in Hf as [Hin Hc]. split; [by apply list_elem_of_In | exact Hc].
Qed.

Lemma aggregate_name_prefix (sort_order : string) (t : datetime) :
  Py.startswith (Transcribe.unified_file_name sort_order t) "unified_transcript" = true.
Proof.
  unfold Transcribe.unified_file_name, Transcribe.sort_suffix.
  destruct (String.eqb (Py.lower sort_order) "desc"); reflexivity.
Qed.

Lemma aggregate_name_excluded (sort_order : string) (t : datetime) :
  Transcribe.is_candidate (Transcribe.unified_file_name sort_order t) = false.
Proof.
  unfold Transcribe.is_candidate. rewrite aggregate_name_prefix. apply andb_false_r.
Qed.

(** C6. The name under which an aggregate document is written starts with
    the prefix the candidate scan excludes.  So, whatever the folder holds,
    no aggregate document (of any run, order or time) is a candidate of an
    aggregation run, the run reads candidates only, and the only file it
    writes is its own aggregate document. *)
Theorem aggregate_never_reingested
    (env : Env) (folder sort_order : string) (w : world)
    (earlier_order : string) (earlier_time : datetime) :
  let name := Transcribe.unified_file_name earlier_order earlier_time in
  Py.startswith name "unified_transcript" = true /\
  Transcribe.is_candidate name = false /\
  (name ∉ candidates env folder sort_order) /\
  exists tr,
    trace (snd (Transcribe.unify_transcripts env folder sort_order w)) = trace w ++ tr /\
    (forall p b, (p, b) ∈ writes tr ->
       p = OsPath.join folder (Transcribe.unified_file_name sort_order (now env))) /\
    (forall p, p ∈ reads tr ->
       exists f, f ∈ listdir env folder /\ Transcribe.is_candidate f = true /\ f <> name
                 /\ p = OsPath.join folder f).
Proof.
  intros name.
  split; [apply aggregate_name_prefix|].
  split; [apply aggregate_name_excluded|].
  split.
  { intros Hin. apply candidates_elem in Hin as [_ Hc].
    unfold name in Hc. rewrite aggregate_name_excluded in Hc. discriminate. }
  destruct (unify_transcripts_spec env folder sort_order w)
    as (tr & Htr & _ & Hreads & _ & _ & Hwrites).
  exists tr. split; [exact Htr|]. split; [exact Hwrites|].
  intros p Hp. destruct (Hreads p Hp) as (f & Hf & _ & ->).
  apply candidates_elem in Hf as [Hin Hc].
  exists f. split; [exact Hin|]. split; [exact Hc|]. split; [|reflexivity].
  intros ->. unfold name in Hc. rewrite aggregate_name_excluded in Hc. discriminate.
Qed.

Lemma entries_base_names (f : gmap string node) (folder : string) (l : list string) :
  map Transcribe.base_name (omap (entry_of f folder) l)
  = map Transcribe.sort_key (List.filter (readable_in f folder) l).
Proof.
  induction l as [|x l IH]; [reflexivity|].
  cbn [omap list_omap List.filter]. unfold entry_of at 1, readable_in at 1.
  destruct (f !! OsPath.join folder x) as [[|body|why]|]; cbn [map Transcribe.base_name].
  all: try (rewrite IH; reflexivity); try exact IH.
Qed.

Lemma entries_nil_iff (f : gmap string node) (folder : string) (l : list string) :
  omap (entry_of f folder) l = [] <-> List.filter (readable_in f folder) l = [].
Proof.
  split; intros H.
  - apply (f_equal (map Transcribe.base_name)) in H. rewrite entries_base_names in H.
    by apply map_eq_nil in H.
  - apply (f_equal (map Transcribe.sort_key)) in H. rewrite <- entries_base_names in H.
    by apply map_eq_nil in H.
Qed.

(** The entries of the readable candidates, one by one. *)
Lemma entries_of_readable (f : gmap string node) (folder : string) (l : list string) :
  omap (entry_of f folder) l
  = map (fun x =>
           Transcribe.Item
             (original_of f folder [fst (OsPath.splitext x) +:+ ".m4a";
                                    fst (OsPath.splitext x) +:+ ".opus"])
             (fst (OsPath.splitext x))
             (match f !! OsPath.join folder x with
              | Some (File body) => Py.universal_newlines body
              | _ => ""
              end) 0%Q)
      (List.filter (readable_in f folder) l).
Proof.
  induction l as [|x l IH]; [reflexivity|].
  cbn [omap list_omap List.filter]. unfold entry_of at 1, readable_in at 1.
  destruct (f !! OsPath.join folder x) as [[|body|why]|] eqn:E; try exact IH.
  cbn [map]. rewrite E. f_equal. exact IH.
Qed.

(** The document is the concatenation of the sections. *)
Lemma render_from_sections (di : Transcribe.item -> string) (total : nat)
    (l : list Transcribe.item) :
  forall i,
    Transcribe.render_from di total i l
    = foldr String.append "" (imap (fun k it => Transcribe.section_text di total (i + k) it) l).
Proof.
  induction l as [|it l IH]; intros i; [reflexivity|].
  cbn [Transcribe.render_from imap foldr]. rewrite Nat.add_0_r. f_equal.
  rewrite IH. f_equal. apply imap_ext. intros k x _. cbn. f_equal. lia.
Qed.

(** C10. When reading a candidate raises, the error is reported, the
    candidate contributes no section and the run goes on.  In an existing
    folder the document holds one section for each readable candidate, in
    the sorted order of the candidates, numbered from 1 out of the number
    of readable candidates, labelled with the sibling audio file and
    holding the text that was read; it is written exactly when at least
    one candidate is readable. *)
Theorem unify_tolerates_unreadable (env : Env) (folder sort_order : string) (w : world) :
  let desc := String.eqb (Py.lower sort_order) "desc" in
  let cands := candidates env folder sort_order in
  let readable := List.filter (readable_in (fs w) folder) cands in
  let target := OsPath.join folder (Transcribe.unified_file_name sort_order (now env)) in
  let text := fun f =>
    match fs w !! OsPath.join folder f with
    | Some (File body) => Py.universal_newlines body
    | _ => ""
    end in
  let label := fun f =>
    let base := fst (OsPath.splitext f) in
    if exists_in (fs w) (OsPath.join folder (base +:+ ".m4a")) then base +:+ ".m4a"
    else if exists_in (fs w) (OsPath.join folder (base +:+ ".opus")) then base +:+ ".opus"
    else "Unknown" in
  let line := "============================================================" in
  let document :=
    foldr String.append ""
      (imap (fun k f =>
               nl +:+ nl +:+ line +:+ nl +:+
               "PART " +:+ Py.str_nat (S k) +:+ "/" +:+ Py.str_nat (length readable) +:+ ": "
                 +:+ label f +:+ nl +:+
               line +:+ nl +:+ nl +:+
               text f +:+
               nl +:+ nl)
         readable) in
  isdir_in (fs w) folder = true ->
  isdir_in (fs w) target = false ->
  exists tr w',
    Transcribe.unify_transcripts env folder sort_order w = (Ret tt, w') /\
    trace w' = trace w ++ tr /\
    (* the candidates are the scanned files, sorted by base name *)
    cands ≡ₚ List.filter Transcribe.is_candidate (listdir env folder) /\
    StronglySorted (if desc then flip (key_le Transcribe.sort_key) else key_le Transcribe.sort_key)
      cands /\
    (* every unreadable candidate is reported and passed over *)
    (forall f, f ∈ cands -> readable_in (fs w) folder f = false ->
       exists detail, TErrorReading f detail ∈ said tr) /\
    (forall p, p ∈ reads tr -> exists f, f ∈ readable /\ p = OsPath.join folder f) /\
    (* the document *)
    (readable = [] -> fs w' = fs w /\ writes tr = []) /\
    (readable <> [] ->
       writes tr = [(target, document)] /\
       fs w' = <[target := File document]> (fs w)).
Proof.
  intros desc cands readable target text label line document Hfolder Htarget.
  destruct (unify_transcripts_spec env folder sort_order w)
    as (tr & Htr & _ & Hreads & Hdir & _ & _).
  destruct (Hdir Hfolder) as (Herr & Hnone & Hsome).
  fold cands target in Herr, Hnone, Hsome, Hreads.
  set (items := omap (entry_of (fs w) folder) cands) in *.
  assert (Hdoc : Transcribe.render (fun _ => "") items = document).
  { unfold items, document. rewrite entries_of_readable. fold readable.
    unfold Transcribe.render. rewrite render_from_sections, length_map, imap_fmap.
    reflexivity. }
  assert (Hsorted : StronglySorted
            (if desc then flip (key_le Transcribe.sort_key) else key_le Transcribe.sort_key) cands).
  { unfold cands, candidates. fold desc. destruct desc.
    - apply sorted_descending.
    - apply sorted_ascending. }
  assert (Herr' : forall f, f ∈ cands -> readable_in (fs w) folder f = false ->
                    exists detail, TErrorReading f detail ∈ said tr).
  { intros f Hf Hun. apply Herr; [exact Hf|].
    unfold readable_in in Hun. unfold entry_of.
    destruct (fs w !! OsPath.join folder f) as [[|body|why]|]; try reflexivity. discriminate. }
  assert (Hreads' : forall p, p ∈ reads tr ->
                      exists f, f ∈ readable /\ p = OsPath.join folder f).
  { intros p Hp. destruct (Hreads p Hp) as (f & Hf & Hsome' & ->). exists f.
    split; [|reflexivity]. apply list_elem_of_In, filter_In.
    split; [by apply list_elem_of_In|].
    unfold entry_of in Hsome'. unfold readable_in.
    destruct (fs w !! OsPath.join folder f) as [[|body|why]|]; try done;
      by destruct Hsome'. }
  destruct (decide (readable = [])) as [Hr|Hr].
  - assert (Hi : items = []) by (by apply entries_nil_iff).
    destruct (Hnone Hi) as (Hrun & Hw).
    eexists tr, _. split; [exact Hrun|]. split; [reflexivity|].
    split; [apply candidates_perm|]. split; [exact Hsorted|]. split; [exact Herr'|].
    split; [exact Hreads'|].
    split; [intros _; split; [reflexivity | exact Hw]|].
    intros Hne. by destruct Hne.
  - assert (Hi : items <> []) by (intros Hi; apply Hr; by apply entries_nil_iff).
    destruct (Hsome Hi Htarget) as (Hrun & Hw). rewrite Hdoc in Hrun, Hw.
    eexists tr, _. split; [exact Hrun|]. split; [reflexivity|].
    split; [apply candidates_perm|]. split; [exact Hsorted|]. split; [exact Herr'|].
    split; [exact Hreads'|].
    split; [intros He; by destruct (Hr He)|].
    intros _. split; [exact Hw | reflexivity].
Qed.

(** Three candidates listed out of order, the second unreadable, the third
    with Windows line ends, next to an older aggregate. *)
Lemma unify_tolerates_unreadable_witness :
  let env := Fixtures.env_ok ["c.txt"; "b.txt"; "a.txt"; "unified_transcript_asc_20240101_000000.txt"] in
  let crlf := String (ascii_of_nat 13) nl in
  let w := Fixtures.w_of [("in", Dir); ("in/a.txt", File "A"); ("in/b.txt", Unreadable "denied");
                          ("in/c.txt", File ("C" +:+ crlf +:+ "D")); ("in/a.m4a", File "audio");
                          ("in/unified_transcript_asc_20240101_000000.txt", File "old")] in
  let target := "in/unified_transcript_asc_20250102_030405.txt" in
  let document :=
    nl +:+ nl +:+ "============================================================" +:+ nl +:+
    "PART 1/2: a.m4a" +:+ nl +:+
    "============================================================" +:+ nl +:+ nl +:+
    "A" +:+ nl +:+ nl +:+
    nl +:+ nl +:+ "============================================================" +:+ nl +:+
    "PART 2/2: Unknown" +:+ nl +:+
    "============================================================" +:+ nl +:+ nl +:+
    "C" +:+ nl +:+ "D" +:+ nl +:+ nl in
  candidates env "in" "asc" = ["a.txt"; "b.txt"; "c.txt"] /\
  exists tr w',
    Transcribe.unify_transcripts env "in" "asc" w = (Ret tt, w') /\
    trace w' = trace w ++ tr /\
    (exists detail, TErrorReading "b.txt" detail ∈ said tr) /\
    writes tr = [(target, document)] /\
    fs w' = <[target := File document]> (fs w).
Proof.
  intros env crlf w target document.
  split; [reflexivity|].
  destruct (unify_tolerates_unreadable env "in" "asc" w)
    as (tr & w' & Hrun & Htr & _ & _ & Herr & _ & _ & Hdoc).
  - reflexivity.
  - reflexivity.
  - exists tr, w'. split; [exact Hrun|]. split; [exact Htr|].
    split.
    + apply Herr; [|reflexivity].
      change (candidates env "in" "asc") with ["a.txt"; "b.txt"; "c.txt"].
      right; left.
    + apply Hdoc. discriminate.
Defined.

(** ** The name of the aggregate document *)







(** ** The end-of-run summary of video_converter.py *)

Lemma convert_all_never_counts_skipped (env : Env) (a : VideoConverter.args) (output_dir : string)
    (video_files : list string) (w : world) :
  exists s f w',
    VideoConverter.convert_all env video_files output_dir a 0 0 0 w = (Ret (s, f, 0), w').
Proof.
  destruct (convert_all_total env a output_dir video_files 0 0 0 w) as (s & f & w' & H & _).
  eauto.
Qed.

(** C8 (the code departs from it).  One video whose audio is already on
    disk, [force] off: the item is skipped and ffmpeg is not run, yet the
    summary prints [Converted: 1] and no [Skipped] line, because the loop
    tests ["Skipping" in str(result)] on a result that is [True]. *)
Theorem summary_counts_skipped_as_converted :
  let env := Fixtures.env_ok ["a.mp4"] in
  let a := VideoConverter.Args "in" None None "m4a" "192k" false in
  let w := Fixtures.w_of [("in", Dir); ("in/a.mp4", File "video"); ("in/a.m4a", File "audio")] in
  let r := VideoConverter.main env a w in
  fst r = Ret tt
  /\ external_calls (trace (snd r)) = 0
  /\ said (trace (snd r))
     = [VHeader 1 "m4a" "in" "192k"; VSkipping "a" "in/a.m4a";
        VSummaryTotal 1; VSummaryConverted 1; VSummaryFooter "in"].
Proof. vm_compute. repeat split; reflexivity. Qed.

(** ** The progress heartbeat *)

Section HeartbeatProofs.
Import Heartbeat.
Variables (filename txt_path transcript : string) (print_to_screen : bool).
Variable before : list message.










(** Once the stop event is set, every step of the heartbeat brings it
    closer to its end: at most four steps are left. *)
Lemma heartbeat_winds_down (s s' : state) :
  Heartbeat.step filename txt_path transcript print_to_screen s s' ->
  main s' = main s -> beat s' <> beat s -> stop s = true ->
  beat_left (beat s') < beat_left (beat s).
Proof.
  intros Hstep Hmain Hbeat Hstop.
  destruct Hstep; cbn [main beat stop beat_left] in *;
    try discriminate; try congruence; lia.
Qed.


End HeartbeatProofs.




(** * Further properties of the scripts *)

(** ** video_converter.py: one conversion *)

(** X1. With the output folder in place, [convert_video_to_audio]
    returns, whether ffmpeg exits, cannot be started or fails otherwise:
    [True] when the item is skipped; otherwise [True] exactly when ffmpeg
    ran, exited with status 0 and left the output file on disk. *)
Theorem convert_result_classified
    (env : Env) (v output_dir fmt bitrate : string) (force : bool) (w : world) :
  let out := VideoConverter.output_path_of v output_dir fmt in
  let run := ffmpeg env (VideoConverter.ffmpeg_cmd v fmt bitrate out) (fs w) in
  isdir_in (fs w) output_dir = true ->
  fst (VideoConverter.convert_video_to_audio env v output_dir fmt bitrate force w)
  = Ret (if exists_in (fs w) out && negb force then true
         else match fst run with
              | Exited rc _ => (rc =? 0)%Z && exists_in (snd run) out
              | _ => false
              end).
Proof.
  intros out run _. subst run out.
  unfold VideoConverter.convert_video_to_audio, VideoConverter.output_path_of.
  unfold bind at 1. simpl. unfold bind at 1. unfold path_exists. simpl.
  destruct (exists_in (fs w) _ && negb force); [reflexivity|].
  unfold try_except, bind at 1, subprocess_run. simpl.
  destruct (ffmpeg env _ (fs w)) as [[rc err| |d] f']; simpl; try reflexivity.
  destruct (rc =? 0)%Z; simpl; [|reflexivity].
  unfold bind at 1, getsize. simpl.
  destruct (exists_in f' _); reflexivity.
Qed.

(** ffmpeg exits with status 0 without writing anything: [False]. *)
Lemma convert_result_classified_witness :
  let w := Fixtures.w_of [("in", Dir); ("in/a.mp4", File "video")] in
  fst (VideoConverter.convert_video_to_audio (Fixtures2.env_silent ["a.mp4"])
         "in/a.mp4" "in" "m4a" "192k" false w)
  = Ret false.
Proof.
  intros w.
  apply (convert_result_classified (Fixtures2.env_silent ["a.mp4"]) "in/a.mp4" "in" "m4a" "192k"
           false w).
  reflexivity.
Defined.

(** X2. ffmpeg is run at most once for an item, on the command line built
    from it: not at all when the item is skipped, once otherwise (with
    [force] also when the output exists). *)
Theorem convert_runs_ffmpeg_at_most_once
    (env : Env) (v output_dir fmt bitrate : string) (force : bool) (w : world) :
  let out := VideoConverter.output_path_of v output_dir fmt in
  ffmpeg_runs (trace (snd (VideoConverter.convert_video_to_audio env v output_dir fmt bitrate
                             force w)))
  = ffmpeg_runs (trace w)
    ++ (if exists_in (fs w) out && negb force then []
        else [VideoConverter.ffmpeg_cmd v fmt bitrate out]).
Proof.
  intros out. subst out.
  unfold VideoConverter.convert_video_to_audio, VideoConverter.output_path_of.
  unfold bind at 1. simpl. unfold bind at 1. unfold path_exists. simpl.
  destruct (exists_in (fs w) _ && negb force).
  { unfold bind, say, emit, ret. simpl. rewrite !ffmpeg_runs_app. simpl.
    by rewrite !app_nil_r. }
  unfold try_except, bind at 1, subprocess_run. simpl.
  destruct (ffmpeg env _ (fs w)) as [[rc err| |d] f']; simpl.
  - destruct (rc =? 0)%Z; simpl.
    + unfold bind at 1, getsize. simpl.
      destruct (exists_in f' _); unfold bind, say, emit, ret; simpl;
        rewrite !ffmpeg_runs_app; simpl; by rewrite !app_nil_r.
    + unfold bind, say, emit, ret; simpl. rewrite !ffmpeg_runs_app; simpl. by rewrite !app_nil_r.
  - unfold bind, say, emit, ret; simpl. rewrite !ffmpeg_runs_app; simpl. by rewrite !app_nil_r.
  - unfold bind, say, emit, ret; simpl. rewrite !ffmpeg_runs_app; simpl. by rewrite !app_nil_r.
Qed.

(** X3. When ffmpeg exits with status 0 but the output file is not there,
    [os.path.getsize] raises [FileNotFoundError], which the handler written
    for a missing ffmpeg catches: the item fails with the message that
    ffmpeg was not found. *)
Theorem convert_reports_missing_output_as_missing_ffmpeg
    (env : Env) (v output_dir fmt bitrate : string) (force : bool) (w : world)
    (err : string) (f' : gmap string node) :
  let out := VideoConverter.output_path_of v output_dir fmt in
  exists_in (fs w) out && negb force = false ->
  ffmpeg env (VideoConverter.ffmpeg_cmd v fmt bitrate out) (fs w) = (Exited 0 err, f') ->
  exists_in f' out = false ->
  exists w1,
    VideoConverter.convert_video_to_audio env v output_dir fmt bitrate force w = (Ret false, w1)
    /\ said (trace w1) = said (trace w) ++ [VFfmpegNotFound]
    /\ fs w1 = f'.
Proof.
  intros out Hskip Hrun Hmissing. subst out.
  unfold VideoConverter.convert_video_to_audio, VideoConverter.output_path_of in *.
  unfold bind at 1. simpl. unfold bind at 1. unfold path_exists. simpl.
  rewrite Hskip.
  unfold try_except, bind at 1, subprocess_run. simpl. rewrite Hrun. simpl.
  unfold bind at 1, getsize. simpl. rewrite Hmissing.
  unfold bind, say, emit, ret. simpl.
  eexists. split; [reflexivity|]. simpl. rewrite !said_app. simpl.
  by rewrite !app_nil_r.
Qed.

Lemma convert_reports_missing_output_as_missing_ffmpeg_witness :
  let env := Fixtures2.env_silent ["a.mp4"] in
  let w := Fixtures.w_of [("in", Dir); ("in/a.mp4", File "video")] in
  exists w1,
    VideoConverter.convert_video_to_audio env "in/a.mp4" "in" "m4a" "192k" false w = (Ret false, w1)
    /\ said (trace w1) = said (trace w) ++ [VFfmpegNotFound]
    /\ fs w1 = fs w.
Proof.
  intros env w.
  apply (convert_reports_missing_output_as_missing_ffmpeg env "in/a.mp4" "in" "m4a" "192k"
           false w "" (fs w)).
  - reflexivity.
  - reflexivity.
  - reflexivity.
Defined.

Lemma convert_true_leaves_output (env : Env) (v output_dir fmt bitrate : string) (force : bool)
    (w w1 : world) :
  VideoConverter.convert_video_to_audio env v output_dir fmt bitrate force w = (Ret true, w1) ->
  exists_in (fs w1) (VideoConverter.output_path_of v output_dir fmt) = true.
Proof.
  unfold VideoConverter.convert_video_to_audio, VideoConverter.output_path_of.
  unfold bind at 1. simpl. unfold bind at 1. unfold path_exists. simpl.
  destruct (exists_in (fs w) _ && negb force) eqn:Hskip.
  { unfold bind, say, emit, ret. simpl. intros H. injection H as <-. simpl.
    by apply andb_prop in Hskip as [? _]. }
  unfold try_except, bind at 1, subprocess_run. simpl.
  destruct (ffmpeg env _ (fs w)) as [[rc err| |d] f']; simpl.
  - destruct (rc =? 0)%Z; simpl.
    + unfold bind at 1, getsize. simpl.
      destruct (exists_in f' _) eqn:Hex; unfold bind, say, emit, ret; simpl;
        intros H; [by injection H as <- | discriminate].
    + unfold bind, say, emit, ret; simpl. discriminate.
  - unfold bind, say, emit, ret; simpl. discriminate.
  - unfold bind, say, emit, ret; simpl. discriminate.
Qed.

(** X4. After a conversion that returned [True], the output file is on
    disk, and converting again without [force] any video with the same base
    name to the same folder and format (the same video, or [a.mov] after
    [a.mp4]) is skipped: ffmpeg is not run and the file system is left as
    it is. *)
Theorem convert_then_convert_again_skips
    (env : Env) (v v2 output_dir fmt bitrate bitrate2 : string) (force : bool) (w w1 : world) :
  VideoConverter.convert_video_to_audio env v output_dir fmt bitrate force w = (Ret true, w1) ->
  fst (OsPath.splitext (OsPath.basename v2)) = fst (OsPath.splitext (OsPath.basename v)) ->
  exists_in (fs w1) (VideoConverter.output_path_of v output_dir fmt) = true /\
  exists w2,
    VideoConverter.convert_video_to_audio env v2 output_dir fmt bitrate2 false w1 = (Ret true, w2)
    /\ fs w2 = fs w1
    /\ ffmpeg_runs (trace w2) = ffmpeg_runs (trace w1).
Proof.
  intros Hrun Hbase.
  pose proof (convert_true_leaves_output env v output_dir fmt bitrate force w w1 Hrun) as Hex.
  split; [exact Hex|].
  assert (Hout : VideoConverter.output_path_of v2 output_dir fmt
                 = VideoConverter.output_path_of v output_dir fmt).
  { unfold VideoConverter.output_path_of. by rewrite Hbase. }
  rewrite <- Hout in Hex.
  rewrite (convert_skips_existing env v2 output_dir fmt bitrate2 w1 Hex).
  eexists. split; [reflexivity|]. cbn [fs trace]. split; [reflexivity|].
  rewrite ffmpeg_runs_app. simpl. by rewrite app_nil_r.
Qed.

Lemma convert_then_convert_again_skips_witness :
  let env := Fixtures.env_ok ["a.mp4"; "a.mov"] in
  let w := Fixtures.w_of [("in", Dir); ("in/a.mp4", File "video"); ("in/a.mov", File "video")] in
  let w1 := snd (VideoConverter.convert_video_to_audio env "in/a.mp4" "out" "m4a" "192k" true w) in
  exists_in (fs w1) "out/a.m4a" = true /\
  exists w2,
    VideoConverter.convert_video_to_audio env "in/a.mov" "out" "m4a" "320k" false w1 = (Ret true, w2)
    /\ fs w2 = fs w1
    /\ ffmpeg_runs (trace w2) = ffmpeg_runs (trace w1).
Proof.
  intros env w w1.
  apply (convert_then_convert_again_skips env "in/a.mp4" "in/a.mov" "out" "m4a" "192k" "320k"
           true w w1).
  - reflexivity.
  - reflexivity.
Defined.

(** ** video_converter.py: discovery and [main] *)

Lemma lower_app (a b : string) : Py.lower (a +:+ b) = Py.lower a +:+ Py.lower b.
Proof. induction a as [|c a IH]; [reflexivity | simpl; by rewrite IH]. Qed.

Lemma substring_skip (a b : string) (n m : nat) :
  String.substring (String.length a + n) m (a +:+ b) = String.substring n m b.
Proof. induction a as [|c a IH]; [reflexivity | exact IH]. Qed.

Lemma endswith_app (a b x : string) : Py.endswith b x = true -> Py.endswith (a +:+ b) x = true.
Proof.
  unfold Py.endswith. intros H. apply andb_prop in H as [Hlen Heq].
  apply Nat.leb_le in Hlen. rewrite string_length_app.
  apply andb_true_intro. split; [apply Nat.leb_le; lia|].
  replace (String.length a + String.length b - String.length x)
    with (String.length a + (String.length b - String.length x)) by lia.
  by rewrite substring_skip.
Qed.

Lemma endswith_any_app (a b : string) (t : list string) :
  Py.endswith_any b t = true -> Py.endswith_any (a +:+ b) t = true.
Proof.
  unfold Py.endswith_any. rewrite !existsb_exists.
  intros (x & Hx & Hend). exists x. split; [exact Hx | by apply endswith_app].
Qed.

Lemma join_ends_with_name (dir name : string) : exists pre, OsPath.join dir name = pre +:+ name.
Proof.
  unfold OsPath.join. destruct (Py.startswith name "/"); [by exists ""|].
  destruct (String.eqb dir "" || Py.endswith dir "/"); [by exists dir|].
  exists (dir +:+ "/"). clear.
  induction dir as [|c d IH]; [reflexivity | exact (f_equal (String c) IH)].
Qed.

Lemma is_video_join (dir name : string) :
  VideoConverter.is_video name = true -> VideoConverter.is_video (OsPath.join dir name) = true.
Proof.
  unfold VideoConverter.is_video. intros H.
  destruct (join_ends_with_name dir name) as (pre & ->).
  rewrite lower_app. by apply endswith_any_app.
Qed.

(** X5. [get_video_files] never raises, leaves the world as it is apart
    from what it prints, and returns only paths with a video extension
    (compared case-insensitively); for a file, or a folder with an explicit
    file name, it returns at most one path. *)
Theorem get_video_files_only_videos
    (env : Env) (path : string) (specific_file : option string) (w : world) :
  exists l tr,
    VideoConverter.get_video_files env path specific_file w
      = (Ret l, World (fs w) (trace w ++ tr))
    /\ (forall p, p ∈ l -> VideoConverter.is_video p = true)
    /\ (forall e, e ∈ tr -> exists m, e = Say m)
    /\ (isfile_in (fs w) path = true \/ truthy specific_file = true -> length l <= 1).
Proof.
  assert (Hscan : forall names, forall p,
            p ∈ map (OsPath.join path) (List.filter VideoConverter.is_video names) ->
            VideoConverter.is_video p = true).
  { intros names p Hp. apply list_elem_of_fmap in Hp as (n & -> & Hn).
    apply list_elem_of_In, filter_In in Hn as [_ Hn]. by apply is_video_join. }
  assert (Hone : forall p : string, VideoConverter.is_video p = true ->
            forall q, q ∈ [p] -> VideoConverter.is_video q = true).
  { intros p Hp q Hq. apply list_elem_of_singleton in Hq. by subst q. }
  assert (Hnone : forall q : string, q ∈ @nil string -> VideoConverter.is_video q = true).
  { intros q Hq. by apply elem_of_nil in Hq. }
  assert (Hsay : forall m e, e ∈ [Say m] -> exists m', e = Say m').
  { intros m e He. apply list_elem_of_singleton in He. eauto. }
  assert (Hquiet : forall e : event, e ∈ @nil event -> exists m', e = Say m').
  { intros e He. by apply elem_of_nil in He. }
  unfold VideoConverter.get_video_files.
  unfold bind at 1, isfile. cbn [fs trace].
  destruct (isfile_in (fs w) path) eqn:Hfile.
  { destruct (VideoConverter.is_video path) eqn:Hvid.
    - exists [path], []. unfold ret. rewrite app_nil_r. destruct w.
      split; [reflexivity|]. split; [by apply Hone|]. split; [exact Hquiet|]. simpl; lia.
    - eexists [], [_]. unfold bind, say, emit, ret. cbn [fs trace].
      split; [reflexivity|]. split; [exact Hnone|]. split; [apply Hsay|]. simpl; lia. }
  unfold bind at 1, isdir. cbn [fs trace].
  destruct (isdir_in (fs w) path) eqn:Hdir.
  2:{ eexists [], [_]. unfold say, bind, emit, ret. cbn [fs trace].
      split; [reflexivity|]. split; [exact Hnone|]. split; [apply Hsay|]. simpl; lia. }
  destruct specific_file as [name|].
  2:{ eexists _, []. unfold ret. rewrite app_nil_r. destruct w.
      split; [reflexivity|]. split; [apply Hscan|]. split; [exact Hquiet|].
      intros [?|?]; discriminate. }
  destruct (String.eqb name "") eqn:Hname.
  { eexists _, []. unfold ret. rewrite app_nil_r. destruct w.
    split; [reflexivity|]. split; [apply Hscan|]. split; [exact Hquiet|].
    intros [?|Ht]; [discriminate|]. simpl in Ht. rewrite Hname in Ht. discriminate. }
  unfold bind at 1, isfile. cbn [fs trace].
  destruct (isfile_in (fs w) (OsPath.join path name)).
  - destruct (VideoConverter.is_video (OsPath.join path name)) eqn:Hvid.
    + eexists [_], []. unfold ret. rewrite app_nil_r. destruct w.
      split; [reflexivity|]. split; [by apply Hone|]. split; [exact Hquiet|]. simpl; lia.
    + eexists [], [_]. unfold bind, say, emit, ret. cbn [fs trace].
      split; [reflexivity|]. split; [exact Hnone|]. split; [apply Hsay|]. simpl; lia.
  - eexists [], [_]. unfold bind, say, emit, ret. cbn [fs trace].
    split; [reflexivity|]. split; [exact Hnone|]. split; [apply Hsay|]. simpl; lia.
Qed.

Lemma get_video_files_returns (env : Env) (path : string) (specific_file : option string)
    (w : world) :
  exists l tr,
    VideoConverter.get_video_files env path specific_file w
      = (Ret l, World (fs w) (trace w ++ tr))
    /\ ffmpeg_runs tr = [] /\ made_dirs tr = [].
Proof.
  unfold VideoConverter.get_video_files.
  unfold bind at 1, isfile. cbn [fs trace].
  destruct (isfile_in (fs w) path).
  { destruct (VideoConverter.is_video path).
    - exists [path], []. unfold ret. rewrite app_nil_r. by destruct w.
    - eexists [], [_]. unfold bind, say, emit, ret. cbn [fs trace]. done. }
  unfold bind at 1, isdir. cbn [fs trace].
  destruct (isdir_in (fs w) path).
  2:{ eexists [], [_]. unfold say, bind, emit, ret. cbn [fs trace]. done. }
  destruct specific_file as [name|].
  2:{ eexists _, []. unfold ret. rewrite app_nil_r. by destruct w. }
  destruct (String.eqb name "").
  { eexists _, []. unfold ret. rewrite app_nil_r. by destruct w. }
  unfold bind at 1, isfile. cbn [fs trace].
  destruct (isfile_in (fs w) (OsPath.join path name)).
  - destruct (VideoConverter.is_video (OsPath.join path name)).
    + eexists [_], []. unfold ret. rewrite app_nil_r. by destruct w.
    + eexists [], [_]. unfold bind, say, emit, ret. cbn [fs trace]. done.
  - eexists [], [_]. unfold bind, say, emit, ret. cbn [fs trace]. done.
Qed.

(** X6. When discovery finds no video (missing path, unsupported file,
    empty folder) [main] of video_converter says so and returns: it creates
    no directory, runs nothing and leaves the file system untouched. *)
Theorem video_main_without_videos (env : Env) (a : VideoConverter.args) (w : world) :
  fst (VideoConverter.get_video_files env (VideoConverter.path a) (VideoConverter.file a) w)
  = Ret [] ->
  exists tr,
    VideoConverter.main env a w = (Ret tt, World (fs w) (trace w ++ tr ++ [Say VNoVideoFiles]))
    /\ ffmpeg_runs tr = []
    /\ made_dirs tr = [].
Proof.
  intros Hnone.
  unfold VideoConverter.main. unfold bind at 1.
  destruct (get_video_files_returns env (VideoConverter.path a) (VideoConverter.file a) w)
    as (l & tr & Hrun & Hruns & Hdirs).
  rewrite Hrun in Hnone |- *. cbn [fst] in Hnone. injection Hnone as ->.
  unfold say, emit. cbn [fs trace]. exists tr. rewrite <- app_assoc.
  split; [reflexivity|]. split; [exact Hruns | exact Hdirs].
Qed.

Lemma video_main_without_videos_witness :
  let w := Fixtures.w_of [("in", Dir); ("in/notes.pdf", File "text")] in
  exists tr,
    VideoConverter.main (Fixtures.env_ok ["notes.pdf"])
      (VideoConverter.Args "in" None (Some "out") "m4a" "192k" false) w
    = (Ret tt, World (fs w) (trace w ++ tr ++ [Say VNoVideoFiles]))
    /\ ffmpeg_runs tr = []
    /\ made_dirs tr = [].
Proof.
  intros w.
  apply (video_main_without_videos (Fixtures.env_ok ["notes.pdf"])
           (VideoConverter.Args "in" None (Some "out") "m4a" "192k" false) w).
  reflexivity.
Defined.

(** ** audio_splitter.py: edge cases *)

(** X7. With a segment length of 0 and the output folder in place, the
    splitter probes the file and then fails with [ZeroDivisionError]:
    ffmpeg is never run and nothing has changed on disk. *)
Theorem split_with_zero_length_raises
    (env : Env) (file_path output_dir fmt : string) (D : Q) (w : world) :
  isdir_in (fs w) output_dir = true ->
  ffprobe env file_path (fs w) = Ret D ->
  AudioSplitter.split_audio_file env file_path output_dir 0 fmt w
  = (Raise ZeroDivisionError,
     World (fs w) (trace w ++ [Makedirs output_dir; Run (AudioSplitter.ffprobe_cmd file_path)])).
Proof.
  intros _ Hprobe. unfold AudioSplitter.split_audio_file.
  unfold bind at 1. simpl. unfold bind at 1. unfold AudioSplitter.get_duration. simpl.
  rewrite Hprobe. unfold raise. by rewrite <- app_assoc.
Qed.

Lemma split_with_zero_length_raises_witness :
  let w := Fixtures.w_of [("in", Dir); ("out", Dir); ("in/rec.m4a", File "audio")] in
  AudioSplitter.split_audio_file (Fixtures.env_ok ["rec.m4a"]) "in/rec.m4a" "out" 0 "m4a" w
  = (Raise ZeroDivisionError,
     World (fs w) (trace w ++ [Makedirs "out"; Run (AudioSplitter.ffprobe_cmd "in/rec.m4a")])).
Proof.
  intros w.
  apply (split_with_zero_length_raises (Fixtures.env_ok ["rec.m4a"]) "in/rec.m4a" "out" "m4a"
           (1450 # 1)%Q w).
  - reflexivity.
  - reflexivity.
Defined.

Lemma Qceiling_div_negative (D : Q) (L : Z) :
  (L < 0)%Z -> (0 <= D)%Q -> (Qceiling (D / inject_Z L) <= 0)%Z.
Proof.
  intros HL HD.
  change 0%Z with (Qceiling 0). apply Qceiling_resp_le.
  destruct D as [dn dd]. destruct L as [|p|p]; try lia.
  unfold Qle, Qdiv, Qmult, Qinv, inject_Z in *. simpl in *. nia.
Qed.

(** X8. With a negative segment length and the output folder in place
    nothing is cut: the function returns a count that is zero or negative,
    having run ffmpeg for nothing and changed nothing on disk. *)
Theorem split_with_negative_length_cuts_nothing
    (env : Env) (file_path output_dir fmt : string) (L : Z) (D : Q) (w : world) :
  (L < 0)%Z -> (0 <= D)%Q ->
  isdir_in (fs w) output_dir = true ->
  ffprobe env file_path (fs w) = Ret D ->
  exists n tr,
    AudioSplitter.split_audio_file env file_path output_dir L fmt w
      = (Ret n, World (fs w) (trace w ++ tr))
    /\ (n <= 0)%Z
    /\ ffmpeg_runs tr = [].
Proof.
  intros HL HD _ Hprobe.
  pose proof (Qceiling_div_negative D L HL HD) as Hn.
  unfold AudioSplitter.split_audio_file.
  unfold bind at 1. simpl. unfold bind at 1. unfold AudioSplitter.get_duration. simpl.
  rewrite Hprobe.
  destruct (Z.eqb_spec L 0) as [->|_]; [lia|].
  unfold bind at 1. simpl. unfold bind at 1.
  replace (Z.to_nat (Qceiling (D / inject_Z L))) with 0 by lia.
  simpl. unfold bind, say, emit, ret. simpl. rewrite <- !app_assoc.
  eexists _, _. split; [reflexivity|]. split; [exact Hn | reflexivity].
Qed.

Lemma split_with_negative_length_cuts_nothing_witness :
  let w := Fixtures.w_of [("in", Dir); ("out", Dir); ("in/rec.m4a", File "audio")] in
  exists n tr,
    AudioSplitter.split_audio_file (Fixtures.env_ok ["rec.m4a"]) "in/rec.m4a" "out" (-600) "m4a" w
      = (Ret n, World (fs w) (trace w ++ tr))
    /\ (n <= 0)%Z
    /\ ffmpeg_runs tr = [].
Proof.
  intros w.
  apply (split_with_negative_length_cuts_nothing (Fixtures.env_ok ["rec.m4a"]) "in/rec.m4a" "out"
           "m4a" (-600) (1450 # 1)%Q w).
  - reflexivity.
  - discriminate.
  - reflexivity.
  - reflexivity.
Defined.

(** X9. A failing probe is not caught anywhere in the splitter: the
    exception leaves [split_audio_file] and the loop of [main], so the
    files after the failing one are not processed, and ffmpeg is not run
    for the failing file. *)
Theorem splitter_aborts_when_probe_fails
    (env : Env) (a : AudioSplitter.args) (file_path : string) (rest : list string)
    (total : Z) (w : world) (e : exn) :
  ffprobe env file_path (fs w) = Raise e ->
  AudioSplitter.split_all env (file_path :: rest) a total w
  = (Raise e,
     World (fs w)
       (trace w ++ [Makedirs (AudioSplitter.output a);
                    Run (AudioSplitter.ffprobe_cmd file_path)])).
Proof.
  intros Hprobe. cbn [AudioSplitter.split_all].
  unfold bind at 1. unfold AudioSplitter.split_audio_file.
  unfold bind at 1. simpl. unfold bind at 1. unfold AudioSplitter.get_duration. simpl.
  rewrite Hprobe. by rewrite <- app_assoc.
Qed.

Lemma splitter_aborts_when_probe_fails_witness :
  let env := Fixtures2.env_no_tools ["a.m4a"; "b.m4a"] in
  let a := AudioSplitter.Args "in" None "out" 600 "m4a" in
  let w := Fixtures.w_of [("in", Dir); ("in/a.m4a", File "audio"); ("in/b.m4a", File "audio")] in
  AudioSplitter.split_all env ["in/a.m4a"; "in/b.m4a"] a 0 w
  = (Raise (ValueError "could not convert string to float: ''"),
     World (fs w) (trace w ++ [Makedirs "out"; Run (AudioSplitter.ffprobe_cmd "in/a.m4a")])).
Proof.
  intros env a w.
  apply (splitter_aborts_when_probe_fails env a "in/a.m4a" ["in/b.m4a"] 0 w).
  reflexivity.
Defined.

(** X10. When ffmpeg is not installed, the splitter stops at its first
    ffmpeg call with [FileNotFoundError]: one attempt is made, none after. *)
Theorem splitter_stops_when_ffmpeg_is_missing
    (env : Env) (file_path output_dir fmt : string) (L : Z) (D : Q) (w : world) :
  (0 < L)%Z -> (0 < D)%Q ->
  ffprobe env file_path (fs w) = Ret D ->
  (forall cmd f, fst (ffmpeg env cmd f) = NotInstalled) ->
  exists detail w',
    AudioSplitter.split_audio_file env file_path output_dir L fmt w
      = (Raise (FileNotFoundError detail), w')
    /\ ffmpeg_runs (trace w')
       = ffmpeg_runs (trace w)
         ++ [AudioSplitter.segment_cmd file_path output_dir
               (fst (OsPath.splitext (OsPath.basename file_path))) L fmt 0].
Proof.
  intros HL HD Hprobe Hmissing.
  assert (Hn : (0 < Qceiling (D / inject_Z L))%Z).
  { assert (H0 : (0 < D / inject_Z L)%Q).
    { apply Qlt_shift_div_l; [|by rewrite Qmult_0_l].
      change 0%Q with (inject_Z 0). by rewrite <- Zlt_Qlt. }
    pose proof (Qle_ceiling (D / inject_Z L)) as Hc.
    assert (H1 : (0 < inject_Z (Qceiling (D / inject_Z L)))%Q) by (eapply Qlt_le_trans; eassumption).
    change 0%Q with (inject_Z 0) in H1. by rewrite <- Zlt_Qlt in H1. }
  unfold AudioSplitter.split_audio_file.
  unfold bind at 1. simpl. unfold bind at 1. unfold AudioSplitter.get_duration. simpl.
  rewrite Hprobe.
  destruct (Z.eqb_spec L 0) as [->|_]; [lia|].
  unfold bind at 1. simpl. unfold bind at 1.
  destruct (Z.to_nat (Qceiling (D / inject_Z L))) as [|k] eqn:Hk; [lia|].
  cbn [seq AudioSplitter.run_segments].
  unfold bind at 1, subprocess_run. cbn [fs trace].
  match goal with |- context [ffmpeg env ?c ?f] =>
    pose proof (Hmissing c f) as Hm; destruct (ffmpeg env c f) as [p f'] end.
  simpl in Hm. subst p.
  eexists _, _. split; [reflexivity|].
  cbn [trace]. rewrite !ffmpeg_runs_app. simpl. by rewrite !app_nil_r.
Qed.

Lemma splitter_stops_when_ffmpeg_is_missing_witness :
  let env := {| listdir := fun _ => ["rec.m4a"];
                ffmpeg := fun cmd f => (NotInstalled, f);
                ffprobe := fun _ _ => Ret (1450 # 1)%Q;
                whisper := fun _ _ _ _ => Ret [];
                now := Fixtures.t0;
                elapsed_of := fun _ => (2 # 1)%Q;
                format_1f := fun _ => "2.0" |} in
  let w := Fixtures.w_of [("in", Dir); ("in/rec.m4a", File "audio")] in
  exists detail w',
    AudioSplitter.split_audio_file env "in/rec.m4a" "out" 600 "m4a" w
      = (Raise (FileNotFoundError detail), w')
    /\ ffmpeg_runs (trace w')
       = ffmpeg_runs (trace w)
         ++ [AudioSplitter.segment_cmd "in/rec.m4a" "out"
               (fst (OsPath.splitext (OsPath.basename "in/rec.m4a"))) 600 "m4a" 0].
Proof.
  intros env w.
  apply (splitter_stops_when_ffmpeg_is_missing env "in/rec.m4a" "out" "m4a" 600 (1450 # 1)%Q w).
  - reflexivity.
  - reflexivity.
  - reflexivity.
  - intros cmd f. reflexivity.
Defined.

(** X11. The segments of one file get pairwise different file names. *)
Theorem segment_names_are_distinct (base_name fmt : string) (i j : nat) :
  AudioSplitter.output_filename base_name i fmt = AudioSplitter.output_filename base_name j fmt ->
  i = j.
Proof.
  unfold AudioSplitter.output_filename. intros H.
  apply string_app_inj_r in H. apply string_app_inj_r in H.
  apply string_app_inj_l in H. apply zfill_inj in H. lia.
Qed.

Lemma segment_names_are_distinct_witness : 999 = 999.
Proof.
  apply (segment_names_are_distinct "rec" "m4a" 999 999). reflexivity.
Defined.

(** X12. When the splitter has nothing to process (the explicit file is
    found neither as given nor inside the input folder, or the folder holds
    no [.m4a]/[.opus] file) [main] prints one message and returns: no
    directory is created, nothing is probed or cut. *)
Theorem splitter_main_with_nothing_to_do (env : Env) (a : AudioSplitter.args) (w : world) :
  isdir_in (fs w) (AudioSplitter.input_folder a) = true ->
  (exists name,
     AudioSplitter.file a = Some name /\ name <> "" /\
     isfile_in (fs w) name = false /\
     isfile_in (fs w) (OsPath.join (AudioSplitter.input_folder a) name) = false)
  \/ (truthy (AudioSplitter.file a) = false /\
      List.filter AudioSplitter.is_audio (listdir env (AudioSplitter.input_folder a)) = []) ->
  exists m,
    AudioSplitter.main env a w = (Ret tt, World (fs w) (trace w ++ [Say m]))
    /\ (m = ANoAudioFiles (AudioSplitter.input_folder a)
        \/ exists p, m = AFileNotFound p).
Proof.
  intros Hdir Hcase.
  unfold AudioSplitter.main. unfold bind at 1, isdir. cbn [fs trace]. rewrite Hdir.
  cbn [negb]. unfold bind at 1. unfold AudioSplitter.discover.
  destruct Hcase as [(name & Hfile & Hname & Hf1 & Hf2) | (Hnone & Hempty)].
  - rewrite Hfile. cbn [truthy default].
    destruct (String.eqb_spec name ""); [done|]. cbn [negb]. cbv zeta.
    unfold bind at 1, isfile. cbn [fs trace default]. unfold id. rewrite Hf1.
    unfold bind at 1. cbn [fs trace]. rewrite Hf2.
    unfold bind, say, emit, ret. cbn [fs trace].
    eexists. split; [reflexivity|]. right. eauto.
  - rewrite Hnone, Hempty. unfold ret, say, emit. cbn [map fs trace].
    eexists. split; [reflexivity|]. by left.
Qed.

Lemma splitter_main_with_nothing_to_do_witness :
  let env := Fixtures.env_ok ["notes.txt"] in
  let a := AudioSplitter.Args "in" None "out" 600 "m4a" in
  let w := Fixtures.w_of [("in", Dir); ("in/notes.txt", File "text")] in
  exists m,
    AudioSplitter.main env a w = (Ret tt, World (fs w) (trace w ++ [Say m]))
    /\ (m = ANoAudioFiles "in" \/ exists p, m = AFileNotFound p).
Proof.
  intros env a w.
  apply (splitter_main_with_nothing_to_do env a w).
  - reflexivity.
  - right. split; reflexivity.
Defined.

(** ** transcribe.py: one file *)

(** A file whose transcript is on disk: nothing is loaded or transcribed,
    and with [--print] the stored text is echoed as it is read back. *)
Lemma transcribe_single_file_existing
    (env : Env) (file_path model_name language body : string) (w : world) :
  let txt_path :=
    OsPath.join (OsPath.dirname file_path)
      (fst (OsPath.splitext (OsPath.basename file_path)) +:+ ".txt") in
  isfile_in (fs w) file_path = true ->
  fs w !! txt_path = Some (File body) ->
  exists tr,
    Transcribe.transcribe_single_file env file_path model_name language true w
      = (Ret txt_path, World (fs w) (trace w ++ tr))
    /\ transcribed tr = [] /\ models_loaded tr = []
    /\ TEcho (Py.universal_newlines body) ∈ said tr.
Proof.
  intros txt_path Hfile Htxt. subst txt_path.
  unfold Transcribe.transcribe_single_file.
  unfold bind at 1, isfile. cbn [fs trace]. rewrite Hfile. cbn [negb].
  unfold bind at 1.
  assert (Hwarn : exists t0,
            when (negb (Transcribe.is_audio file_path)) (say (TWarnUnsupported file_path)) w
            = (Ret tt, World (fs w) (trace w ++ t0))
            /\ transcribed t0 = [] /\ models_loaded t0 = []).
  { destruct (Transcribe.is_audio file_path); unfold when, say, emit, ret; cbn [negb fs trace].
    - exists []. rewrite app_nil_r. by destruct w.
    - eexists [_]. done. }
  destruct Hwarn as (t0 & -> & Ht0 & Hm0). cbv zeta.
  unfold bind at 1, path_exists. cbn [fs trace]. unfold exists_in. rewrite Htxt.
  unfold bind, say, emit, when, try_except, read_text, ret. cbn [fs trace]. rewrite Htxt.
  cbn [fs trace]. rewrite <- !app_assoc.
  eexists. split; [reflexivity|].
  rewrite !transcribed_app, !models_loaded_app, !said_app, Ht0, Hm0. simpl.
  split; [reflexivity|]. split; [reflexivity|].
  apply elem_of_app. right. right. left.
Qed.

(** X13. Transcribing a file that has no transcript yet, when Whisper
    returns: the segments, stripped of the white space around them and
    joined by newlines, are written next to the audio file and the path of
    that file is returned, Whisper having been called once.  Running the
    same command again with [--print] then finds the transcript: it echoes
    the stored text as text mode reads it back (a carriage return inside a
    segment comes back as a newline) and neither loads a model nor calls
    Whisper. *)
Theorem transcribe_single_file_then_again
    (env : Env) (file_path model_name language : string) (print_to_screen : bool)
    (segments : list string) (w : world) :
  let txt_path :=
    OsPath.join (OsPath.dirname file_path)
      (fst (OsPath.splitext (OsPath.basename file_path)) +:+ ".txt") in
  let text := Py.join_str nl (map Py.strip segments) in
  isfile_in (fs w) file_path = true ->
  exists_in (fs w) txt_path = false ->
  whisper env model_name file_path language (fs w) = Ret segments ->
  exists w1 w2,
    Transcribe.transcribe_single_file env file_path model_name language print_to_screen w
      = (Ret txt_path, w1)
    /\ fs w1 = <[txt_path := File text]> (fs w)
    /\ transcribed (trace w1) = transcribed (trace w) ++ [file_path]
    /\ heartbeat_running false (trace w1) = false
    /\ Transcribe.transcribe_single_file env file_path model_name language true w1
       = (Ret txt_path, w2)
    /\ fs w2 = fs w1
    /\ transcribed (trace w2) = transcribed (trace w1)
    /\ models_loaded (trace w2) = models_loaded (trace w1)
    /\ (exists tr, trace w2 = trace w1 ++ tr
                   /\ TEcho (Py.universal_newlines text) ∈ said tr).
Proof.
  intros txt_path text Hfile Hex Hwhisper.
  pose proof (exists_in_false _ _ Hex) as Hnone.
  assert (Hne : file_path <> txt_path).
  { intros E. unfold isfile_in in Hfile. rewrite E, Hnone in Hfile. discriminate. }
  assert (Hfirst : exists t1,
    Transcribe.transcribe_single_file env file_path model_name language print_to_screen w
      = (Ret txt_path, World (<[txt_path := File text]> (fs w)) (trace w ++ t1))
    /\ transcribed t1 = [file_path]
    /\ (forall r, heartbeat_running r (trace w ++ t1) = false)).
  { unfold Transcribe.transcribe_single_file.
    unfold bind at 1, isfile. cbn [fs trace]. rewrite Hfile. cbn [negb].
    unfold bind at 1.
    assert (Hwarn : exists t0,
              when (negb (Transcribe.is_audio file_path)) (say (TWarnUnsupported file_path)) w
              = (Ret tt, World (fs w) (trace w ++ t0)) /\ transcribed t0 = []).
    { destruct (Transcribe.is_audio file_path); unfold when, say, emit, ret; cbn [negb fs trace].
      - exists []. rewrite app_nil_r. by destruct w.
      - eexists [_]. done. }
    destruct Hwarn as (t0 & -> & Ht0). cbv zeta. fold txt_path.
    unfold bind at 1, path_exists. cbn [fs trace]. rewrite Hex.
    unfold bind at 1, Transcribe.load_model.
    unfold bind at 1, say at 1, emit. cbn [fs trace].
    unfold bind at 1, emit. cbn [fs trace]. unfold say at 1, emit. cbn [fs trace].
    unfold bind at 1, say at 1, emit. cbn [fs trace].
    unfold bind at 1, emit. cbn [fs trace].
    unfold try_except, bind at 1, Transcribe.model_transcribe. cbn [fs trace].
    rewrite Hwhisper.
    unfold bind at 1, emit. cbn [fs trace].
    unfold bind at 1, say at 1, emit. cbn [fs trace].
    unfold bind at 1, write_text. cbn [fs trace]. rewrite Hnone. fold text.
    destruct print_to_screen;
      unfold Transcribe.echo, when; cbn iota;
      unfold bind, say, emit, ret, raise; cbn [fs trace];
      rewrite <- !app_assoc;
      (eexists; split; [reflexivity|]);
      (split; [rewrite !transcribed_app, Ht0; reflexivity|]);
      intros r; rewrite !heartbeat_running_app; reflexivity. }
  destruct Hfirst as (t1 & Hrun1 & Htr1 & Hbeat1).
  set (w1 := World (<[txt_path := File text]> (fs w)) (trace w ++ t1)).
  destruct (transcribe_single_file_existing env file_path model_name language text w1)
    as (tr & Hrun2 & Htr2 & Hm2 & Hecho).
  { unfold w1, isfile_in. cbn [fs]. rewrite lookup_insert_ne by congruence. exact Hfile. }
  { unfold w1. cbn [fs]. apply lookup_insert_eq. }
  exists w1, (World (fs w1) (trace w1 ++ tr)).
  split; [exact Hrun1|]. split; [reflexivity|].
  split; [unfold w1; cbn [trace]; by rewrite transcribed_app, Htr1|].
  split; [apply Hbeat1|].
  split; [exact Hrun2|]. split; [reflexivity|].
  split; [cbn [trace]; by rewrite transcribed_app, Htr2, app_nil_r|].
  split; [cbn [trace]; by rewrite models_loaded_app, Hm2, app_nil_r|].
  exists tr. split; [reflexivity | exact Hecho].
Qed.

Lemma transcribe_single_file_then_again_witness :
  let env := Fixtures.env_ok [] in
  let w := Fixtures.w_of [("in", Dir); ("in/talk.m4a", File "audio")] in
  exists w1 w2,
    Transcribe.transcribe_single_file env "in/talk.m4a" "medium" "he" false w
      = (Ret "in/talk.txt", w1)
    /\ fs w1 !! "in/talk.txt" = Some (File ("hello" +:+ nl +:+ "world"))
    /\ Transcribe.transcribe_single_file env "in/talk.m4a" "medium" "he" true w1
       = (Ret "in/talk.txt", w2)
    /\ transcribed (trace w2) = ["in/talk.m4a"].
Proof.
  intros env w.
  destruct (transcribe_single_file_then_again env "in/talk.m4a" "medium" "he" false
              [" hello "; "world"] w)
    as (w1 & w2 & Hrun1 & Hfs1 & Htr1 & _ & Hrun2 & _ & Htr2 & _).
  - reflexivity.
  - reflexivity.
  - reflexivity.
  - exists w1, w2. split; [exact Hrun1|].
    split; [rewrite Hfs1; apply lookup_insert_eq|].
    split; [exact Hrun2|].
    rewrite Htr2, Htr1. reflexivity.
Defined.

(** ** transcribe.py: the loop over a folder *)

(** What the loop of [transcribe_folder] does, whatever Whisper answers and
    however the loop ends. *)
Lemma transcribe_all_facts (env : Env) (folder model_name language : string)
    (print_to_screen : bool) (unify : option string) (audio_files : list string) :
  forall (acc : list Transcribe.item) (w : world),
    exists o f' tr,
      Transcribe.transcribe_all env folder model_name language print_to_screen unify
        audio_files acc w = (o, World f' (trace w ++ tr))
      /\ (forall p, is_Some (fs w !! p) -> f' !! p = fs w !! p)
      /\ ((forall r,
             (exists e, o = Raise e /\ is_exception e = false /\ heartbeat_running r tr = true)
             \/ heartbeat_running r tr = false
             \/ (heartbeat_running r tr = r /\ transcribed tr = []))
          /\ (forall e, o = Raise e -> is_exception e = false ->
                forall r, heartbeat_running r tr = true))
      /\ sublist (transcribed tr) (map (OsPath.join folder) audio_files)
      /\ (forall p b, (p, b) ∈ writes tr ->
            exists n, n ∈ audio_files /\ fs w !! p = None
                      /\ p = OsPath.join folder (fst (OsPath.splitext n) +:+ ".txt"))
      /\ ffmpeg_runs tr = [] /\ models_loaded tr = [].
Proof.
  induction audio_files as [|n l IH]; intros acc w.
  { exists (Ret acc), (fs w), []. simpl. unfold ret. rewrite app_nil_r. destruct w.
    split; [reflexivity|]. split; [done|]. split; [split; [intros r; right; by right | discriminate]|].
    split; [constructor|]. split; [|done].
    intros p b Hp. by apply elem_of_nil in Hp. }
  cbn [Transcribe.transcribe_all]. cbv zeta.
  set (txt := OsPath.join folder (fst (OsPath.splitext n) +:+ ".txt")).
  unfold bind at 1, path_exists. cbn [fs trace].
  unfold bind at 1.
  match goal with |- context [let (_, _) := ?X w in _] =>
    assert (Hstep : exists o1 f1 t1,
      X w = (o1, World f1 (trace w ++ t1))
      /\ (forall p, is_Some (fs w !! p) -> f1 !! p = fs w !! p)
      /\ (forall p, is_Some (fs w !! p) -> is_Some (f1 !! p))
      /\ ((forall r,
             (exists e, o1 = Raise e /\ is_exception e = false /\ heartbeat_running r t1 = true)
             \/ heartbeat_running r t1 = false
             \/ (heartbeat_running r t1 = r /\ transcribed t1 = []))
          /\ (forall e, o1 = Raise e -> is_exception e = false ->
                forall r, heartbeat_running r t1 = true))
      /\ (transcribed t1 = [] \/ transcribed t1 = [OsPath.join folder n])
      /\ (forall p b, (p, b) ∈ writes t1 -> fs w !! p = None /\ p = txt)
      /\ (forall p, f1 !! p = None -> fs w !! p = None)
      /\ ffmpeg_runs t1 = [] /\ models_loaded t1 = [])
  end.
  { destruct (exists_in (fs w) txt) eqn:Hex.
    - (* the transcript exists *)
      unfold bind at 1, say at 1, emit. cbn [fs trace].
      destruct (truthy unify).
      + unfold try_except, bind at 1, read_text. cbn [fs trace].
        destruct (fs w !! txt) as [[|body|why]|] eqn:E;
          unfold bind, say, emit, ret; cbn [fs trace]; rewrite <- ?app_assoc;
          (eexists _, _, _; split; [reflexivity|]);
          (split; [done|]); (split; [done|]);
          (split; [split; [intros r; right; by right | discriminate]|]); (split; [by left|]);
          (split; [intros p b Hp; simpl in Hp; by apply elem_of_nil in Hp|]);
          (split; [done|]); done.
      + unfold ret. eexists _, _, _. split; [reflexivity|].
        split; [done|]. split; [done|].
        split; [split; [intros r; right; by right | discriminate]|]. split; [by left|].
        split; [intros p b Hp; simpl in Hp; by apply elem_of_nil in Hp|]. done.
    - (* the file is transcribed *)
      pose proof (exists_in_false _ _ Hex) as Hnone.
      assert (Hkeep : forall body p, is_Some (fs w !! p) ->
                <[txt := File body]> (fs w) !! p = fs w !! p).
      { intros body p [x Hp]. apply lookup_insert_ne. intros ->. congruence. }
      assert (Hkeep' : forall body p, is_Some (fs w !! p) ->
                is_Some (<[txt := File body]> (fs w) !! p)).
      { intros body p Hp. by rewrite Hkeep. }
      assert (Hback : forall body p, <[txt := File body]> (fs w) !! p = None -> fs w !! p = None).
      { intros body p Hp. destruct (decide (txt = p)) as [->|Hne].
        - by rewrite lookup_insert_eq in Hp.
        - by rewrite lookup_insert_ne in Hp. }
      unfold bind at 1, say at 1, emit. cbn [fs trace].
      unfold bind at 1, emit. cbn [fs trace].
      unfold try_except, bind at 1, Transcribe.model_transcribe. cbn [fs trace].
      destruct (whisper env model_name (OsPath.join folder n) language (fs w)) as [segs|e].
      + unfold bind at 1, emit. cbn [fs trace].
        unfold bind at 1, say at 1, emit. cbn [fs trace].
        unfold bind at 1, write_text. cbn [fs trace]. fold txt. rewrite Hnone.
        destruct print_to_screen;
          unfold Transcribe.echo, when; cbn iota;
          unfold bind, say, emit, ret, raise; cbn [fs trace];
          rewrite <- !app_assoc;
          (eexists _, _, _; split; [reflexivity|]);
          (split; [apply Hkeep|]); (split; [apply Hkeep'|]);
          (split; [split; [intros r; right; by left | discriminate]|]); (split; [by right|]);
          (split; [intros p b Hp; simpl in Hp; apply list_elem_of_singleton in Hp;
                   injection Hp as -> ->; done|]);
          (split; [apply Hback|]); done.
      + destruct (is_exception e) eqn:He;
          unfold bind, emit, raise; cbn [fs trace]; rewrite <- ?app_assoc;
          (eexists _, _, _; split; [reflexivity|]);
          (split; [done|]); (split; [done|]);
          (split; [split; [intros r; first [right; by left | left; by exists e]
                          | intros e0 He0 Hne0 r0; injection He0 as <-;
                            first [congruence | reflexivity]]|]);
          (split; [by right|]);
          (split; [intros p b Hp; simpl in Hp; by apply elem_of_nil in Hp|]); done. }
  destruct Hstep
    as (o1 & f1 & t1 & -> & Hkeep1 & Hsome1 & (Hbeat1 & Hesc1) & Htr1 & Hw1 & Hnone1 & Hff1 & Hm1).
  destruct o1 as [acc1|e].
  - destruct (IH acc1 (World f1 (trace w ++ t1)))
      as (o & f' & tr & -> & Hkeep & (Hbeat & Hesc) & Hsub & Hw & Hff & Hm).
    cbn [fs trace] in *.
    exists o, f', (t1 ++ tr). rewrite <- app_assoc. split; [reflexivity|].
    split. { intros p Hp. rewrite Hkeep by auto. auto. }
    split.
    { split.
      - intros r. rewrite heartbeat_running_app, transcribed_app.
        destruct (Hbeat1 r) as [(e & He & _)|[H1|[H1 H1']]]; [discriminate| |]; rewrite H1.
        + destruct (Hbeat false) as [H2|[H2|[H2 _]]]; [by left | right; by left | right; by left].
        + destruct (Hbeat r) as [H2|[H2|[H2 H2']]]; [by left | right; by left | right; right].
          by rewrite H1', H2'.
      - intros e He Hne r. rewrite heartbeat_running_app. by eapply Hesc. }
    split.
    { rewrite transcribed_app. cbn [map].
      destruct Htr1 as [-> | ->]; simpl; [by apply sublist_cons | by apply sublist_skip]. }
    split.
    { intros p b Hp. rewrite writes_app in Hp. apply elem_of_app in Hp as [Hp|Hp].
      - destruct (Hw1 p b Hp) as [Hn ->]. exists n. split; [left|]. by split.
      - destruct (Hw p b Hp) as (n' & Hn' & Hnone & ->). exists n'.
        split; [by right|]. split; [by apply Hnone1 | reflexivity]. }
    by rewrite ffmpeg_runs_app, models_loaded_app, Hff1, Hm1, Hff, Hm.
  - exists (Raise e), f1, t1. split; [reflexivity|].
    split; [exact Hkeep1|]. split; [split; [exact Hbeat1 | exact Hesc1]|].
    split.
    { cbn [map]. destruct Htr1 as [-> | ->]; [apply sublist_nil_l|].
      apply sublist_skip. apply sublist_nil_l. }
    split; [|done].
    intros p b Hp. destruct (Hw1 p b Hp) as [Hn ->]. exists n. split; [left|]. by split.
Qed.

(** X14. The loop of [transcribe_folder] never touches a file that is
    already there: every file of the folder keeps its content, whether the
    loop finishes or is ended by an exception, and each file it writes is
    the [.txt] sibling of one of the audio files, which did not exist
    before. *)
Theorem transcribe_loop_keeps_existing_files
    (env : Env) (folder model_name language : string) (print_to_screen : bool)
    (unify : option string) (audio_files : list string) (acc : list Transcribe.item) (w : world) :
  exists o f' tr,
    Transcribe.transcribe_all env folder model_name language print_to_screen unify
      audio_files acc w = (o, World f' (trace w ++ tr))
    /\ (forall p, is_Some (fs w !! p) -> f' !! p = fs w !! p)
    /\ (forall p b, (p, b) ∈ writes tr ->
          exists n, n ∈ audio_files /\ fs w !! p = None
                    /\ p = OsPath.join folder (fst (OsPath.splitext n) +:+ ".txt")).
Proof.
  destruct (transcribe_all_facts env folder model_name language print_to_screen unify
              audio_files acc w) as (o & f' & tr & Hrun & Hkeep & _ & _ & Hw & _).
  exists o, f', tr. auto.
Qed.

(** X15. When the loop of [transcribe_folder] finishes, or is ended by an
    exception that [except Exception] catches, no heartbeat thread is left
    running: every start of the progress thread in its trace is followed by
    a stop.  Any other way the loop can end (Ctrl-C or [SystemExit] out of
    Whisper) passes the handler by and leaves the heartbeat running. *)
Theorem transcribe_loop_stops_every_heartbeat
    (env : Env) (folder model_name language : string) (print_to_screen : bool)
    (unify : option string) (audio_files : list string) (acc : list Transcribe.item) (w : world) :
  exists o f' tr,
    Transcribe.transcribe_all env folder model_name language print_to_screen unify
      audio_files acc w = (o, World f' (trace w ++ tr))
    /\ ((forall e, o = Raise e -> is_exception e = true) ->
        heartbeat_running false tr = false
        /\ (transcribed tr <> [] -> forall r, heartbeat_running r tr = false))
    /\ (heartbeat_running false tr = true <->
        exists e, o = Raise e /\ is_exception e = false).
Proof.
  destruct (transcribe_all_facts env folder model_name language print_to_screen unify
              audio_files acc w) as (o & f' & tr & Hrun & _ & (Hbeat & Hesc) & _).
  exists o, f', tr. split; [exact Hrun|]. split.
  - intros Hcaught.
    assert (Hnot : forall r, ~ exists e, o = Raise e /\ is_exception e = false
                                         /\ heartbeat_running r tr = true).
    { intros r (e & He & Hne & _). rewrite (Hcaught e He) in Hne. discriminate. }
    split.
    + destruct (Hbeat false) as [H|[H|[H _]]]; [by destruct (Hnot false) | exact H | exact H].
    + intros Hne r. destruct (Hbeat r) as [H|[H|[_ H]]];
        [by destruct (Hnot r) | exact H | congruence].
  - split.
    + intros Hrunning.
      destruct (Hbeat false) as [(e & He & Hne & _)|[H|[H _]]]; [by exists e| |]; congruence.
    + intros (e & He & Hne). by eapply Hesc.
Qed.

(** X16. In the loop of [transcribe_folder] Whisper is called at most once
    per audio file, in the order of the list, on the file joined to the
    folder; the loop runs no ffmpeg and loads no model. *)
Theorem transcribe_loop_calls_whisper_in_order
    (env : Env) (folder model_name language : string) (print_to_screen : bool)
    (unify : option string) (audio_files : list string) (acc : list Transcribe.item) (w : world) :
  exists o f' tr,
    Transcribe.transcribe_all env folder model_name language print_to_screen unify
      audio_files acc w = (o, World f' (trace w ++ tr))
    /\ sublist (transcribed tr) (map (OsPath.join folder) audio_files)
    /\ ffmpeg_runs tr = [] /\ models_loaded tr = [].
Proof.
  destruct (transcribe_all_facts env folder model_name language print_to_screen unify
              audio_files acc w) as (o & f' & tr & Hrun & _ & _ & Hsub & _ & Hff & Hm).
  exists o, f', tr. auto.
Qed.

(** X17. With [--unify] and no model, [transcribe_folder] only aggregates.
    In an existing folder it invokes neither Whisper nor ffmpeg, and no
    file other than the aggregate document is created or changed.  For a
    folder that is not there the listing raises at once: nothing is
    printed, read or written. *)
Theorem aggregate_only_mode_touches_nothing_else
    (env : Env) (folder language sort_order : string) (print_to_screen : bool) (w : world) :
  let target := OsPath.join folder (Transcribe.unified_file_name sort_order (now env)) in
  sort_order <> "" ->
  (isdir_in (fs w) folder = true ->
   isdir_in (fs w) target = false ->
   exists w' tr,
     Transcribe.transcribe_folder env folder None language print_to_screen (Some sort_order) w
       = (Ret tt, w')
     /\ trace w' = trace w ++ tr
     /\ external_calls tr = 0
     /\ (forall p, p <> target -> fs w' !! p = fs w !! p))
  /\
  (isdir_in (fs w) folder = false ->
   exists e,
     Transcribe.transcribe_folder env folder None language print_to_screen (Some sort_order) w
       = (Raise e, w)
     /\ is_exception e = true).
Proof.
  intros target Hso.
  unfold Transcribe.transcribe_folder. cbn [truthy default negb andb].
  destruct (String.eqb_spec sort_order ""); [done|]. cbn [negb andb]. unfold id.
  destruct (unify_transcripts_spec env folder sort_order w)
    as (tr & _ & Hcalls & _ & Hdir & Hmissing & _).
  split; [|exact Hmissing].
  intros Hfolder Htarget.
  destruct (Hdir Hfolder) as (_ & Hnone & Hsome).
  fold target in Hsome.
  destruct (decide (omap (entry_of (fs w) folder) (candidates env folder sort_order) = []))
    as [Hi|Hi].
  - destruct (Hnone Hi) as (-> & _). eexists _, tr. split; [reflexivity|].
    split; [reflexivity|]. split; [exact Hcalls|]. done.
  - destruct (Hsome Hi Htarget) as (-> & _). eexists _, tr. split; [reflexivity|].
    split; [reflexivity|]. split; [exact Hcalls|].
    intros p Hp. cbn [fs]. by apply lookup_insert_ne.
Qed.

Lemma aggregate_only_mode_touches_nothing_else_witness :
  let env := Fixtures.env_ok ["b.txt"; "a.txt"; "a.m4a"] in
  let w := Fixtures.w_of [("in", Dir); ("in/a.txt", File "A"); ("in/b.txt", File "B");
                          ("in/a.m4a", File "audio")] in
  (exists w' tr,
     Transcribe.transcribe_folder env "in" None "he" false (Some "desc") w = (Ret tt, w')
     /\ trace w' = trace w ++ tr
     /\ external_calls tr = 0
     /\ (forall p, p <> "in/unified_transcript_desc_20250102_030405.txt" ->
           fs w' !! p = fs w !! p))
  /\
  (exists e,
     Transcribe.transcribe_folder env "gone" None "he" false (Some "desc") w = (Raise e, w)
     /\ is_exception e = true).
Proof.
  intros env w. split.
  - apply (aggregate_only_mode_touches_nothing_else env "in" "he" "desc" false w).
    + discriminate.
    + reflexivity.
    + reflexivity.
  - apply (aggregate_only_mode_touches_nothing_else env "gone" "he" "desc" false w).
    + discriminate.
    + reflexivity.
Defined.

(** X18. A folder run with a model loads that model exactly once, before
    anything else and whatever follows: a missing folder, a folder without
    audio files, transcripts that all exist already, or a failing Whisper. *)
Theorem transcribe_folder_loads_model_once
    (env : Env) (folder model_name language : string) (print_to_screen : bool)
    (unify : option string) (w : world) :
  model_name <> "" ->
  exists o f' tr,
    Transcribe.transcribe_folder env folder (Some model_name) language print_to_screen unify w
      = (o, World f' (trace w ++ tr))
    /\ models_loaded tr = [model_name]
    /\ ffmpeg_runs tr = [].
Proof.
  intros Hm.
  unfold Transcribe.transcribe_folder. cbn [truthy].
  destruct (String.eqb_spec model_name ""); [done|]. cbn [negb]. rewrite andb_false_r.
  unfold bind at 1, Transcribe.load_model.
  unfold bind at 1, say at 1, emit. cbn [fs trace].
  unfold bind at 1, emit. cbn [fs trace]. unfold say at 1, emit. cbn [fs trace].
  unfold bind at 1, isdir. cbn [fs trace].
  destruct (isdir_in (fs w) folder); cbn [negb].
  2:{ unfold raise. rewrite <- !app_assoc. eexists _, _, _. split; [reflexivity|]. done. }
  destruct (List.filter Transcribe.is_audio (listdir env folder)) as [|n0 ns] eqn:Hscan.
  { unfold say, emit. cbn [fs trace]. rewrite <- !app_assoc.
    eexists _, _, _. split; [reflexivity|]. done. }
  cbv zeta. cbn [default]. unfold id.
  unfold bind at 1.
  match goal with |- context [let (_, _) := ?X ?w0 in _] =>
    assert (Hsay : exists m0, X w0 = (Ret tt, World (fs w0) (trace w0 ++ [Say m0])))
  end.
  { destruct (truthy unify); unfold say, emit; cbn [fs trace]; eauto. }
  destruct Hsay as (m0 & ->). cbn [fs trace].
  unfold bind at 1.
  match goal with |- context [Transcribe.transcribe_all env ?a ?b ?c ?d ?e ?l ?acc ?w0] =>
    destruct (transcribe_all_facts env a b c d e l acc w0)
      as (o & f' & tr & -> & _ & _ & _ & _ & Hff & Hml)
  end.
  cbn [fs trace].
  destruct o as [[|it its]|e].
  - unfold ret. rewrite <- !app_assoc. eexists _, _, _. split; [reflexivity|].
    rewrite !models_loaded_app, !ffmpeg_runs_app, Hml, Hff. done.
  - destruct (truthy unify); unfold when.
    + unfold bind at 1, write_text. cbn [fs trace].
      match goal with |- context [f' !! ?p] => destruct (f' !! p) as [[|body|why]|] end;
        unfold bind, say, emit, ret; cbn [fs trace]; rewrite <- !app_assoc;
        (eexists _, _, _; split; [reflexivity|]);
        rewrite !models_loaded_app, !ffmpeg_runs_app, Hml, Hff; done.
    + unfold ret. rewrite <- !app_assoc. eexists _, _, _. split; [reflexivity|].
      rewrite !models_loaded_app, !ffmpeg_runs_app, Hml, Hff. done.
  - rewrite <- !app_assoc. eexists _, _, _. split; [reflexivity|].
    rewrite !models_loaded_app, !ffmpeg_runs_app, Hml, Hff. done.
Qed.

Lemma transcribe_folder_loads_model_once_witness :
  let env := Fixtures.env_bad ["a.m4a"; "b.m4a"] "in/b.m4a" in
  let w := Fixtures.w_of [("in", Dir); ("in/a.m4a", File "audio"); ("in/b.m4a", File "audio")] in
  exists o f' tr,
    Transcribe.transcribe_folder env "in" (Some "medium") "he" false None w
      = (o, World f' (trace w ++ tr))
    /\ models_loaded tr = ["medium"]
    /\ ffmpeg_runs tr = [].
Proof.
  intros env w.
  apply (transcribe_folder_loads_model_once env "in" "medium" "he" false None w).
  discriminate.
Defined.

(** ** The animation of the heartbeat *)

Lemma frames_of_app (t1 t2 : list Heartbeat.out) :
  frames_of (t1 ++ t2) = frames_of t1 ++ frames_of t2.
Proof.
  induction t1 as [|o t1 IH]; simpl; [reflexivity|].
  destruct o; simpl; congruence.
Qed.

Lemma frames_of_lines (l : list message) : frames_of (map Heartbeat.Line l) = [].
Proof. induction l as [|m l IH]; [reflexivity | exact IH]. Qed.

Lemma spin_succ (n : nat) : spin (S n) = spin n ++ [n mod Heartbeat.spinner_len].
Proof. unfold spin. rewrite seq_S, map_app. reflexivity. Qed.

Lemma animation_ok_init (before : list message) : animation_ok (Heartbeat.init before).
Proof.
  exists 0. unfold Heartbeat.init. cbn [Heartbeat.terminal Heartbeat.beat].
  split; [apply frames_of_lines | reflexivity].
Qed.

Lemma animation_ok_step (filename txt_path transcript : string) (print_to_screen : bool)
    (s s' : Heartbeat.state) :
  animation_ok s ->
  Heartbeat.step filename txt_path transcript print_to_screen s s' ->
  animation_ok s'.
Proof.
  intros (n & Hfr & Hpc) Hstep.
  destruct Hstep; cbn [Heartbeat.terminal Heartbeat.beat] in *;
    try solve [ exists n; cbn [Heartbeat.terminal Heartbeat.beat]; split;
                [ rewrite ?frames_of_app, ?Hfr; simpl; rewrite ?app_nil_r; done | done ] ].
  - (* start *)
    exists 0. cbn [Heartbeat.terminal Heartbeat.beat]. split; [by subst n | reflexivity].
  - (* echo *)
    exists n. cbn [Heartbeat.terminal Heartbeat.beat]. split; [|done].
    destruct print_to_screen; [|done].
    rewrite frames_of_app, Hfr. simpl. by rewrite app_nil_r.
  - (* frame *)
    exists (S n). cbn [Heartbeat.terminal Heartbeat.beat]. split; [|by exists n].
    rewrite frames_of_app, Hfr, spin_succ. simpl. by subst i.
  - (* sleep *)
    destruct Hpc as (k & -> & ->).
    exists (S k). cbn [Heartbeat.terminal Heartbeat.beat]. split; [done|].
    replace (S k) with (k + 1) by lia.
    unfold Heartbeat.spinner_len. by rewrite Nat.Div0.add_mod_idemp_l.
Qed.

(** X19. The heartbeat draws the spinner in order, round and round: at any
    moment the frames on the terminal are the first [n] frames of the
    cycle 0, 1, ..., 9, 0, 1, ..., and the index the thread holds never
    leaves the spinner. *)
Theorem heartbeat_frames_cycle
    (filename txt_path transcript : string) (print_to_screen : bool)
    (before : list message) (s : Heartbeat.state) :
  rtc (Heartbeat.step filename txt_path transcript print_to_screen) (Heartbeat.init before) s ->
  (exists n, frames_of (Heartbeat.terminal s) = spin n)
  /\ (forall i, spinner_index (Heartbeat.beat s) = Some i -> i < Heartbeat.spinner_len)
  /\ Forall (fun i => i < Heartbeat.spinner_len) (frames_of (Heartbeat.terminal s)).
Proof.
  intros Hreach.
  assert (Hok : animation_ok s).
  { apply rtc_ind_r with (x := Heartbeat.init before) (P := animation_ok) in Hreach; auto.
    - apply animation_ok_init.
    - intros y z _ Hyz Hy. eapply animation_ok_step; eassumption. }
  destruct Hok as (n & Hfr & Hpc).
  split; [by exists n|]. split.
  - intros i Hi. unfold Heartbeat.spinner_len in *.
    destruct (Heartbeat.beat s); simpl in Hi; try discriminate; injection Hi as <-.
    + subst. apply Nat.mod_upper_bound. lia.
    + subst. apply Nat.mod_upper_bound. lia.
    + destruct Hpc as (m & _ & ->). apply Nat.mod_upper_bound. lia.
  - rewrite Hfr. unfold spin. apply Forall_forall. intros i Hi.
    apply list_elem_of_fmap in Hi as (k & -> & _).
    apply Nat.mod_upper_bound. unfold Heartbeat.spinner_len. lia.
Qed.

Lemma heartbeat_frames_cycle_witness :
  let s := Heartbeat.State Heartbeat.MCall (Heartbeat.HWrite 1) false
             [Heartbeat.Line (TStarting "a.m4a"); Heartbeat.Frame 0] in
  (exists n, frames_of (Heartbeat.terminal s) = spin n)
  /\ (forall i, spinner_index (Heartbeat.beat s) = Some i -> i < Heartbeat.spinner_len)
  /\ Forall (fun i => i < Heartbeat.spinner_len) (frames_of (Heartbeat.terminal s)).
Proof.
  intros s.
  apply (heartbeat_frames_cycle "a.m4a" "a.txt" "hello" false [TStarting "a.m4a"] s).
  unfold Heartbeat.init, s. simpl map.
  eapply rtc_l; [apply Heartbeat.step_start|].
  eapply rtc_l; [apply Heartbeat.step_test_go|].
  eapply rtc_l; [apply Heartbeat.step_frame|].
  eapply rtc_l; [apply Heartbeat.step_sleep|].
  eapply rtc_l; [apply Heartbeat.step_test_go|].
  apply rtc_refl.
Defined.

(** ** transcribe.py: the command line *)

(** X20. [transcribe.py] exits with status 1, after one message and
    before loading any model, when the path is neither a file nor a
    folder, and when it is a folder and neither [--model] nor [--unify] is
    given. *)
Theorem transcribe_main_exits_with_status_1 (env : Env) (a : Transcribe.args) (w : world) :
  isfile_in (fs w) (Transcribe.path a) = false ->
  isdir_in (fs w) (Transcribe.path a) = false
  \/ (truthy (Transcribe.model a) = false /\ truthy (Transcribe.unify a) = false) ->
  exists m,
    Transcribe.main env a w = (Raise (SystemExit 1), World (fs w) (trace w ++ [Say m]))
    /\ (m = TNotFileOrDir (Transcribe.path a) \/ m = TNeedModelOrUnify).
Proof.
  intros Hfile Hcase.
  unfold Transcribe.main. unfold bind at 1, isfile. cbn [fs trace]. rewrite Hfile.
  unfold bind at 1, isdir. cbn [fs trace].
  destruct (isdir_in (fs w) (Transcribe.path a)) eqn:Hdir; cbn [negb andb].
  - destruct Hcase as [?|[Hm Hu]]; [discriminate|].
    rewrite Hm, Hu. cbn [negb andb].
    unfold bind, say, emit, raise. cbn [fs trace].
    eexists. split; [reflexivity|]. by right.
  - unfold bind, say, emit, raise. cbn [fs trace].
    eexists. split; [reflexivity|]. by left.
Qed.

Lemma transcribe_main_exits_with_status_1_witness :
  let env := Fixtures.env_ok ["a.m4a"] in
  let a := Transcribe.Args "in" None "he" false None in
  let w := Fixtures.w_of [("in", Dir); ("in/a.m4a", File "audio")] in
  exists m,
    Transcribe.main env a w = (Raise (SystemExit 1), World (fs w) (trace w ++ [Say m]))
    /\ (m = TNotFileOrDir "in" \/ m = TNeedModelOrUnify).
Proof.
  intros env a w.
  apply (transcribe_main_exits_with_status_1 env a w).
  - reflexivity.
  - right. split; reflexivity.
Defined.

(** X21. For a single audio file given without [--model], the model
    ["medium"] is the one loaded, and the file is given to Whisper, whether
    or not [--unify] was passed (it is ignored for a file). *)
Theorem transcribe_main_defaults_to_medium (env : Env) (a : Transcribe.args) (w : world) :
  isfile_in (fs w) (Transcribe.path a) = true ->
  truthy (Transcribe.model a) = false ->
  exists_in (fs w)
    (OsPath.join (OsPath.dirname (Transcribe.path a))
       (fst (OsPath.splitext (OsPath.basename (Transcribe.path a))) +:+ ".txt")) = false ->
  exists o f' tr,
    Transcribe.main env a w = (o, World f' (trace w ++ tr))
    /\ models_loaded tr = ["medium"]
    /\ transcribed tr = [Transcribe.path a].
Proof.
  intros Hfile Hmodel Htxt.
  pose proof (exists_in_false _ _ Htxt) as Hnone.
  unfold Transcribe.main. unfold bind at 1, isfile. cbn [fs trace]. rewrite Hfile.
  unfold bind at 1, isdir. cbn [fs trace negb andb]. rewrite Hmodel. cbn [negb andb].
  unfold bind at 1.
  assert (Hmod : exists m0,
    (if negb (truthy (Transcribe.unify a)) then ret (Some "medium") else ret (Transcribe.model a)) w
    = (Ret m0, w) /\ (if truthy m0 then default "" m0 else "medium") = "medium").
  { destruct (truthy (Transcribe.unify a)); cbn [negb]; unfold ret.
    - exists (Transcribe.model a). split; [reflexivity|]. by rewrite Hmodel.
    - exists (Some "medium"). split; reflexivity. }
  destruct Hmod as (m0 & -> & Hm0). cbv zeta. rewrite Hm0.
  unfold bind at 1.
  assert (Hwarn : exists t0,
    when (truthy (Transcribe.unify a)) (say TUnifyIgnored) w
    = (Ret tt, World (fs w) (trace w ++ t0))
    /\ models_loaded t0 = [] /\ transcribed t0 = []).
  { destruct (truthy (Transcribe.unify a)); unfold when, say, emit, ret; cbn [fs trace].
    - eexists [_]. done.
    - exists []. rewrite app_nil_r. by destruct w. }
  destruct Hwarn as (t0 & -> & Hml0 & Htr0).
  unfold bind at 1. unfold Transcribe.transcribe_single_file.
  unfold bind at 1, isfile. cbn [fs trace]. rewrite Hfile. cbn [negb].
  unfold bind at 1.
  match goal with |- context [let (_, _) := when ?c ?m ?w0 in _] =>
    assert (Hw2 : exists t1, when c m w0 = (Ret tt, World (fs w) (trace w ++ t0 ++ t1))
                             /\ models_loaded t1 = [] /\ transcribed t1 = [])
  end.
  { destruct (Transcribe.is_audio (Transcribe.path a)); unfold when, say, emit, ret;
      cbn [negb fs trace].
    - exists []. by rewrite app_nil_r.
    - eexists [_]. rewrite <- app_assoc. done. }
  destruct Hw2 as (t1 & -> & Hml1 & Htr1). cbv zeta.
  unfold bind at 1, path_exists. cbn [fs trace]. rewrite Htxt.
  unfold bind at 1, Transcribe.load_model.
  unfold bind at 1, say at 1, emit. cbn [fs trace].
  unfold bind at 1, emit. cbn [fs trace]. unfold say at 1, emit. cbn [fs trace].
  unfold bind at 1, say at 1, emit. cbn [fs trace].
  unfold bind at 1, emit. cbn [fs trace].
  unfold try_except, bind at 1, Transcribe.model_transcribe. cbn [fs trace].
  destruct (whisper env "medium" (Transcribe.path a) (Transcribe.lang a) (fs w)) as [segs|e].
  - unfold bind at 1, emit. cbn [fs trace].
    unfold bind at 1, say at 1, emit. cbn [fs trace].
    unfold bind at 1, write_text. cbn [fs trace]. rewrite Hnone.
    destruct (Transcribe.print a);
      unfold Transcribe.echo, when; cbn iota;
      unfold bind, say, emit, ret, raise; cbn [fs trace];
      rewrite <- !app_assoc;
      (eexists _, _, _; split; [reflexivity|]);
      rewrite !models_loaded_app, !transcribed_app, Hml0, Hml1, Htr0, Htr1; done.
  - destruct (is_exception e);
      unfold bind, emit, raise; cbn [fs trace]; rewrite <- !app_assoc;
      (eexists _, _, _; split; [reflexivity|]);
      rewrite !models_loaded_app, !transcribed_app, Hml0, Hml1, Htr0, Htr1; done.
Qed.

Lemma transcribe_main_defaults_to_medium_witness :
  let env := Fixtures.env_ok [] in
  let a := Transcribe.Args "in/talk.m4a" None "he" false (Some "asc") in
  let w := Fixtures.w_of [("in", Dir); ("in/talk.m4a", File "audio")] in
  exists o f' tr,
    Transcribe.main env a w = (o, World f' (trace w ++ tr))
    /\ models_loaded tr = ["medium"]
    /\ transcribed tr = ["in/talk.m4a"].
Proof.
  intros env a w.
  apply (transcribe_main_defaults_to_medium env a w).
  - reflexivity.
  - reflexivity.
  - reflexivity.
Defined.
